(** * js-sentinel: the change-detection engine

    A shallow embedding of the hashing, classification, diff and snapshot
    retention code of [src/services/monitor_service.py] and
    [src/services/content_storage.py], followed by the properties the
    specification states about them.

    Conventions of the embedding.
    - Python [float] values (confidences, weights, ratios) are exact
      rationals [Q]; every threshold of the source is a short decimal and
      is written here as the same decimal.
    - A Python [str] is a [text], a list of characters; short tags (method
      names, digests, file names) are [string]s.
    - Libraries the code calls but does not define (hashlib, difflib,
      esprima, jsbeautifier, the deobfuscator heuristics, the clock) are
      interfaces: type classes whose members are left abstract. *)

From Stdlib Require Import String Ascii DecimalString.
From Stdlib Require Import List Bool Arith PeanoNat ZArith.
From Stdlib Require Import QArith Qminmax Qround Lia Lqa.
From Stdlib Require Import Sorted Permutation OrderedTypeEx.
Import ListNotations.

Set Warnings "-abstract-large-number".
Open Scope nat_scope.
Open Scope list_scope.

(* ================================================================== *)
(** * Python built-ins used by the code                                 *)
(* ================================================================== *)

Module Py.

Definition text := list ascii.

Definition lit (s : string) : text := list_ascii_of_string s.

(** [x < y] and [x <= y] on floats. *)
Definition lt (x y : Q) : bool := negb (Qle_bool y x).
Definition le (x y : Q) : bool := Qle_bool x y.

(** [sum(xs)]: a left fold that starts at 0. *)
Definition sum (xs : list Q) : Q := fold_left Qplus xs 0%Q.

(** [min(a, b)]: the first argument unless the second is smaller. *)
Definition min (a b : Q) : Q := if lt b a then b else a.

(** [max(a, b)] on lengths. *)
Definition max (a b : nat) : nat := Nat.max a b.

(** [abs(a - b)] on lengths. *)
Definition absdiff (a b : nat) : nat := (a - b) + (b - a).

(** A length as a float. *)
Definition float (n : nat) : Q := inject_Z (Z.of_nat n).

(** [s[i:j]] for [0 <= i <= j]. *)
Definition slice {A} (s : list A) (i j : nat) : list A :=
  firstn (j - i) (skipn i s).

(** [range(0, stop, step)]; Python raises ValueError when [step] is 0. *)
Definition range_step (stop step : nat) : option (list nat) :=
  match step with
  | O => None
  | S _ => Some (map (fun k => k * step) (seq 0 ((stop + step - 1) / step)))
  end.

(** [str.isspace] on one character (code points below 256). *)
Definition isspace (c : ascii) : bool :=
  let n := nat_of_ascii c in
  ((9 <=? n) && (n <=? 13)) || ((28 <=? n) && (n <=? 32))
  || (n =? 133) || (n =? 160).

Fixpoint lstrip (s : text) : text :=
  match s with
  | c :: rest => if isspace c then lstrip rest else s
  | [] => []
  end.

Definition rstrip (s : text) : text := rev (lstrip (rev s)).

(** [s.strip()] *)
Definition strip (s : text) : text := rstrip (lstrip s).

(** [s.startswith(p)] *)
Fixpoint startswith (s p : text) : bool :=
  match p, s with
  | [], _ => true
  | _ :: _, [] => false
  | a :: p', b :: s' => Ascii.eqb a b && startswith s' p'
  end.

(** [s.rstrip(chars)] *)
Fixpoint lstrip_chars (chars s : text) : text :=
  match s with
  | c :: rest =>
      if existsb (Ascii.eqb c) chars then lstrip_chars chars rest else s
  | [] => []
  end.

Definition rstrip_chars (chars s : text) : text :=
  rev (lstrip_chars chars (rev s)).

Definition LF : ascii := "010".
Definition CR : ascii := "013".

(** The line boundaries of [str.splitlines] other than CR (code points
    below 256): LF, VT, FF, FS, GS, RS and NEL. *)
Definition is_linebreak (c : ascii) : bool :=
  let n := nat_of_ascii c in
  (n =? 10) || (n =? 11) || (n =? 12) || (n =? 28) || (n =? 29)
  || (n =? 30) || (n =? 133).

Fixpoint splitlines_from (cur : text) (s : text) : list text :=
  match s with
  | [] => match cur with [] => [] | _ :: _ => [rev cur] end
  | c :: rest =>
      if Ascii.eqb c CR then
        match rest with
        | d :: rest' =>
            if Ascii.eqb d LF then rev cur :: splitlines_from [] rest'
            else rev cur :: splitlines_from [] rest
        | [] => [rev cur]
        end
      else if is_linebreak c then rev cur :: splitlines_from [] rest
      else splitlines_from (c :: cur) rest
  end.

(** [s.splitlines()] *)
Definition splitlines (s : text) : list text := splitlines_from [] s.

(** [s.split('\n')]: never empty, keeps a trailing empty piece. *)
Fixpoint split_from (cur : text) (s : text) : list text :=
  match s with
  | [] => [rev cur]
  | c :: rest =>
      if Ascii.eqb c LF then rev cur :: split_from [] rest
      else split_from (c :: cur) rest
  end.

Definition split_lf (s : text) : list text := split_from [] s.

(** ['\n'.join(parts)] and [''.join(parts)] *)
Fixpoint join (sep : text) (parts : list text) : text :=
  match parts with
  | [] => []
  | [p] => p
  | p :: rest => p ++ sep ++ join sep rest
  end.

Definition concat (parts : list text) : text := List.concat parts.

(** [str(n)] and the format [{n:4d}]. *)
Definition str_of_nat (n : nat) : text :=
  lit (NilEmpty.string_of_uint (Nat.to_uint n)).

(** [str(z)] of an integer that may be negative. *)
Definition str_of_int (z : Z) : text :=
  lit (NilEmpty.string_of_int (Z.to_int z)).

Definition format_4d (n : nat) : text :=
  let digits := str_of_nat n in
  repeat " "%char (4 - length digits) ++ digits.

(** What a call does: it returns a value or it raises. *)
Inductive outcome (A : Type) : Type :=
| Returned : A -> outcome A
| Raised : outcome A.
Arguments Returned {A} _.
Arguments Raised {A}.

(** Truthiness of a string: non-empty. *)
Definition truthy {A} (s : list A) : bool :=
  match s with [] => false | _ :: _ => true end.

End Py.

(* ================================================================== *)
(** * External libraries, as interfaces                                 *)
(* ================================================================== *)

(** [hashlib.md5(s.encode()).hexdigest()] *)
Class Hashlib := { md5 : Py.text -> string }.

(** The edit tags of [difflib.SequenceMatcher.get_opcodes]. *)
Inductive opcode_tag := equal | delete | insert | replace.

(** One opcode [(tag, i1, i2, j1, j2)]. *)
Record opcode := Opcode {
  tag : opcode_tag; i1 : nat; i2 : nat; j1 : nat; j2 : nat
}.

(** [difflib.SequenceMatcher(None, a, b)]: [ratio()] on two lists of lines
    and on two strings, and [get_opcodes()] on two lists of lines. *)
Class Difflib := {
  ratio_lines : list Py.text -> list Py.text -> Q;
  ratio_chars : Py.text -> Py.text -> Q;
  get_opcodes : list Py.text -> list Py.text -> list opcode
}.

(* ================================================================== *)
(** * Fingerprints and verdicts (the dictionaries of monitor_service)   *)
(* ================================================================== *)

Definition simple_content : string := "simple_content".
Definition position_aware_chunked : string := "position_aware_chunked".
Definition ast : string := "ast".
Definition legacy : string := "legacy".

(** An entry of ['chunk_details']. *)
Module Chunk.
Record t := Make {
  start : nat;
  end_ : nat;
  hash : string;
  weight : Q
}.
End Chunk.

(** A hash-info dictionary.  ['hash'] is [None] for a source that was never
    checked; ['chunk_details'] is read with [.get('chunk_details', [])], so
    an absent key is the empty list.  The key ['normalized'] is never read
    and is left out. *)
Module HashInfo.
Record t := Make {
  hash : option string;
  method : string;
  confidence : Q;
  chunks : option nat;
  chunk_details : list Chunk.t
}.
End HashInfo.

Inductive change_type := added | removed | modified.

(** An entry of ['changed_chunks']; ['start'] and ['end'] are present on
    modified chunks only. *)
Module ChangedChunk.
Record t := Make {
  chunk_index : nat;
  change_type_ : change_type;
  weight : Q;
  span : option (nat * nat)
}.
End ChangedChunk.

(** The keys a positive chunk comparison adds to its result. *)
Module ChunkEvidence.
Record t := Make {
  changed_chunks : list ChangedChunk.t;
  change_ratio : Q;
  has_important_change : bool
}.
End ChunkEvidence.

(** A change-result dictionary: ['changed'], ['confidence'] and, on the
    result of a positive chunk comparison, the chunk evidence. *)
Module ChangeResult.
Record t := Make {
  changed : bool;
  confidence : Q;
  evidence : option ChunkEvidence.t
}.

(** [change_result.get('has_important_change', False)] *)
Definition get_has_important_change (r : t) : bool :=
  match evidence r with
  | Some e => ChunkEvidence.has_important_change e
  | None => false
  end.
End ChangeResult.

(** The dictionary [enhanced_content_comparison] returns. *)
Module Comparison.
Record t := Make {
  similarity : Q;
  major_change : bool;
  length_diff : Q
}.
End Comparison.

(* ================================================================== *)
(** * Change classifier                                                 *)
(* ================================================================== *)

Module Classifier.
Local Open Scope Q_scope.

(** The body of the loop of [compare_chunk_hashes] at index [i].  The
    loop runs over [range(max(len(old), len(new)))], so at least one side
    has a chunk at [i]; the last case is not reached. *)
Definition compare_position (old_chunks new_chunks : list Chunk.t) (i : nat)
  : list ChangedChunk.t :=
  match nth_error old_chunks i, nth_error new_chunks i with
  | None, Some new_chunk =>
      [ChangedChunk.Make i added (Chunk.weight new_chunk) None]
  | Some old_chunk, None =>
      [ChangedChunk.Make i removed (Chunk.weight old_chunk) None]
  | Some old_chunk, Some new_chunk =>
      if String.eqb (Chunk.hash old_chunk) (Chunk.hash new_chunk) then []
      else [ChangedChunk.Make i modified (Chunk.weight new_chunk)
              (Some (Chunk.start new_chunk, Chunk.end_ new_chunk))]
  | None, None => []
  end.

Definition collect_changed_chunks (old_chunks new_chunks : list Chunk.t)
  : list ChangedChunk.t :=
  let max_chunks := Py.max (length old_chunks) (length new_chunks) in
  flat_map (compare_position old_chunks new_chunks) (seq 0 max_chunks).

Definition is_important (c : ChangedChunk.t) : bool :=
  (ChangedChunk.chunk_index c <=? 1)%nat && Py.le 2.0 (ChangedChunk.weight c).

Definition compare_chunk_hashes (old_hash_info new_hash_info : HashInfo.t)
  : option ChangeResult.t :=
  if negb (String.eqb (HashInfo.method old_hash_info) position_aware_chunked)
     || negb (String.eqb (HashInfo.method new_hash_info) position_aware_chunked)
  then None
  else
    let old_chunks := HashInfo.chunk_details old_hash_info in
    let new_chunks := HashInfo.chunk_details new_hash_info in
    let changed_chunks := collect_changed_chunks old_chunks new_chunks in
    match changed_chunks with
    | [] => Some (ChangeResult.Make false 0.98 None)
    | _ :: _ =>
        let total_weight :=
          Py.sum (map Chunk.weight (old_chunks ++ new_chunks)) in
        let changed_weight :=
          Py.sum (map ChangedChunk.weight changed_chunks) in
        let change_ratio :=
          if Py.lt 0 total_weight then changed_weight / total_weight
          else 1.0 in
        let has_important_change := existsb is_important changed_chunks in
        let base_confidence := 0.85 in
        let confidence :=
          if has_important_change then Py.min 0.98 (base_confidence + 0.10)
          else Py.min 0.95 (base_confidence + change_ratio * 0.10) in
        Some (ChangeResult.Make true confidence
                (Some (ChunkEvidence.Make changed_chunks change_ratio
                         has_important_change)))
    end.

(** Defined in the source next to the classifier; no function calls it. *)
Definition should_do_additional_verification (change_result : ChangeResult.t)
  : bool :=
  let threshold :=
    if ChangeResult.get_has_important_change change_result then 0.70
    else 0.75 in
  Py.lt (ChangeResult.confidence change_result) threshold.

Definition hash_eqb (a b : option string) : bool :=
  match a, b with
  | Some x, Some y => String.eqb x y
  | None, None => true
  | _, _ => false
  end.

Definition base_confidence (old_hash_info new_hash_info : HashInfo.t) : Q :=
  Py.min (HashInfo.confidence old_hash_info)
         (HashInfo.confidence new_hash_info).

Definition calculate_change_confidence
    (old_hash_info new_hash_info : HashInfo.t)
    (content_similarity : option Comparison.t) : ChangeResult.t :=
  if hash_eqb (HashInfo.hash old_hash_info) (HashInfo.hash new_hash_info)
  then ChangeResult.Make false 0.99 None
  else
    match compare_chunk_hashes old_hash_info new_hash_info with
    | Some chunk_result =>
        if ChangeResult.changed chunk_result
           && Py.le 0.85 (ChangeResult.confidence chunk_result)
        then chunk_result
        else
          match content_similarity with
          | Some cs =>
              let similarity := Comparison.similarity cs in
              if ChangeResult.get_has_important_change chunk_result then
                if Py.lt similarity 0.999 then
                  ChangeResult.Make true
                    (Py.min (ChangeResult.confidence chunk_result * 1.05) 0.98)
                    None
                else ChangeResult.Make false 0.90 None
              else
                if Py.lt similarity 0.995 then
                  ChangeResult.Make true
                    (ChangeResult.confidence chunk_result) None
                else ChangeResult.Make false 0.90 None
          | None => chunk_result
          end
    | None =>
        match content_similarity with
        | Some cs =>
            let similarity := Comparison.similarity cs in
            let length_diff := Comparison.length_diff cs in
            if Py.lt 0.98 similarity && Py.lt length_diff 0.01 then
              ChangeResult.Make false 0.95 None
            else if Py.lt 0.95 similarity then
              ChangeResult.Make true
                (base_confidence old_hash_info new_hash_info * 0.9) None
            else
              ChangeResult.Make true
                (Py.min (base_confidence old_hash_info new_hash_info * 1.1)
                        0.99)
                None
        | None =>
            ChangeResult.Make true
              (base_confidence old_hash_info new_hash_info) None
        end
    end.

Section Comparison.
Context {difflib : Difflib}.

Definition enhanced_content_comparison (old_content new_content : Py.text)
  : Comparison.t :=
  let old_len := length old_content in
  let new_len := length new_content in
  let max_len := Py.max old_len new_len in
  if (max_len =? 0)%nat then Comparison.Make 1.0 false 0.0
  else
    let length_diff :=
      Py.float (Py.absdiff old_len new_len) / Py.float max_len in
    if Py.lt 0.3 length_diff then Comparison.Make 0.0 true length_diff
    else
      let old_lines := Py.splitlines old_content in
      let new_lines := Py.splitlines new_content in
      let similarity := ratio_lines old_lines new_lines in
      let similarity :=
        if (max_len <? 1000)%nat then
          let char_similarity := ratio_chars old_content new_content in
          (* max(similarity, char_similarity) *)
          if Py.lt similarity char_similarity then char_similarity
          else similarity
        else similarity in
      Comparison.Make similarity
        (Py.lt similarity 0.7 || Py.lt 0.2 length_diff) length_diff.
End Comparison.

End Classifier.

(* ================================================================== *)
(** * Fingerprint engine                                                *)
(* ================================================================== *)

(** [normalize_javascript_content]: a chain of [re.sub] substitutions and a
    final [strip]; the regular-expression engine is outside the code. *)
Class Normalizer := { normalize_javascript_content : Py.text -> Py.text }.

(** [esprima.parseScript] followed by [clean_ast_for_hashing] and
    [json.dumps]: the serialised tree, or nothing when parsing or
    serialisation raises. *)
Class Esprima := { ast_json : Py.text -> option Py.text }.

Module Fingerprint.
Local Open Scope Q_scope.

Section Engine.
Context {hashlib : Hashlib} {normalizer : Normalizer} {esprima : Esprima}.

(** The weight of the chunk appended as number [chunk_number]. *)
Definition weight_of_chunk_number (chunk_number : nat) : Q :=
  match chunk_number with
  | 0%nat => 3.0
  | 1%nat => 2.0
  | _ => 1.0
  end.

(** One round of the chunking loop at offset [i].  The source appends to
    [chunk_hashes] and to [chunks] together; [chunk_hashes] is the list
    of the (hash, weight) pairs of [chunks]. *)
Definition add_chunk (js_content : Py.text) (chunk_size : nat)
    (chunks : list Chunk.t) (i : nat) : list Chunk.t :=
  let chunk := Py.slice js_content i (i + chunk_size) in
  if (length chunk <? 100)%nat then chunks
  else
    let normalized_chunk := normalize_javascript_content chunk in
    let chunk_hash := md5 normalized_chunk in
    let chunk_number := length chunks in
    let weight := weight_of_chunk_number chunk_number in
    chunks ++ [Chunk.Make i (i + length chunk) chunk_hash weight].

(** [range(int(weight))] repetitions of one chunk hash; [int] and the
    floor agree on every count that is not negative, and a negative
    count repeats nothing. *)
Definition weighted_parts (c : Chunk.t) : list Py.text :=
  repeat (Py.lit (Chunk.hash c)) (Z.to_nat (Qfloor (Chunk.weight c))).

(** The definition of [generate_position_aware_hash] that is in force:
    the second one of the file, which replaces the first.  The result
    is [None] when [range] raises on a zero step. *)
Definition generate_position_aware_hash (js_content : Py.text)
    (chunk_size : nat) : option HashInfo.t :=
  if (length js_content <=? chunk_size)%nat then
    let content_hash := md5 js_content in
    Some (HashInfo.Make (Some content_hash) simple_content 0.9
            (Some 1%nat) [])
  else
    match Py.range_step (length js_content) (chunk_size / 2) with
    | None => None
    | Some offsets =>
        let chunks := fold_left (add_chunk js_content chunk_size) offsets [] in
        let weighted_hash_parts := flat_map weighted_parts chunks in
        let combined_hash := md5 (Py.concat weighted_hash_parts) in
        Some (HashInfo.Make (Some combined_hash) position_aware_chunked
                0.92 (Some (length chunks)) chunks)
    end.

(** The default of the parameter [chunk_size]. *)
Definition chunk_size_default : nat := 2000.

(** The first definition of [generate_position_aware_hash] in the file,
    which the second one replaces when the module is loaded: chunks
    overlap by a third, are only stripped, and weigh 4, 3, 2, 1. *)
Definition weight_of_chunk_number_first (chunk_number : nat) : Q :=
  match chunk_number with
  | 0%nat => 4.0
  | 1%nat => 3.0
  | 2%nat => 2.0
  | _ => 1.0
  end.

Definition add_chunk_first (js_content : Py.text) (chunk_size : nat)
    (chunks : list Chunk.t) (i : nat) : list Chunk.t :=
  let chunk := Py.slice js_content i (i + chunk_size) in
  if (length chunk <? 100)%nat then chunks
  else
    let normalized_chunk := Py.strip chunk in
    let chunk_hash := md5 normalized_chunk in
    let chunk_number := length chunks in
    let weight := weight_of_chunk_number_first chunk_number in
    chunks ++ [Chunk.Make i (i + length chunk) chunk_hash weight].

Definition generate_position_aware_hash_first (js_content : Py.text)
    (chunk_size : nat) : option HashInfo.t :=
  if (length js_content <=? chunk_size)%nat then
    let content_hash := md5 js_content in
    Some (HashInfo.Make (Some content_hash) simple_content 0.9
            (Some 1%nat) [])
  else
    let overlap := (chunk_size / 3)%nat in
    match Py.range_step (length js_content) (chunk_size - overlap) with
    | None => None
    | Some offsets =>
        let chunks :=
          fold_left (add_chunk_first js_content chunk_size) offsets [] in
        let weighted_hash_parts := flat_map weighted_parts chunks in
        let combined_hash := md5 (Py.concat weighted_hash_parts) in
        Some (HashInfo.Make (Some combined_hash) position_aware_chunked
                0.92 (Some (length chunks)) chunks)
    end.

Definition chunk_size_default_first : nat := 1500.

Definition generate_enhanced_ast_hash (js_content : Py.text)
  : option HashInfo.t :=
  if (10000 <? length js_content)%nat then
    generate_position_aware_hash js_content chunk_size_default
  else
    let normalized_content := normalize_javascript_content js_content in
    match ast_json normalized_content with
    | Some ast_json_text =>
        Some (HashInfo.Make (Some (md5 ast_json_text)) ast 0.95 None [])
    | None => generate_position_aware_hash js_content chunk_size_default
    end.
End Engine.

End Fingerprint.

(* ================================================================== *)
(** * Diff renderer                                                     *)
(* ================================================================== *)

(** The page around the chunk diffs: style sheet, header with the counts
    and the time of generation, navigation bar. *)
Class PageTemplate := {
  render_page :
    list Py.text -> Py.text -> Py.text -> Py.text -> Py.text
}.

Module Diff.

Definition dq : Py.text := ["034"%char].

(** The two glyphs of the markup that are not ASCII, as their bytes. *)
Definition package_glyph : Py.text :=
  map ascii_of_nat [195; 176; 197; 184; 226; 128; 156; 194; 166].
Definition minus_glyph : Py.text :=
  map ascii_of_nat [195; 162; 203; 134; 226; 128; 153].

(** [line_content.strip() and not line_content.strip().startswith('//')]:
    the line is neither blank nor a comment. *)
Definition significant (line_content : Py.text) : bool :=
  Py.truthy (Py.strip line_content)
  && negb (Py.startswith (Py.strip line_content) (Py.lit "//")).

Definition line_number_span (line_number : nat) : Py.text :=
  Py.lit "<span class=" ++ dq ++ Py.lit "line-number" ++ dq ++ Py.lit ">"
  ++ Py.format_4d line_number ++ Py.lit "</span>".

Definition change_span (change_id : Z) (class : string)
    (line_number : nat) (line_content indicator : Py.text) : Py.text :=
  Py.lit "<span id=" ++ dq ++ Py.lit "change" ++ Py.str_of_int change_id
  ++ dq ++ Py.lit " class=" ++ dq ++ Py.lit class ++ dq ++ Py.lit ">"
  ++ line_number_span line_number ++ line_content
  ++ Py.lit "<span class=" ++ dq ++ Py.lit "change-indicator" ++ dq
  ++ Py.lit ">" ++ indicator ++ Py.lit "</span></span><br>".

Definition chunk_header (chunk_number : nat) : Py.text :=
  Py.lit "<div class=" ++ dq ++ Py.lit "chunk-header" ++ dq ++ Py.lit ">"
  ++ package_glyph ++ Py.lit " Chunk " ++ Py.str_of_nat chunk_number
  ++ Py.lit "</div>".

(** The local variables the opcode loop updates. *)
Record state := State {
  chunk_html : list Py.text;
  significant_changes : bool;
  change_id : Z;
  line_number : nat
}.

(** One line of an [equal] span. *)
Definition context_line (st : state) (line_content : Py.text) : state :=
  if significant line_content then
    State (chunk_html st
           ++ [line_number_span (line_number st) ++ line_content
               ++ Py.lit "<br>"])
          (significant_changes st) (change_id st) (line_number st + 1)
  else
    State (chunk_html st) (significant_changes st) (change_id st)
          (line_number st + 1).

(** One line of a [delete] span, or of the first half of a [replace]. *)
Definition removed_line (st : state) (line_content : Py.text) : state :=
  if significant line_content then
    State (chunk_html st
           ++ [change_span (change_id st) "removed" (line_number st)
                 line_content minus_glyph])
          true (change_id st + 1)%Z (line_number st + 1)
  else
    State (chunk_html st) (significant_changes st) (change_id st)
          (line_number st + 1).

(** One line of an [insert] span, or of the second half of a
    [replace]. *)
Definition added_line (st : state) (line_content : Py.text) : state :=
  if significant line_content then
    State (chunk_html st
           ++ [change_span (change_id st) "added" (line_number st)
                 line_content (Py.lit "+")])
          true (change_id st + 1)%Z (line_number st + 1)
  else
    State (chunk_html st) (significant_changes st) (change_id st)
          (line_number st + 1).

(** [[lines[i] for i in range(a, b)]]; IndexError past the end. *)
Definition lines_between (lines : list Py.text) (a b : nat)
  : Py.outcome (list Py.text) :=
  fold_right
    (fun i acc =>
       match nth_error lines i, acc with
       | Some l, Py.Returned ls => Py.Returned (l :: ls)
       | _, _ => Py.Raised
       end)
    (Py.Returned []) (seq a (b - a)).

(** The body of the loop over the opcodes. *)
Definition apply_opcode (old_lines new_lines : list Py.text)
    (st : state) (op : opcode) : Py.outcome state :=
  match tag op with
  | equal =>
      match lines_between old_lines (i1 op) (i2 op) with
      | Py.Returned ls => Py.Returned (fold_left context_line ls st)
      | Py.Raised => Py.Raised
      end
  | delete =>
      match lines_between old_lines (i1 op) (i2 op) with
      | Py.Returned ls => Py.Returned (fold_left removed_line ls st)
      | Py.Raised => Py.Raised
      end
  | insert =>
      match lines_between new_lines (j1 op) (j2 op) with
      | Py.Returned ls => Py.Returned (fold_left added_line ls st)
      | Py.Raised => Py.Raised
      end
  | replace =>
      match lines_between old_lines (i1 op) (i2 op) with
      | Py.Returned ls =>
          match lines_between new_lines (j1 op) (j2 op) with
          | Py.Returned ls' =>
              Py.Returned
                (fold_left added_line ls' (fold_left removed_line ls st))
          | Py.Raised => Py.Raised
          end
      | Py.Raised => Py.Raised
      end
  end.

Fixpoint apply_opcodes (old_lines new_lines : list Py.text)
    (st : state) (ops : list opcode) : Py.outcome state :=
  match ops with
  | [] => Py.Returned st
  | op :: rest =>
      match apply_opcode old_lines new_lines st op with
      | Py.Returned st' => apply_opcodes old_lines new_lines st' rest
      | Py.Raised => Py.Raised
      end
  end.

Definition chunk_lines (chunk : Py.text) : list Py.text :=
  map (Py.rstrip_chars [Py.CR; Py.LF]) (Py.splitlines chunk).

Definition max_chunk_size_default : nat := 50000.

Definition chunk_step (max_chunk_size : nat)
    (acc : list Py.text * list Py.text * nat) (line : Py.text)
  : list Py.text * list Py.text * nat :=
  let '(chunks, current_chunk, current_size) := acc in
  let line_size := length line + 1 in
  if (max_chunk_size <? current_size + line_size) && Py.truthy current_chunk
  then (chunks ++ [Py.join [Py.LF] current_chunk], [line], line_size)
  else (chunks, current_chunk ++ [line], current_size + line_size).

Definition chunk_large_content (content : Py.text) (max_chunk_size : nat)
  : list Py.text :=
  if length content <=? max_chunk_size then [content]
  else
    let lines := Py.split_lf content in
    let '(chunks, current_chunk, _) :=
      fold_left (chunk_step max_chunk_size) lines ([], [], 0) in
    if Py.truthy current_chunk
    then chunks ++ [Py.join [Py.LF] current_chunk]
    else chunks.

Section Render.
Context {difflib : Difflib} {template : PageTemplate}.

Definition generate_chunk_diff (old_chunk new_chunk : Py.text)
    (chunk_number : nat) : Py.outcome (option Py.text * bool) :=
  let old_lines := chunk_lines old_chunk in
  let new_lines := chunk_lines new_chunk in
  let change_id_base := ((Z.of_nat chunk_number - 1) * 1000)%Z in
  let st0 :=
    State (if 1 <? chunk_number then [chunk_header chunk_number] else [])
          false (change_id_base + 1)%Z 1 in
  match apply_opcodes old_lines new_lines st0
          (get_opcodes old_lines new_lines) with
  | Py.Returned st =>
      Py.Returned
        (if significant_changes st
         then Some (Py.concat (chunk_html st)) else None,
         significant_changes st)
  | Py.Raised => Py.Raised
  end.

(** The body of the loop over the chunk pairs; the accumulator holds
    [all_diffs] and [significant_changes]. *)
Definition diff_chunk_pair (old_chunks new_chunks : list Py.text)
    (acc : Py.outcome (list Py.text * bool)) (i : nat)
  : Py.outcome (list Py.text * bool) :=
  match acc with
  | Py.Raised => Py.Raised
  | Py.Returned (all_diffs, significant_changes) =>
      let old_chunk := nth i old_chunks [] in
      let new_chunk := nth i new_chunks [] in
      match generate_chunk_diff old_chunk new_chunk (i + 1) with
      | Py.Raised => Py.Raised
      | Py.Returned (Some chunk_diff, chunk_significant) =>
          if Py.truthy chunk_diff then
            Py.Returned (all_diffs ++ [chunk_diff],
                         if chunk_significant then true
                         else significant_changes)
          else Py.Returned (all_diffs, significant_changes)
      | Py.Returned (None, _) =>
          Py.Returned (all_diffs, significant_changes)
      end
  end.

(** [generate_enhanced_html_diff]: no report ([None]) or the page. *)
Definition generate_enhanced_html_diff (old_content new_content url : Py.text)
  : Py.outcome (option Py.text) :=
  let old_chunks := chunk_large_content old_content max_chunk_size_default in
  let new_chunks := chunk_large_content new_content max_chunk_size_default in
  let max_chunks := Py.max (length old_chunks) (length new_chunks) in
  match fold_left (diff_chunk_pair old_chunks new_chunks)
          (seq 0 max_chunks) (Py.Returned ([], false)) with
  | Py.Raised => Py.Raised
  | Py.Returned (all_diffs, significant_changes) =>
      if negb significant_changes then Py.Returned None
      else Py.Returned
             (Some (render_page all_diffs old_content new_content url))
  end.
End Render.

End Diff.

(* ================================================================== *)
(** * Version store (content_storage.py)                                *)
(* ================================================================== *)

Module ContentStorage.

(** A stored file: its name and its content.  [zlib.decompress] undoes
    [zlib.compress], so the content is kept as written. *)
Definition file : Type := string * Py.text.
Definition directory : Type := list file.

(** [base_dir]: one directory per url id, absent until the first
    store. *)
Definition storage : Type := nat -> option directory.

Definition empty : storage := fun _ => None.

(** [os.listdir]: the names of the entries, in the order the directory
    holds them.  That order is arbitrary: nothing below may rely on it,
    and the properties of the store are stated for every order. *)
Definition listdir (d : directory) : list string := map fst d.

(** [sorted(names, reverse=True)]: the names in descending order. *)
Fixpoint insert_desc (x : string) (l : list string) : list string :=
  match l with
  | [] => [x]
  | y :: l' => if String.leb y x then x :: l else y :: insert_desc x l'
  end.

Definition sorted_reverse (l : list string) : list string :=
  fold_right insert_desc [] l.

(** [os.remove] *)
Definition remove_file (name : string) (d : directory) : directory :=
  filter (fun f => negb (String.eqb (fst f) name)) d.

(** [open(path, "wb").write(...)]: creates the file or replaces it. *)
Definition write_file (name : string) (content : Py.text) (d : directory)
  : directory :=
  (name, content) :: remove_file name d.

Definition read_file (name : string) (d : directory) : option Py.text :=
  option_map snd (find (fun f => String.eqb (fst f) name) d).

Definition set_dir (st : storage) (url_id : nat) (d : directory) : storage :=
  fun u => if Nat.eqb u url_id then Some d else st u.

(** The file name [store_content] builds from the time stamp
    [strftime("%Y%m%d%H%M%S%f")] and the hash. *)
Definition filename_of (timestamp content_hash : string) : string :=
  (timestamp ++ "_" ++ content_hash ++ ".js.gz")%string.

Definition store_content (st : storage) (url_id : nat) (timestamp : string)
    (content : Py.text) (content_hash : string) : string * storage :=
  let url_dir := match st url_id with Some d => d | None => [] end in
  let filename := filename_of timestamp content_hash in
  (filename, set_dir st url_id (write_file filename content url_dir)).

Definition get_previous_content (st : storage) (url_id : nat)
  : option Py.text :=
  match st url_id with
  | None => None
  | Some d =>
      let files := sorted_reverse (listdir d) in
      if length files <? 2 then None
      else
        match nth_error files 1 with
        | Some name => read_file name d
        | None => None
        end
  end.

(** One round of the deletion loop: [removable] tells whether
    [os.remove] succeeds on a name; a failure is logged and the loop goes
    on. *)
Definition remove_step (removable : string -> bool)
    (acc : nat * directory) (filename : string) : nat * directory :=
  let '(deleted_count, d) := acc in
  if removable filename then (deleted_count + 1, remove_file filename d)
  else (deleted_count, d).

Definition versions_to_keep_default : nat := 5.

Definition clean_old_versions (st : storage) (url_id : nat)
    (versions_to_keep : nat) (removable : string -> bool) : nat * storage :=
  match st url_id with
  | None => (0, st)
  | Some d =>
      let files := sorted_reverse (listdir d) in
      if versions_to_keep <? length files then
        let files_to_delete := skipn versions_to_keep files in
        let '(deleted_count, d') :=
          fold_left (remove_step removable) files_to_delete (0, d) in
        (deleted_count, set_dir st url_id d')
      else (0, st)
  end.

End ContentStorage.

(* ================================================================== *)
(** * The monitoring cycle                                              *)
(* ================================================================== *)

(** What [download_javascript] does after its retries. *)
Inductive fetched :=
| Fetched (content : Py.text)
| FetchedNone
| FetchRaised.

(** The collaborators of one cycle: the download, the deobfuscator, the
    beautifier, the JSON codec of the stored hash info, the clock as
    [store_content] reads and formats it, the clock as the cycle reads it
    when it sets [last_checked], and [save_diff_file], which returns the
    name of the saved report or raises. *)
Class World := {
  download_javascript : Py.text -> fetched;
  get_obfuscation_score : Py.text -> Q;
  deobfuscate : Py.text -> Py.text;
  beautify_javascript : Py.text -> Py.text;
  json_loads : Py.text -> option HashInfo.t;
  json_dumps : HashInfo.t -> Py.text;
  utcnow_timestamp : string;
  utcnow : string;
  save_diff_file : Py.text -> Py.outcome string
}.

Module Monitor.
Local Open Scope Q_scope.

(** The row of a monitored source, with the columns the cycle reads or
    writes.  The attribute [last_hash_info] is looked up with [hasattr];
    [has_last_hash_info] tells whether the row has it. *)
Record MonitoredUrl := {
  id : nat;
  url : Py.text;
  last_checked : option string;
  last_hash : option string;
  has_last_hash_info : bool;
  last_hash_info : option Py.text
}.

(** The messages of the result, without their formatting. *)
Inductive message :=
| FailedToDownload
| ErrorMonitoring
| NoChangesDetected (confidence : Q)
| ChangesDetected (diff_filename : string)
| NoSignificantChanges
| ChangesNoPreviousContent
| FirstCheckCompleted (obfuscation_detected : option Q).

(** The result dictionary; a failure has the first two keys only. *)
Record result := Result {
  success : bool;
  message_ : message;
  changed : option bool;
  confidence : option Q;
  method : option string
}.

Definition failure (m : message) : result := Result false m None None None.

Definition legacy_hash_info (monitored_url : MonitoredUrl) : HashInfo.t :=
  HashInfo.Make (last_hash monitored_url) legacy 0.5 None [].

(** Truthiness of a hash value: neither [None] nor the empty string. *)
Definition hash_truthy (h : option string) : bool :=
  match h with
  | Some s => negb (String.eqb s EmptyString)
  | None => false
  end.

(** [str(h)] inside the file name. *)
Definition hash_text (h : option string) : string :=
  match h with Some s => s | None => "None" end.

Section Cycle.
Context {hashlib : Hashlib} {normalizer : Normalizer} {esprima : Esprima}
        {difflib : Difflib} {template : PageTemplate} {world : World}.

(** "Get previous hash info". *)
Definition previous_hash_info (monitored_url : MonitoredUrl) : HashInfo.t :=
  if has_last_hash_info monitored_url then
    match last_hash_info monitored_url with
    | Some stored =>
        if Py.truthy stored then
          match json_loads stored with
          | Some old_hash_info => old_hash_info
          | None => legacy_hash_info monitored_url
          end
        else legacy_hash_info monitored_url
    | None => legacy_hash_info monitored_url
    end
  else legacy_hash_info monitored_url.

(** "Enhanced change detection": the first classification, and below a
    confidence of 0.80 the full-text comparison against the stored
    previous content and a second classification.  The second
    component is the comparison, when one was computed. *)
Definition detect_change (old_hash_info current_hash_info : HashInfo.t)
    (previous_content : option Py.text) (content : Py.text)
  : ChangeResult.t * option Comparison.t :=
  let change_result :=
    Classifier.calculate_change_confidence old_hash_info current_hash_info
      None in
  if Py.lt (ChangeResult.confidence change_result) 0.80 then
    match previous_content with
    | Some previous =>
        if Py.truthy previous then
          let comparison :=
            Classifier.enhanced_content_comparison previous content in
          (Classifier.calculate_change_confidence old_hash_info
             current_hash_info (Some comparison),
           Some comparison)
        else (change_result, None)
    | None => (change_result, None)
    end
  else (change_result, None).

(** [monitored_url.last_checked = datetime.utcnow()], all that the cycle
    writes to the row when it finds no change. *)
Definition checked (monitored_url : MonitoredUrl) : MonitoredUrl :=
  {| id := id monitored_url;
     url := url monitored_url;
     last_checked := Some utcnow;
     last_hash := last_hash monitored_url;
     has_last_hash_info := has_last_hash_info monitored_url;
     last_hash_info := last_hash_info monitored_url |}.

(** "Update URL record with enhanced hash info". *)
Definition updated (monitored_url : MonitoredUrl)
    (current_hash_info : HashInfo.t) : MonitoredUrl :=
  {| id := id monitored_url;
     url := url monitored_url;
     last_checked := Some utcnow;
     last_hash := HashInfo.hash current_hash_info;
     has_last_hash_info := has_last_hash_info monitored_url;
     last_hash_info :=
       if has_last_hash_info monitored_url
       then Some (json_dumps current_hash_info)
       else last_hash_info monitored_url |}.

(** From "Content has changed or this is first check" to the end. *)
Definition record_change (monitored_url : MonitoredUrl)
    (st : ContentStorage.storage) (content : Py.text)
    (obfuscation_score : Q) (old_hash_info current_hash_info : HashInfo.t)
    (change_result : option ChangeResult.t)
  : result * MonitoredUrl * ContentStorage.storage * list string :=
  let '(_, st1) :=
    ContentStorage.store_content st (id monitored_url) utcnow_timestamp
      content (hash_text (HashInfo.hash current_hash_info)) in
  let verdict : Py.outcome (message * bool * list string) :=
    if hash_truthy (HashInfo.hash old_hash_info) then
      match ContentStorage.get_previous_content st1 (id monitored_url) with
      | Some previous_content =>
          if Py.truthy previous_content then
            match Diff.generate_enhanced_html_diff previous_content content
                    (url monitored_url) with
            | Py.Raised => Py.Raised
            | Py.Returned (Some html_diff) =>
                if Py.truthy html_diff then
                  match save_diff_file html_diff with
                  | Py.Returned diff_filename =>
                      Py.Returned (ChangesDetected diff_filename, true,
                                   [diff_filename])
                  | Py.Raised => Py.Raised
                  end
                else Py.Returned (NoSignificantChanges, false, [])
            | Py.Returned None =>
                Py.Returned (NoSignificantChanges, false, [])
            end
          else Py.Returned (ChangesNoPreviousContent, true, [])
      | None => Py.Returned (ChangesNoPreviousContent, true, [])
      end
    else
      Py.Returned
        (FirstCheckCompleted
           (if Py.lt 0.3 obfuscation_score then Some obfuscation_score
            else None),
         false, []) in
  match verdict with
  | Py.Raised => (failure ErrorMonitoring, monitored_url, st1, [])
  | Py.Returned (message, changed, notifications) =>
      let change_confidence :=
        match change_result with
        | Some r => ChangeResult.confidence r
        | None => HashInfo.confidence current_hash_info
        end in
      (Result true message (Some changed) (Some change_confidence)
         (Some (HashInfo.method current_hash_info)),
       updated monitored_url current_hash_info, st1, notifications)
  end.

(** [monitor_single_url]: the result, the row and the store after the
    cycle, and the notifications sent (the names of the reports). *)
Definition monitor_single_url (monitored_url : MonitoredUrl)
    (st : ContentStorage.storage)
  : result * MonitoredUrl * ContentStorage.storage * list string :=
  match download_javascript (url monitored_url) with
  | FetchRaised => (failure ErrorMonitoring, monitored_url, st, [])
  | FetchedNone => (failure FailedToDownload, monitored_url, st, [])
  | Fetched downloaded =>
      let obfuscation_score := get_obfuscation_score downloaded in
      let content :=
        if Py.lt 0.3 obfuscation_score then deobfuscate downloaded
        else downloaded in
      let content := beautify_javascript content in
      match Fingerprint.generate_enhanced_ast_hash content with
      | None => (failure ErrorMonitoring, monitored_url, st, [])
      | Some current_hash_info =>
          let old_hash_info := previous_hash_info monitored_url in
          if hash_truthy (HashInfo.hash old_hash_info) then
            let '(change_result, _) :=
              detect_change old_hash_info current_hash_info
                (ContentStorage.get_previous_content st (id monitored_url))
                content in
            if negb (ChangeResult.changed change_result) then
              (Result true
                 (NoChangesDetected (ChangeResult.confidence change_result))
                 (Some false)
                 (Some (ChangeResult.confidence change_result))
                 (Some (HashInfo.method current_hash_info)),
               checked monitored_url, st, [])
            else
              record_change monitored_url st content obfuscation_score
                old_hash_info current_hash_info (Some change_result)
          else
            record_change monitored_url st content obfuscation_score
              old_hash_info current_hash_info None
      end
  end.
End Cycle.

End Monitor.

(* ================================================================== *)
(** * Further built-ins                                                 *)
(* ================================================================== *)

Module PyStr.

(** [str.isalnum] on one character (code points below 256): the ASCII
    digits and letters, the Latin-1 letters, and the superscript digits
    and vulgar fractions of Latin-1. *)
Definition isalnum (c : ascii) : bool :=
  let n := nat_of_ascii c in
  ((48 <=? n) && (n <=? 57)) || ((65 <=? n) && (n <=? 90))
  || ((97 <=? n) && (n <=? 122))
  || (n =? 170) || (n =? 178) || (n =? 179) || (n =? 181) || (n =? 185)
  || (n =? 186) || ((188 <=? n) && (n <=? 190))
  || ((192 <=? n) && (n <=? 214)) || ((216 <=? n) && (n <=? 246))
  || ((248 <=? n) && (n <=? 255)).

(** [len(set(s))]: the number of distinct characters. *)
Definition distinct (s : Py.text) : nat := length (nodup ascii_dec s).

End PyStr.

(* ================================================================== *)
(** * Names of the diff reports (save_diff_file)                        *)
(* ================================================================== *)

Module DiffFile.

Definition sanitize_url_to_filename (url : Py.text) : Py.text :=
  Py.concat (map (fun c => if PyStr.isalnum c then [c] else Py.lit "_") url).

(** The name [save_diff_file] gives a report; [timestamp] is
    [datetime.now().strftime("%Y%m%d_%H%M%S")]. *)
Definition filename (url timestamp : Py.text) : Py.text :=
  Py.lit "diff_" ++ sanitize_url_to_filename url ++ Py.lit "_" ++ timestamp
  ++ Py.lit ".html".

End DiffFile.

(* ================================================================== *)
(** * Cleaning of a syntax tree (clean_ast_for_hashing)                 *)
(* ================================================================== *)

Module Ast.

(** The values [clean_ast_for_hashing] tells apart: dictionaries (keys in
    insertion order, each key once), lists, objects with a [__dict__],
    the primitive types, and every other object, of which only the name
    of the type is read. *)
#[warnings="-register-all"]
Inductive node :=
| Dict (items : list (string * node))
| List (items : list node)
| Object (class_name : string) (attrs : list (string * node))
| Str (s : Py.text)
| Int (z : Z)
| Float (q : Q)
| Bool (b : bool)
| NoneValue
| Other (type_name : string).

Definition position_keys : list string :=
  ["range"; "loc"; "start"; "end"; "line"; "column"; "index"]%string.

Definition reference_keys : list string :=
  ["parent"; "raw"; "regex"]%string.

(** The two tests [key in [...]] of the loop over the items. *)
Definition skipped (key : string) : bool :=
  existsb (String.eqb key) position_keys
  || existsb (String.eqb key) reference_keys.

Definition max_depth_reached : node := Str (Py.lit "MAX_DEPTH_REACHED").

(** The loop over [ast_node.items()]; [clean] is the recursive call on a
    value. *)
Fixpoint clean_items (clean : node -> node) (items : list (string * node))
  : list (string * node) :=
  match items with
  | [] => []
  | (key, value) :: rest =>
      if skipped key then clean_items clean rest
      else (key, clean value) :: clean_items clean rest
  end.

(** [clean_ast_for_hashing].  On an object the source calls itself on
    [ast_node.__dict__] one level deeper; that call is written out here:
    its depth test, then the loop over the attributes. *)
Fixpoint clean_ast_for_hashing (ast_node : node) (max_depth current_depth : nat)
  {struct ast_node} : node :=
  if max_depth <? current_depth then max_depth_reached
  else
    match ast_node with
    | Dict items =>
        Dict (clean_items
                (fun value =>
                   clean_ast_for_hashing value max_depth (current_depth + 1))
                items)
    | List items =>
        List (map (fun item =>
                     clean_ast_for_hashing item max_depth (current_depth + 1))
                items)
    | Object _ attrs =>
        if max_depth <? current_depth + 1 then max_depth_reached
        else
          Dict (clean_items
                  (fun value =>
                     clean_ast_for_hashing value max_depth
                       (current_depth + 1 + 1))
                  attrs)
    | Str s => Str s
    | Int z => Int z
    | Float q => Float q
    | Bool b => Bool b
    | NoneValue => NoneValue
    | Other type_name => Str (Py.lit type_name)
    end.

Definition max_depth_default : nat := 10.

End Ast.

(* ================================================================== *)
(** * Obfuscation score (deobfuscator.py)                               *)
(* ================================================================== *)

(** [re.search(pattern, code)] as a truth value and
    [len(re.findall(pattern, code))]. *)
Class Regex := {
  re_search : string -> Py.text -> bool;
  findall_count : string -> Py.text -> nat
}.

Module Deobfuscator.
Local Open Scope Q_scope.

Definition packed_code_pattern : string := "eval\(function\(p,a,c,k,e,d\)".

Definition indicators : list (string * Q) :=
  [ ("\\x[0-9a-fA-F]{2}"%string, 0.2);
    ("\\u[0-9a-fA-F]{4}"%string, 0.2);
    ("atob\s*\("%string, 0.15);
    ("\beval\s*\("%string, 0.25);
    ("String\.fromCharCode"%string, 0.15);
    ("[\[\]()!+]{10,}"%string, 0.3);
    (packed_code_pattern, 0.4) ].

Definition short_variable_pattern : string :=
  "\b[a-zA-Z_$][a-zA-Z0-9_$]{0,2}\b".
Definition variable_pattern : string := "\b[a-zA-Z_$][a-zA-Z0-9_$]*\b".

Section Score.
Context {regex : Regex}.

(** The body of the loop over the indicators. *)
Definition add_indicator (code : Py.text) (score : Q)
    (indicator : string * Q) : Q :=
  let '(pattern, weight) := indicator in
  if re_search pattern code then score + weight else score.

Definition get_obfuscation_score (code : Py.text) : Q :=
  if negb (Py.truthy code) then 0.0
  else
    let score := fold_left (add_indicator code) indicators 0.0 in
    let score :=
      if (100 <? length code)%nat then
        let unique_chars := PyStr.distinct code in
        let entropy_score := Py.min (Py.float unique_chars / 50) 1.0 in
        score + entropy_score * 0.2
      else score in
    let short_vars := findall_count short_variable_pattern code in
    let total_vars := findall_count variable_pattern code in
    let score :=
      if (0 <? total_vars)%nat then
        let short_var_ratio := Py.float short_vars / Py.float total_vars in
        score + short_var_ratio * 0.15
      else score in
    Py.min score 1.0.

End Score.

End Deobfuscator.

(* ================================================================== *)
(** * The legacy hash, the run over all sources, the cleanup service    *)
(* ================================================================== *)

Module Legacy.
Section Engine.
Context {hashlib : Hashlib} {normalizer : Normalizer} {esprima : Esprima}.

(** [generate_ast_hash]: the ['hash'] of the enhanced fingerprint. *)
Definition generate_ast_hash (js_content : Py.text)
  : option (option string) :=
  option_map HashInfo.hash (Fingerprint.generate_enhanced_ast_hash js_content).

End Engine.
End Legacy.

Module Run.

(** The message of [run_monitoring_check], without its formatting: the
    counts, and whether the note on detected changes is appended. *)
Inductive run_message :=
| NoActiveUrls
| CheckedWithFailures (total successful failed : nat) (changes_noted : bool)
| SuccessfullyChecked (total : nat) (changes_noted : bool).

(** The dictionary [run_monitoring_check] returns; without active sources
    it has no ['results']. *)
Record summary := Summary {
  message : run_message;
  changes_detected : bool;
  urls_checked : nat;
  results : option (list Monitor.result)
}.

(** [result.get("changed", False)] *)
Definition get_changed (r : Monitor.result) : bool :=
  match Monitor.changed r with Some b => b | None => false end.

(** The local variables of the loop over the active sources, with the rows
    and the store as the cycles leave them and the notifications sent. *)
Record progress := Progress {
  results_ : list Monitor.result;
  changes_detected_ : bool;
  rows : list Monitor.MonitoredUrl;
  store : ContentStorage.storage;
  sent : list string
}.

Section Check.
Context {hashlib : Hashlib} {normalizer : Normalizer} {esprima : Esprima}
        {difflib : Difflib} {template : PageTemplate} {world : World}.

Definition check_url (p : progress) (url : Monitor.MonitoredUrl) : progress :=
  let '(result, row, st, notifications) :=
    Monitor.monitor_single_url url (store p) in
  Progress (results_ p ++ [result])
           (if get_changed result then true else changes_detected_ p)
           (rows p ++ [row]) st (sent p ++ notifications).

Definition run_monitoring_check (active_urls : list Monitor.MonitoredUrl)
    (st : ContentStorage.storage) : summary * progress :=
  if negb (Py.truthy active_urls) then
    (Summary NoActiveUrls false 0 None, Progress [] false [] st [])
  else
    let p := fold_left check_url active_urls (Progress [] false [] st []) in
    let successful_checks :=
      length (filter Monitor.success (results_ p)) in
    let failed_checks := length (results_ p) - successful_checks in
    let message :=
      if 0 <? failed_checks then
        CheckedWithFailures (length active_urls) successful_checks
          failed_checks (changes_detected_ p)
      else SuccessfullyChecked (length active_urls) (changes_detected_ p) in
    (Summary message (changes_detected_ p) (length active_urls)
       (Some (results_ p)), p).

End Check.
End Run.

Module StorageCleanup.

(** One round of the loop of [clean_old_content_versions] over the rows,
    given by their ids; [removable url_id name] tells whether [os.remove]
    succeeds on the file. *)
Definition clean_url (versions_to_keep : nat)
    (removable : nat -> string -> bool)
    (acc : nat * ContentStorage.storage) (url_id : nat)
  : nat * ContentStorage.storage :=
  let '(total_deleted_versions, st) := acc in
  let '(deleted_versions, st') :=
    ContentStorage.clean_old_versions st url_id versions_to_keep
      (removable url_id) in
  (total_deleted_versions + deleted_versions, st').

Definition clean_old_content_versions (st : ContentStorage.storage)
    (url_ids : list nat) (versions_to_keep : nat)
    (removable : nat -> string -> bool) : nat * ContentStorage.storage :=
  fold_left (clean_url versions_to_keep removable) url_ids (0, st).

End StorageCleanup.

(* ================================================================== *)
(** * The words of the specification, as definitions                    *)
(* ================================================================== *)

Module Spec.
Local Open Scope Q_scope.

(** Position [i] holds a changed chunk: a chunk on one side only (added
    or removed) or a chunk on both sides with differing hashes
    (modified). *)
Definition chunk_changed_at (old_chunks new_chunks : list Chunk.t) (i : nat)
  : Prop :=
  match nth_error old_chunks i, nth_error new_chunks i with
  | Some o, Some n => Chunk.hash o <> Chunk.hash n
  | Some _, None => True
  | None, Some _ => True
  | None, None => False
  end.

(** The weight a changed position counts with: the current chunk's, or
    the prior chunk's when the chunk was removed. *)
Definition weight_at (old_chunks new_chunks : list Chunk.t) (i : nat) : Q :=
  match nth_error new_chunks i, nth_error old_chunks i with
  | Some n, _ => Chunk.weight n
  | None, Some o => Chunk.weight o
  | None, None => 0
  end.

Definition total (ws : list Q) : Q := fold_right Qplus 0 ws.

(** Summed weight of the changed chunks, walking both lists side by
    side. *)
Fixpoint changed_weight (old_chunks new_chunks : list Chunk.t) : Q :=
  match old_chunks, new_chunks with
  | [], _ => total (map Chunk.weight new_chunks)
  | _, [] => total (map Chunk.weight old_chunks)
  | o :: old', n :: new' =>
      (if String.eqb (Chunk.hash o) (Chunk.hash n) then 0
       else Chunk.weight n)
      + changed_weight old' new'
  end.

(** Summed weight of all chunks, prior and current. *)
Definition all_weight (old_chunks new_chunks : list Chunk.t) : Q :=
  total (map Chunk.weight old_chunks) + total (map Chunk.weight new_chunks).

(** No chunk of the fingerprint has a negative weight. *)
Definition weights_nonnegative (h : HashInfo.t) : Prop :=
  Forall (fun c => 0 <= Chunk.weight c) (HashInfo.chunk_details h).

(** Every chunk of the fingerprint has a positive weight, as the
    fingerprint engine assigns them. *)
Definition weights_positive (h : HashInfo.t) : Prop :=
  Forall (fun c => 0 < Chunk.weight c) (HashInfo.chunk_details h).

Definition chunked (h : HashInfo.t) : Prop :=
  HashInfo.method h = position_aware_chunked.

(** The classifier's answer depends on the similarity it is handed: the
    full-text similarity pass decides the verdict. *)
Definition similarity_pass_performed (old_hash_info new_hash_info : HashInfo.t)
  : Prop :=
  exists cs1 cs2 : Comparison.t,
    Classifier.calculate_change_confidence old_hash_info new_hash_info (Some cs1)
    <> Classifier.calculate_change_confidence old_hash_info new_hash_info (Some cs2).




Section Differing.
Context {difflib : Difflib}.






End Differing.

(** One stored snapshot: the time stamp, the hash and the content that
    [store_content] was called with. *)
Definition snapshot : Type := string * string * Py.text.

Definition timestamp_of (s : snapshot) : string := fst (fst s).

Definition snapshot_name (s : snapshot) : string :=
  ContentStorage.filename_of (fst (fst s)) (snd (fst s)).

(** The store after the snapshots of [history] were stored one after the
    other, oldest first. *)
Definition store_all (st : ContentStorage.storage) (url_id : nat)
    (history : list snapshot) : ContentStorage.storage :=
  fold_left
    (fun st s =>
       snd (ContentStorage.store_content st url_id (fst (fst s)) (snd s)
              (snd (fst s))))
    history st.

(** The file a snapshot is stored as. *)
Definition snapshot_file (s : snapshot) : ContentStorage.file :=
  (snapshot_name s, snd s).

(** The directory of the source holds the snapshots of [history] and
    nothing else, in whatever order [os.listdir] reports them. *)
Definition holds (st : ContentStorage.storage) (url_id : nat)
    (history : list snapshot) : Prop :=
  exists d, st url_id = Some d /\ Permutation d (map snapshot_file history).

(** The clock moves forward between two stores, and its time stamps have
    one width (twenty digits). *)
Definition earlier (a b : snapshot) : Prop :=
  String.length (timestamp_of a) = String.length (timestamp_of b)
  /\ String.ltb (timestamp_of a) (timestamp_of b) = true.

Definition timestamps_ascending (history : list snapshot) : Prop :=
  StronglySorted earlier history.

(** The names of the files stored for a source. *)
Definition names_of (st : ContentStorage.storage) (url_id : nat) : list string :=
  match st url_id with Some d => ContentStorage.listdir d | None => [] end.

(** Names in strictly descending order. *)
Definition descending : list string -> Prop :=
  StronglySorted (fun a b => String.ltb b a = true).

(** The file is none of [names]. *)
Definition not_among (names : list string) (f : ContentStorage.file) : bool :=
  negb (existsb (String.eqb (fst f)) names).



End Spec.

(* ================================================================== *)
(** * Sample fingerprints and comparisons                               *)
(* ================================================================== *)

Module Samples.
Local Open Scope Q_scope.

Definition chunk0 : Chunk.t := Chunk.Make 0%nat 2000%nat "c0" 3.0.
Definition chunk0' : Chunk.t := Chunk.Make 0%nat 2000%nat "c0x" 3.0.
Definition chunk1 : Chunk.t := Chunk.Make 1000%nat 3000%nat "c1" 2.0.
Definition chunk2 : Chunk.t := Chunk.Make 2000%nat 4000%nat "c2" 1.0.
Definition chunk2' : Chunk.t := Chunk.Make 2000%nat 4000%nat "c2x" 1.0.

(** A chunked fingerprint and two later ones: the first chunk modified,
    the third chunk modified. *)
Definition fp_old : HashInfo.t :=
  HashInfo.Make (Some "h_old"%string) position_aware_chunked 0.92 (Some 3%nat)
    [chunk0; chunk1; chunk2].
Definition fp_head_changed : HashInfo.t :=
  HashInfo.Make (Some "h_head"%string) position_aware_chunked 0.92 (Some 3%nat)
    [chunk0'; chunk1; chunk2].
Definition fp_tail_changed : HashInfo.t :=
  HashInfo.Make (Some "h_tail"%string) position_aware_chunked 0.92 (Some 3%nat)
    [chunk0; chunk1; chunk2'].

(** The same chunks under another combined hash. *)
Definition fp_rehashed : HashInfo.t :=
  HashInfo.Make (Some "h_other"%string) position_aware_chunked 0.92 (Some 3%nat)
    [chunk0; chunk1; chunk2].

(** Hand-made chunked fingerprints of one chunk each, as they could be
    read back from a stored hash info: the weights 10 and -9 add up to 1,
    the weights 1 and -3 add up to -2. *)
Definition fp_weight_10 : HashInfo.t :=
  HashInfo.Make (Some "h_ten"%string) position_aware_chunked 0.92 (Some 1%nat)
    [Chunk.Make 0%nat 2000%nat "c0" 10.0].
Definition fp_weight_minus_9 : HashInfo.t :=
  HashInfo.Make (Some "h_nine"%string) position_aware_chunked 0.92 (Some 1%nat)
    [Chunk.Make 0%nat 2000%nat "c0x" (-9.0)].
Definition fp_weight_1 : HashInfo.t :=
  HashInfo.Make (Some "h_one"%string) position_aware_chunked 0.92 (Some 1%nat)
    [Chunk.Make 0%nat 2000%nat "c0" 1.0].
Definition fp_weight_minus_3 : HashInfo.t :=
  HashInfo.Make (Some "h_three"%string) position_aware_chunked 0.92 (Some 1%nat)
    [Chunk.Make 0%nat 2000%nat "c0x" (-3.0)].

(** Two structural (AST) fingerprints with one hash. *)
Definition fp_ast : HashInfo.t :=
  HashInfo.Make (Some "h_ast"%string) ast 0.95 None [].
Definition fp_ast_other : HashInfo.t :=
  HashInfo.Make (Some "h_ast2"%string) ast 0.95 None [].

Definition cmp_unrelated : Comparison.t := Comparison.Make 0.0 true 0.4.
Definition cmp_identical : Comparison.t := Comparison.Make 1.0 false 0.0.

(** A stand-in for difflib that aligns the common leading lines only: one
    [equal] span for them and one [replace] span for the rest. *)
Definition lines_eqb (a b : Py.text) : bool :=
  if list_eq_dec ascii_dec a b then true else false.

Fixpoint common_prefix (a b : list Py.text) : nat :=
  match a, b with
  | x :: a', y :: b' => if lines_eqb x y then S (common_prefix a' b') else 0
  | _, _ => 0
  end.

Definition prefix_opcodes (a b : list Py.text) : list opcode :=
  let p := common_prefix a b in
  (if p =? 0 then [] else [Opcode equal 0 p 0 p])
  ++ (if (p =? length a) && (p =? length b) then []
      else [Opcode replace p (length a) p (length b)]).

Definition prefix_difflib : Difflib := {|
  ratio_lines := fun a b =>
    if (common_prefix a b =? length a) && (common_prefix a b =? length b)
    then 1.0 else 0.0;
  ratio_chars := fun a b => if lines_eqb a b then 1.0 else 0.0;
  get_opcodes := prefix_opcodes
|}.

(** [difflib.SequenceMatcher] without its junk heuristic, which applies
    to sequences of 200 elements and more: the longest matching block
    that starts earliest in [a], and of those the one that starts
    earliest in [b]; then the same to its left and to its right. *)
Section Matcher.
Context {A : Type} (eqb : A -> A -> bool).
Local Open Scope nat_scope.











End Matcher.






(** A page that is the chunk diffs and nothing else. *)
Definition bare_template : PageTemplate :=
  {| render_page := fun all_diffs _ _ _ => Py.concat all_diffs |}.

(** Two versions of a script that differ in a comment, and a third that
    differs in a statement. *)
Definition script_v1 : Py.text :=
  Py.lit "var a = 1;" ++ [Py.LF] ++ Py.lit "// first note".
Definition script_v2 : Py.text :=
  Py.lit "var a = 1;" ++ [Py.LF] ++ Py.lit "  // second note" ++ [Py.LF].
Definition script_v3 : Py.text :=
  Py.lit "var a = 1;" ++ [Py.LF] ++ Py.lit "var b = 2;".
Definition sample_url : Py.text := Py.lit "http://example.com/test.js".

(** Stand-ins for the hash function and the normaliser: the first eight
    characters, and the identity. *)
Definition prefix_hashlib : Hashlib :=
  {| md5 := fun t => string_of_list_ascii (firstn 8 t) |}.
Definition identity_normalizer : Normalizer :=
  {| normalize_javascript_content := fun t => t |}.

(** A text of exactly 2000 characters and one of 2001. *)
Definition text2000 : Py.text := repeat "a"%char 2000.
Definition text2001 : Py.text := repeat "a"%char 2001.

(** Seven snapshots of one source, oldest first. *)
Definition history7 : list Spec.snapshot :=
  [ ("20260101000000000001"%string, "h1"%string, Py.lit "v1");
    ("20260101000000000002"%string, "h2"%string, Py.lit "v2");
    ("20260102000000000000"%string, "h3"%string, Py.lit "v3");
    ("20260103000000000000"%string, "h4"%string, Py.lit "v4");
    ("20260104000000000000"%string, "h5"%string, Py.lit "v5");
    ("20260105000000000000"%string, "h6"%string, Py.lit "v6");
    ("20260106000000000000"%string, "h7"%string, Py.lit "v7") ].

(** The files of [history7] as a directory lists them: neither oldest
    first nor newest first. *)
Definition listed7 : ContentStorage.directory :=
  map Spec.snapshot_file (skipn 3 history7 ++ firstn 3 history7).

Definition unordered_store : ContentStorage.storage :=
  ContentStorage.set_dir ContentStorage.empty 1 listed7.

(** An operating system that refuses to delete the oldest snapshot. *)
Definition oldest_locked (name : string) : bool :=
  negb (String.eqb name "20260101000000000001_h1.js.gz").

(** A parser that accepts every text, and a world in which the download
    delivers [script_v1] and nothing looks obfuscated. *)
Definition accepting_esprima : Esprima := {| ast_json := fun t => Some t |}.

Definition quiet_world : World := {|
  download_javascript := fun _ => Fetched script_v1;
  get_obfuscation_score := fun _ => 0.0;
  deobfuscate := fun t => t;
  beautify_javascript := fun t => t;
  json_loads := fun _ => None;
  json_dumps := fun _ => [];
  utcnow_timestamp := "20260107000000000000";
  utcnow := "2026-01-07 00:00:00.000000";
  save_diff_file := fun _ => Py.Returned "diff.html"%string
|}.

(** A source that was never checked. *)
Definition fresh_url : Monitor.MonitoredUrl := {|
  Monitor.id := 1%nat;
  Monitor.url := sample_url;
  Monitor.last_checked := None;
  Monitor.last_hash := None;
  Monitor.has_last_hash_info := false;
  Monitor.last_hash_info := None
|}.

(** Ten characters shrinking to six. *)
Definition text10 : Py.text := Py.lit "var a = 1;".
Definition text6 : Py.text := Py.lit "var a;".

End Samples.

(* ================================================================== *)
(** * Predicates of the further properties                              *)
(* ================================================================== *)

Module Shape.
Local Open Scope Q_scope.

(** What difflib guarantees of its ratios: they lie between 0 and 1. *)
Definition ratios_in_unit_interval {difflib : Difflib} : Prop :=
  (forall a b, 0 <= ratio_lines a b <= 1)
  /\ (forall a b, 0 <= ratio_chars a b <= 1).

(** A row as [models/monitor.py] declares it: without the attribute
    [last_hash_info]. *)
Definition legacy_row (monitored_url : Monitor.MonitoredUrl) : Prop :=
  Monitor.has_last_hash_info monitored_url = false.


(** A chunk as the chunking loop cuts it from [js_content]: it starts at a
    multiple of the step, holds between 100 and [chunk_size] characters
    of the text, and its hash is the hash of these characters,
    normalised. *)
Definition chunk_of {hashlib : Hashlib} {normalizer : Normalizer}
    (js_content : Py.text) (chunk_size : nat) (c : Chunk.t) : Prop :=
  (exists k, Chunk.start c = k * (chunk_size / 2))%nat
  /\ (Chunk.end_ c <= length js_content)%nat
  /\ (Chunk.start c + 100 <= Chunk.end_ c)%nat
  /\ (Chunk.end_ c <= Chunk.start c + chunk_size)%nat
  /\ Chunk.hash c
     = md5 (normalize_javascript_content
              (Py.slice js_content (Chunk.start c) (Chunk.end_ c))).

(** The weights follow the schedule of the loop: 3 for the first chunk, 2
    for the second, 1 for every later one. *)
Definition scheduled_weights (chunks : list Chunk.t) : Prop :=
  forall i c,
    nth_error chunks i = Some c ->
    Chunk.weight c = Fingerprint.weight_of_chunk_number i.

(** Position [p] of the text lies in one of the chunks. *)
Definition covered (chunks : list Chunk.t) (p : nat) : Prop :=
  exists c, In c chunks /\ (Chunk.start c <= p < Chunk.end_ c)%nat.


(** The size the chunking of the diff renderer counts for a list of
    lines: one more than the length, for each line. *)
Definition lines_size (lines : list Py.text) : nat :=
  fold_right (fun line n => length line + 1 + n)%nat 0%nat lines.

(** A chunk of the diff renderer stays within the limit unless it is a
    single line. *)
Definition within_limit (max_chunk_size : nat) (chunk : Py.text) : Prop :=
  (length chunk <= max_chunk_size)%nat \/ ~ In Py.LF chunk.


(** The files stored for a source, and the file a snapshot is stored
    as. *)
Definition files_of (st : ContentStorage.storage) (url_id : nat)
  : ContentStorage.directory :=
  match st url_id with Some d => d | None => [] end.

Definition file_of (s : Spec.snapshot) : ContentStorage.file :=
  (Spec.snapshot_name s, snd s).


(** The row carries the hash of the fingerprint [h], as after a cycle that
    updated it: in [last_hash], and in the stored hash info if the row
    has one that the codec can read. *)
Definition carries_hash {world : World} (monitored_url : Monitor.MonitoredUrl)
    (h : HashInfo.t) : Prop :=
  Monitor.last_hash monitored_url = HashInfo.hash h
  /\ forall stored h',
       Monitor.last_hash_info monitored_url = Some stored ->
       json_loads stored = Some h' ->
       HashInfo.hash h' = HashInfo.hash h.

(** The notifications that go with a message: the name of the report for
    "changes detected", none otherwise. *)
Definition notifications_of (m : Monitor.message) : list string :=
  match m with
  | Monitor.ChangesDetected diff_filename => [diff_filename]
  | _ => []
  end.

(** The messages of a cycle that stored the new content and updated the
    row, with the value of ['changed'] each of them goes with. *)
Definition changed_of (m : Monitor.message) : option bool :=
  match m with
  | Monitor.ChangesDetected _ => Some true
  | Monitor.ChangesNoPreviousContent => Some true
  | Monitor.NoSignificantChanges => Some false
  | Monitor.FirstCheckCompleted _ => Some false
  | Monitor.NoChangesDetected _ => Some false
  | Monitor.FailedToDownload => None
  | Monitor.ErrorMonitoring => None
  end.

(** The four components of what a cycle yields. *)
Definition result_of
    (x : Monitor.result * Monitor.MonitoredUrl * ContentStorage.storage
         * list string) : Monitor.result := fst (fst (fst x)).
Definition row_of
    (x : Monitor.result * Monitor.MonitoredUrl * ContentStorage.storage
         * list string) : Monitor.MonitoredUrl := snd (fst (fst x)).
Definition store_of
    (x : Monitor.result * Monitor.MonitoredUrl * ContentStorage.storage
         * list string) : ContentStorage.storage := snd (fst x).
Definition notifications_sent
    (x : Monitor.result * Monitor.MonitoredUrl * ContentStorage.storage
         * list string) : list string := snd x.


(** A character that is safe in a file name: a letter, a digit, an
    underscore or a dot. *)
Definition safe_char (c : ascii) : bool :=
  PyStr.isalnum c || Ascii.eqb c "_" || Ascii.eqb c ".".


(** Plain data without position keys: [None], booleans, numbers, strings,
    and lists and dictionaries of such, no dictionary holding one of the
    skipped keys. *)
Fixpoint plain (n : Ast.node) : bool :=
  match n with
  | Ast.Dict items =>
      forallb (fun kv => negb (Ast.skipped (fst kv)) && plain (snd kv)) items
  | Ast.List items => forallb plain items
  | Ast.Object _ _ => false
  | Ast.Other _ => false
  | _ => true
  end.

(** Two trees agree down to [k] levels; the class of an object is not
    looked at, and its attributes lie one level below it. *)
Fixpoint agree (k : nat) (a b : Ast.node) : Prop :=
  match k with
  | O => True
  | S k' =>
      match a, b with
      | Ast.Dict items1, Ast.Dict items2 =>
          Forall2
            (fun kv1 kv2 =>
               fst kv1 = fst kv2 /\ agree k' (snd kv1) (snd kv2))
            items1 items2
      | Ast.List items1, Ast.List items2 => Forall2 (agree k') items1 items2
      | Ast.Object _ attrs1, Ast.Object _ attrs2 =>
          agree k' (Ast.Dict attrs1) (Ast.Dict attrs2)
      | _, _ => a = b
      end
  end.

(** The tree without its position data: the skipped keys taken out of
    every dictionary and of every object, at any depth. *)
Fixpoint without_positions (n : Ast.node) : Ast.node :=
  match n with
  | Ast.Dict items => Ast.Dict (Ast.clean_items without_positions items)
  | Ast.List items => Ast.List (map without_positions items)
  | Ast.Object class_name attrs =>
      Ast.Object class_name (Ast.clean_items without_positions attrs)
  | _ => n
  end.

End Shape.

(* ================================================================== *)
(** * Further sample inputs                                             *)
(* ================================================================== *)

Module Fixtures.
Local Open Scope Q_scope.

(** The chunk comparison of [fp_old] with [fp_head_changed]. *)
Definition head_change_verdict : ChangeResult.t :=
  Eval vm_compute in
    match Classifier.compare_chunk_hashes Samples.fp_old
            Samples.fp_head_changed with
    | Some v => v
    | None => ChangeResult.Make false 0 None
    end.

Definition head_change_evidence : ChunkEvidence.t :=
  Eval vm_compute in
    match ChangeResult.evidence head_change_verdict with
    | Some e => e
    | None => ChunkEvidence.Make [] 0 false
    end.


(** A source that was checked before, as a row of the database holds it:
    the last hash and no stored hash info. *)
Definition checked_url : Monitor.MonitoredUrl := {|
  Monitor.id := 1%nat;
  Monitor.url := Samples.sample_url;
  Monitor.last_checked := Some "2026-01-06 00:00:00.000000"%string;
  Monitor.last_hash := Some "h_prev"%string;
  Monitor.has_last_hash_info := false;
  Monitor.last_hash_info := None
|}.


(** A text of 2001 characters that differs from [text2001] everywhere. *)
Definition text2001_b : Py.text := repeat "b"%char 2001.

(** The chunked fingerprints of [text2001] and of [text2001_b]. *)
Definition fingerprint_2001 : HashInfo.t :=
  Eval vm_compute in
    match @Fingerprint.generate_position_aware_hash Samples.prefix_hashlib
            Samples.identity_normalizer Samples.text2001
            Fingerprint.chunk_size_default with
    | Some h => h
    | None => HashInfo.Make None legacy 0 None []
    end.

Definition fingerprint_2001_b : HashInfo.t :=
  Eval vm_compute in
    match @Fingerprint.generate_position_aware_hash Samples.prefix_hashlib
            Samples.identity_normalizer text2001_b
            Fingerprint.chunk_size_default with
    | Some h => h
    | None => HashInfo.Make None legacy 0 None []
    end.

(** The chunk comparison of the two. *)
Definition verdict_2001 : ChangeResult.t :=
  Eval vm_compute in
    match Classifier.compare_chunk_hashes fingerprint_2001
            fingerprint_2001_b with
    | Some v => v
    | None => ChangeResult.Make false 0 None
    end.


(** A text of 10001 characters. *)
Definition text10001 : Py.text := repeat "a"%char 10001.

(** A parser that rejects every text. *)
Definition rejecting_esprima : Esprima := {| ast_json := fun _ => None |}.


(** Three lines, to be cut into chunks of at most twelve characters. *)
Definition three_lines : Py.text :=
  Py.lit "var a = 1;" ++ [Py.LF] ++ Py.lit "var b = 2;" ++ [Py.LF]
  ++ Py.lit "f(a, b);".


(** The world of an earlier cycle: that of [quiet_world], a day
    before. *)
Definition earlier_world : World := {|
  download_javascript := fun _ => Fetched Samples.script_v1;
  get_obfuscation_score := fun _ => 0.0;
  deobfuscate := fun t => t;
  beautify_javascript := fun t => t;
  json_loads := fun _ => None;
  json_dumps := fun _ => [];
  utcnow_timestamp := "20260106000000000000";
  utcnow := "2026-01-06 00:00:00.000000";
  save_diff_file := fun _ => Py.Returned "diff.html"%string
|}.

(** The fingerprint of [script_v1] under the accepting parser. *)
Definition fingerprint_v1 : HashInfo.t :=
  Eval vm_compute in
    match @Fingerprint.generate_enhanced_ast_hash Samples.prefix_hashlib
            Samples.identity_normalizer Samples.accepting_esprima
            Samples.script_v1 with
    | Some h => h
    | None => HashInfo.Make None legacy 0 None []
    end.


(** A time stamp as [save_diff_file] formats it. *)
Definition report_timestamp : Py.text := Py.lit "20260107_120000".

(** A packed script, and a regular-expression engine that finds the
    pattern of packed code and nothing else. *)
Definition packed_script : Py.text :=
  Py.lit "eval(function(p,a,c,k,e,d){return p}('0 1',2,2,'a|b'.split('|'),0,{}))".

Definition packed_only_regex : Regex := {|
  re_search := fun pattern _ =>
    String.eqb pattern Deobfuscator.packed_code_pattern;
  findall_count := fun _ _ => 0%nat
|}.


(** A leaf below [depth] nested lists, and two trees that differ in a leaf
    below eleven lists. *)
Fixpoint nested (depth : nat) (leaf : Ast.node) : Ast.node :=
  match depth with
  | O => leaf
  | S depth' => Ast.List [nested depth' leaf]
  end.

Definition deep_tree_1 : Ast.node := nested 11 (Ast.Int 1).
Definition deep_tree_2 : Ast.node := nested 11 (Ast.Int 2).


(** The row of [fresh_url] as the first check of an earlier cycle left
    it. *)
Definition row_after_first_check : Monitor.MonitoredUrl :=
  @Monitor.updated earlier_world Samples.fresh_url fingerprint_v1.

(** The first verdict on [checked_url] and [fingerprint_v1]: a change, at
    the lower of the two confidences. *)
Definition first_verdict_v1 : ChangeResult.t :=
  ChangeResult.Make true (Py.min 0.5 (HashInfo.confidence fingerprint_v1))
    None.

End Fixtures.

(* ================================================================== *)
(** * Properties                                                        *)
(* ================================================================== *)

Module PyFacts.
Local Open Scope Q_scope.

Lemma lt_spec (x y : Q) : Py.lt x y = true <-> x < y.
Proof.
  unfold Py.lt. rewrite negb_true_iff. split.
  - intros H. apply Qnot_le_lt. intros Hle.
    apply Qle_bool_iff in Hle. congruence.
  - intros H. destruct (Qle_bool y x) eqn:E; [|reflexivity].
    apply Qle_bool_iff in E. exfalso. apply (Qlt_not_le _ _ H E).
Qed.

Lemma lt_false (x y : Q) : Py.lt x y = false <-> y <= x.
Proof.
  unfold Py.lt. rewrite negb_false_iff. apply Qle_bool_iff.
Qed.

Lemma le_spec (x y : Q) : Py.le x y = true <-> x <= y.
Proof. apply Qle_bool_iff. Qed.

Lemma le_false (x y : Q) : Py.le x y = false <-> y < x.
Proof.
  unfold Py.le. split.
  - intros H. apply Qnot_le_lt. intros Hle.
    apply Qle_bool_iff in Hle. congruence.
  - intros H. destruct (Qle_bool x y) eqn:E; [|reflexivity].
    apply Qle_bool_iff in E. exfalso. apply (Qlt_not_le _ _ H E).
Qed.

Lemma min_cases (a b : Q) :
  (b < a /\ Py.min a b = b) \/ (a <= b /\ Py.min a b = a).
Proof.
  unfold Py.min. destruct (Py.lt b a) eqn:E.
  - left. split; [apply lt_spec; exact E | reflexivity].
  - right. split; [apply lt_false; exact E | reflexivity].
Qed.

Lemma min_Qmin (a b : Q) : Py.min a b == Qmin a b.
Proof.
  destruct (min_cases a b) as [[H ->] | [H ->]].
  - symmetry. apply Q.min_r. apply Qlt_le_weak. exact H.
  - symmetry. apply Q.min_l. exact H.
Qed.

Lemma min_le_l (a b : Q) : Py.min a b <= a.
Proof. destruct (min_cases a b) as [[H ->] | [H ->]]; lra. Qed.

Lemma min_le_r (a b : Q) : Py.min a b <= b.
Proof. destruct (min_cases a b) as [[H ->] | [H ->]]; lra. Qed.

Lemma min_glb (a b c : Q) : c <= a -> c <= b -> c <= Py.min a b.
Proof. intros. destruct (min_cases a b) as [[H' ->] | [H' ->]]; assumption. Qed.

Lemma fold_left_Qplus (xs : list Q) (a : Q) :
  fold_left Qplus xs a == a + Spec.total xs.
Proof.
  revert a. induction xs as [|x xs IH]; intros a; simpl.
  - lra.
  - rewrite IH. unfold Spec.total. simpl. lra.
Qed.

Lemma sum_total (xs : list Q) : Py.sum xs == Spec.total xs.
Proof. unfold Py.sum. rewrite fold_left_Qplus. lra. Qed.

Lemma total_app (xs ys : list Q) :
  Spec.total (xs ++ ys) == Spec.total xs + Spec.total ys.
Proof.
  unfold Spec.total. induction xs as [|x xs IH]; simpl.
  - lra.
  - rewrite IH. lra.
Qed.

Lemma total_nonneg (xs : list Q) :
  Forall (fun w => 0 <= w) xs -> 0 <= Spec.total xs.
Proof.
  unfold Spec.total. induction 1 as [|x xs Hx _ IH]; simpl.
  - lra.
  - lra.
Qed.

End PyFacts.

Module ClassifierFacts.
Import Classifier.
Local Open Scope Q_scope.

Lemma hash_eqb_eq (a b : option string) : hash_eqb a b = true <-> a = b.
Proof.
  destruct a as [x|], b as [y|]; simpl; split; intros H;
    try discriminate; try reflexivity.
  - apply String.eqb_eq in H. congruence.
  - inversion H. apply String.eqb_refl.
Qed.

Lemma hash_eqb_neq (a b : option string) : hash_eqb a b = false <-> a <> b.
Proof.
  split.
  - intros H E. apply hash_eqb_eq in E. congruence.
  - intros H. destruct (hash_eqb a b) eqn:E; [|reflexivity].
    apply hash_eqb_eq in E. contradiction.
Qed.

(** What one round of the comparison loop appends. *)
Lemma compare_position_In old_chunks new_chunks i c :
  In c (compare_position old_chunks new_chunks i) ->
  ChangedChunk.chunk_index c = i
  /\ Spec.chunk_changed_at old_chunks new_chunks i
  /\ ChangedChunk.weight c = Spec.weight_at old_chunks new_chunks i.
Proof.
  unfold compare_position, Spec.chunk_changed_at, Spec.weight_at.
  destruct (nth_error old_chunks i) as [o|], (nth_error new_chunks i) as [n|];
    simpl.
  - destruct (String.eqb (Chunk.hash o) (Chunk.hash n)) eqn:E; simpl.
    + contradiction.
    + intros [<- | []]. simpl. apply String.eqb_neq in E. auto.
  - intros [<- | []]. simpl. auto.
  - intros [<- | []]. simpl. auto.
  - contradiction.
Qed.

Lemma compare_position_changed old_chunks new_chunks i :
  Spec.chunk_changed_at old_chunks new_chunks i ->
  exists c, compare_position old_chunks new_chunks i = [c].
Proof.
  unfold compare_position, Spec.chunk_changed_at.
  destruct (nth_error old_chunks i) as [o|], (nth_error new_chunks i) as [n|].
  - intros H. apply String.eqb_neq in H. rewrite H. eauto.
  - eauto.
  - eauto.
  - contradiction.
Qed.

Lemma chunk_changed_at_lt old_chunks new_chunks i :
  Spec.chunk_changed_at old_chunks new_chunks i ->
  (i < Py.max (length old_chunks) (length new_chunks))%nat.
Proof.
  unfold Spec.chunk_changed_at, Py.max.
  destruct (nth_error old_chunks i) as [o|] eqn:Eo.
  - intros _. assert (i < length old_chunks)%nat
      by (apply nth_error_Some; congruence). lia.
  - destruct (nth_error new_chunks i) as [n|] eqn:En; [|contradiction].
    intros _. assert (i < length new_chunks)%nat
      by (apply nth_error_Some; congruence). lia.
Qed.

Lemma collect_In old_chunks new_chunks c :
  In c (collect_changed_chunks old_chunks new_chunks) <->
  exists i, In c (compare_position old_chunks new_chunks i).
Proof.
  unfold collect_changed_chunks. rewrite in_flat_map. split.
  - intros [i [_ H]]. eauto.
  - intros [i H]. exists i. split; [|exact H].
    apply in_seq. split; [lia|]. simpl.
    apply chunk_changed_at_lt.
    apply (compare_position_In _ _ _ _ H).
Qed.

(** The list of changed chunks is non-empty exactly when some position is
    added, removed or modified. *)
Lemma collect_nonempty old_chunks new_chunks :
  collect_changed_chunks old_chunks new_chunks <> [] <->
  exists i, Spec.chunk_changed_at old_chunks new_chunks i.
Proof.
  split.
  - destruct (collect_changed_chunks old_chunks new_chunks) as [|c l] eqn:E.
    + intros H. contradiction.
    + intros _. assert (Hc : In c (collect_changed_chunks old_chunks new_chunks))
        by (rewrite E; left; reflexivity).
      apply collect_In in Hc. destruct Hc as [i Hi]. exists i.
      apply (compare_position_In _ _ _ _ Hi).
  - intros [i Hi] E.
    destruct (compare_position_changed _ _ _ Hi) as [c Hc].
    assert (In c (collect_changed_chunks old_chunks new_chunks)).
    { apply collect_In. exists i. rewrite Hc. left. reflexivity. }
    rewrite E in H. contradiction.
Qed.

(** Moving both chunk lists one position to the right does not change the
    weights the loop collects. *)
Lemma weights_shift (old0 old_chunks new0 new_chunks : list Chunk.t) :
  (forall k, nth_error old0 (S k) = nth_error old_chunks k) ->
  (forall k, nth_error new0 (S k) = nth_error new_chunks k) ->
  forall m k,
    map ChangedChunk.weight (flat_map (compare_position old0 new0) (seq (S k) m))
    = map ChangedChunk.weight
        (flat_map (compare_position old_chunks new_chunks) (seq k m)).
Proof.
  intros Ho Hn. induction m as [|m IH]; intros k; simpl.
  - reflexivity.
  - rewrite !map_app, IH. f_equal.
    unfold compare_position. rewrite Ho, Hn.
    destruct (nth_error old_chunks k) as [o|], (nth_error new_chunks k) as [n|];
      try reflexivity.
    destruct (String.eqb (Chunk.hash o) (Chunk.hash n)); reflexivity.
Qed.

Lemma nth_error_nil_S {A} (k : nat) :
  nth_error (@nil A) (S k) = nth_error (@nil A) k.
Proof. destruct k; reflexivity. Qed.

Lemma collect_weights_nil_l (new_chunks : list Chunk.t) :
  map ChangedChunk.weight (collect_changed_chunks [] new_chunks)
  = map Chunk.weight new_chunks.
Proof.
  unfold collect_changed_chunks, Py.max. simpl Nat.max.
  induction new_chunks as [|n l IH]; [reflexivity|].
  cbn [length seq flat_map]. rewrite map_app.
  rewrite (weights_shift [] [] (n :: l) l);
    [| intros k; apply nth_error_nil_S | intros k; reflexivity].
  rewrite IH. reflexivity.
Qed.

Lemma collect_weights_nil_r (old_chunks : list Chunk.t) :
  map ChangedChunk.weight (collect_changed_chunks old_chunks [])
  = map Chunk.weight old_chunks.
Proof.
  unfold collect_changed_chunks, Py.max. rewrite Nat.max_0_r.
  induction old_chunks as [|o l IH]; [reflexivity|].
  cbn [length seq flat_map]. rewrite map_app.
  rewrite (weights_shift (o :: l) l [] []);
    [| intros k; reflexivity | intros k; apply nth_error_nil_S].
  rewrite IH. reflexivity.
Qed.

(** The loop over positions adds up the same weight as the side-by-side
    walk of the specification. *)
Lemma collect_weight_total (old_chunks new_chunks : list Chunk.t) :
  Spec.total (map ChangedChunk.weight
                (collect_changed_chunks old_chunks new_chunks))
  == Spec.changed_weight old_chunks new_chunks.
Proof.
  revert new_chunks. induction old_chunks as [|o old' IH]; intros new_chunks.
  - rewrite collect_weights_nil_l. destruct new_chunks; reflexivity.
  - destruct new_chunks as [|n new'].
    + rewrite collect_weights_nil_r. reflexivity.
    + specialize (IH new'). unfold collect_changed_chunks, Py.max in *.
      cbn [length Nat.max seq flat_map]. rewrite map_app.
      rewrite (weights_shift (o :: old') old' (n :: new') new');
        [| intros k; reflexivity | intros k; reflexivity].
      rewrite PyFacts.total_app, IH.
      cbn [Spec.changed_weight].
      unfold compare_position. cbn [nth_error].
      destruct (String.eqb (Chunk.hash o) (Chunk.hash n));
        unfold Spec.total; simpl; lra.
Qed.

Lemma is_important_spec (c : ChangedChunk.t) :
  is_important c = true <->
  (ChangedChunk.chunk_index c <= 1)%nat /\ 2.0 <= ChangedChunk.weight c.
Proof.
  unfold is_important. rewrite andb_true_iff, Nat.leb_le, PyFacts.le_spec.
  reflexivity.
Qed.

(** ['has_important_change'] in the words of the specification. *)
Lemma has_important_change_spec (old_chunks new_chunks : list Chunk.t) :
  existsb is_important (collect_changed_chunks old_chunks new_chunks) = true <->
  exists i, (i <= 1)%nat
            /\ Spec.chunk_changed_at old_chunks new_chunks i
            /\ 2.0 <= Spec.weight_at old_chunks new_chunks i.
Proof.
  rewrite existsb_exists. split.
  - intros [c [Hin Himp]]. apply is_important_spec in Himp.
    apply collect_In in Hin. destruct Hin as [i Hi].
    destruct (compare_position_In _ _ _ _ Hi) as (Hidx & Hch & Hw).
    exists i. rewrite <- Hw. subst i. tauto.
  - intros (i & Hle & Hch & Hw).
    destruct (compare_position_changed _ _ _ Hch) as [c Hc].
    assert (Hi : In c (compare_position old_chunks new_chunks i))
      by (rewrite Hc; left; reflexivity).
    exists c. split.
    + apply collect_In. eauto.
    + destruct (compare_position_In _ _ _ _ Hi) as (Hidx & _ & Hw').
      apply is_important_spec. rewrite Hw'. subst i. tauto.
Qed.

End ClassifierFacts.

Module VerdictFacts.
Import Classifier ClassifierFacts.
Local Open Scope Q_scope.

Lemma nil_or_not {A} (l : list A) : l = [] \/ l <> [].
Proof. destruct l; [left; reflexivity | right; discriminate]. Qed.

Lemma total_pos (xs : list Q) :
  Forall (fun w => 0 < w) xs -> xs <> [] -> 0 < Spec.total xs.
Proof.
  intros H. destruct H as [|x xs Hx Hxs]; [congruence|]. intros _.
  assert (0 <= Spec.total xs).
  { apply PyFacts.total_nonneg. eapply Forall_impl; [|exact Hxs].
    intros a Ha. simpl in Ha. lra. }
  unfold Spec.total in *. simpl. lra.
Qed.

Lemma Forall_weight_map (cs : list Chunk.t) :
  Forall (fun c => 0 < Chunk.weight c) cs ->
  Forall (fun w => 0 < w) (map Chunk.weight cs).
Proof. induction 1; simpl; constructor; assumption. Qed.

Lemma weights_positive_nonnegative (h : HashInfo.t) :
  Spec.weights_positive h -> Spec.weights_nonnegative h.
Proof.
  unfold Spec.weights_positive, Spec.weights_nonnegative. intros H.
  eapply Forall_impl; [|exact H]. intros c Hc. simpl in Hc.
  apply Qlt_le_weak. exact Hc.
Qed.

(** Every collected weight is the weight of a chunk of one of the two
    fingerprints. *)
Lemma collect_weights_nonnegative (old_chunks new_chunks : list Chunk.t) :
  Forall (fun c => 0 <= Chunk.weight c) old_chunks ->
  Forall (fun c => 0 <= Chunk.weight c) new_chunks ->
  Forall (fun w => 0 <= w)
    (map ChangedChunk.weight (collect_changed_chunks old_chunks new_chunks)).
Proof.
  intros Ho Hn. apply Forall_forall. intros w Hw.
  apply in_map_iff in Hw. destruct Hw as [c [<- Hc]].
  apply collect_In in Hc. destruct Hc as [i Hi].
  destruct (compare_position_In _ _ _ _ Hi) as (_ & _ & ->).
  unfold Spec.weight_at. rewrite Forall_forall in Ho, Hn.
  destruct (nth_error new_chunks i) as [n|] eqn:En.
  - apply Hn. eapply nth_error_In; eauto.
  - destruct (nth_error old_chunks i) as [o|] eqn:Eo.
    + apply Ho. eapply nth_error_In; eauto.
    + lra.
Qed.

(** The result of the chunk comparison when some chunk changed. *)
Lemma chunk_result_changed (old_hash_info new_hash_info : HashInfo.t) :
  Spec.chunked old_hash_info -> Spec.chunked new_hash_info ->
  collect_changed_chunks (HashInfo.chunk_details old_hash_info)
                         (HashInfo.chunk_details new_hash_info) <> [] ->
  exists conf ratio,
    compare_chunk_hashes old_hash_info new_hash_info
    = Some (ChangeResult.Make true conf
              (Some (ChunkEvidence.Make
                       (collect_changed_chunks
                          (HashInfo.chunk_details old_hash_info)
                          (HashInfo.chunk_details new_hash_info))
                       ratio
                       (existsb is_important
                          (collect_changed_chunks
                             (HashInfo.chunk_details old_hash_info)
                             (HashInfo.chunk_details new_hash_info))))))
    /\ ratio
       = (if Py.lt 0 (Py.sum (map Chunk.weight
                                (HashInfo.chunk_details old_hash_info
                                 ++ HashInfo.chunk_details new_hash_info)))
          then Py.sum (map ChangedChunk.weight
                         (collect_changed_chunks
                            (HashInfo.chunk_details old_hash_info)
                            (HashInfo.chunk_details new_hash_info)))
               / Py.sum (map Chunk.weight
                           (HashInfo.chunk_details old_hash_info
                            ++ HashInfo.chunk_details new_hash_info))
          else 1.0)
    /\ conf
       = (if existsb is_important
               (collect_changed_chunks
                  (HashInfo.chunk_details old_hash_info)
                  (HashInfo.chunk_details new_hash_info))
          then Py.min 0.98 (0.85 + 0.10)
          else Py.min 0.95 (0.85 + ratio * 0.10)).
Proof.
  unfold Spec.chunked, compare_chunk_hashes. intros -> -> Hne.
  rewrite String.eqb_refl. simpl.
  destruct (collect_changed_chunks _ _) as [|c l] eqn:E; [congruence|].
  eexists. eexists. split; [reflexivity|]. split; reflexivity.
Qed.

(** The result of the chunk comparison when no chunk changed. *)
Lemma chunk_result_unchanged (old_hash_info new_hash_info : HashInfo.t) :
  Spec.chunked old_hash_info -> Spec.chunked new_hash_info ->
  collect_changed_chunks (HashInfo.chunk_details old_hash_info)
                         (HashInfo.chunk_details new_hash_info) = [] ->
  compare_chunk_hashes old_hash_info new_hash_info
  = Some (ChangeResult.Make false 0.98 None).
Proof.
  unfold Spec.chunked, compare_chunk_hashes. intros -> -> E.
  rewrite String.eqb_refl, E. reflexivity.
Qed.

Lemma chunk_result_Some (old_hash_info new_hash_info : HashInfo.t) v :
  compare_chunk_hashes old_hash_info new_hash_info = Some v ->
  Spec.chunked old_hash_info /\ Spec.chunked new_hash_info.
Proof.
  unfold compare_chunk_hashes, Spec.chunked.
  destruct (String.eqb (HashInfo.method old_hash_info) position_aware_chunked)
    eqn:Eo; [|discriminate].
  destruct (String.eqb (HashInfo.method new_hash_info) position_aware_chunked)
    eqn:En; [|discriminate].
  intros _. split; apply String.eqb_eq; assumption.
Qed.

Lemma chunk_result_None (old_hash_info new_hash_info : HashInfo.t) :
  compare_chunk_hashes old_hash_info new_hash_info = None ->
  ~ (Spec.chunked old_hash_info /\ Spec.chunked new_hash_info).
Proof.
  intros H [Ho Hn].
  destruct (nil_or_not
              (collect_changed_chunks (HashInfo.chunk_details old_hash_info)
                 (HashInfo.chunk_details new_hash_info))) as [E|E].
  - rewrite (chunk_result_unchanged _ _ Ho Hn E) in H. discriminate.
  - destruct (chunk_result_changed _ _ Ho Hn E) as (c & r & Hc & _).
    rewrite Hc in H. discriminate.
Qed.

(** Without negative chunk weights the change ratio is not negative. *)
Lemma change_ratio_nonneg (old_chunks new_chunks : list Chunk.t) :
  Forall (fun c => 0 <= Chunk.weight c) old_chunks ->
  Forall (fun c => 0 <= Chunk.weight c) new_chunks ->
  0 <= (if Py.lt 0 (Py.sum (map Chunk.weight (old_chunks ++ new_chunks)))
        then Py.sum (map ChangedChunk.weight
                       (collect_changed_chunks old_chunks new_chunks))
             / Py.sum (map Chunk.weight (old_chunks ++ new_chunks))
        else 1.0).
Proof.
  intros Ho Hn.
  destruct (Py.lt 0 (Py.sum (map Chunk.weight (old_chunks ++ new_chunks))))
    eqn:E; [|lra].
  apply PyFacts.lt_spec in E.
  apply Qle_shift_div_l; [exact E|]. rewrite Qmult_0_l.
  rewrite PyFacts.sum_total. apply PyFacts.total_nonneg.
  apply collect_weights_nonnegative; assumption.
Qed.

(** Bounds on the confidence of any chunk comparison. *)
Lemma chunk_result_bounds (old_hash_info new_hash_info : HashInfo.t) v :
  Spec.weights_nonnegative old_hash_info ->
  Spec.weights_nonnegative new_hash_info ->
  compare_chunk_hashes old_hash_info new_hash_info = Some v ->
  0.85 <= ChangeResult.confidence v <= 0.98.
Proof.
  intros Ho Hn Hv. destruct (chunk_result_Some _ _ _ Hv) as [Co Cn].
  destruct (nil_or_not
              (collect_changed_chunks (HashInfo.chunk_details old_hash_info)
                 (HashInfo.chunk_details new_hash_info))) as [E|E].
  - rewrite (chunk_result_unchanged _ _ Co Cn E) in Hv. inversion Hv. simpl. lra.
  - destruct (chunk_result_changed _ _ Co Cn E) as (c & r & Hc & Hr & Hconf).
    rewrite Hc in Hv. inversion Hv. simpl.
    assert (0 <= r) by (rewrite Hr; apply change_ratio_nonneg; assumption).
    rewrite Hconf. destruct (existsb is_important _).
    + split.
      * apply PyFacts.min_glb; lra.
      * apply PyFacts.min_le_l.
    + split.
      * apply PyFacts.min_glb; lra.
      * pose proof (PyFacts.min_le_l 0.95 (0.85 + r * 0.10)). lra.
Qed.

End VerdictFacts.

(* ================================================================== *)
(** * The claims about the change classifier                            *)
(* ================================================================== *)

Module ClassifierClaims.
Import Classifier ClassifierFacts VerdictFacts.
Local Open Scope Q_scope.

(** C6.  Classifying a fingerprint against itself answers
    [changed = false] with confidence 0.99, which is at least 0.99.  The
    answer carries no chunk evidence and is the same whether or not a
    full-text comparison is supplied: neither the chunk comparison nor the
    similarity pass takes part in it. *)
Theorem classify_self_unchanged (F : HashInfo.t) (cs : option Comparison.t) :
  calculate_change_confidence F F cs = ChangeResult.Make false 0.99 None
  /\ ChangeResult.changed (calculate_change_confidence F F cs) = false
  /\ 0.99 <= ChangeResult.confidence (calculate_change_confidence F F cs)
  /\ ChangeResult.evidence (calculate_change_confidence F F cs) = None
  /\ calculate_change_confidence F F cs = calculate_change_confidence F F None.
Proof.
  assert (E : forall c, calculate_change_confidence F F c
                        = ChangeResult.Make false 0.99 None).
  { intros c. unfold calculate_change_confidence.
    assert (H : hash_eqb (HashInfo.hash F) (HashInfo.hash F) = true)
      by (apply hash_eqb_eq; reflexivity).
    rewrite H. reflexivity. }
  rewrite !E. simpl. repeat split; try reflexivity. lra.
Qed.

(** Identical hash values end the classification at once. *)
Lemma classify_equal_hash (old_hash_info new_hash_info : HashInfo.t) cs :
  HashInfo.hash old_hash_info = HashInfo.hash new_hash_info ->
  calculate_change_confidence old_hash_info new_hash_info cs
  = ChangeResult.Make false 0.99 None.
Proof.
  intros H. unfold calculate_change_confidence.
  apply hash_eqb_eq in H. rewrite H. reflexivity.
Qed.

Lemma all_weight_total (old_chunks new_chunks : list Chunk.t) :
  Py.sum (map Chunk.weight (old_chunks ++ new_chunks))
  == Spec.all_weight old_chunks new_chunks.
Proof.
  rewrite PyFacts.sum_total, map_app, PyFacts.total_app. reflexivity.
Qed.

Lemma changed_position_nonempty (old_chunks new_chunks : list Chunk.t) i :
  Spec.chunk_changed_at old_chunks new_chunks i ->
  old_chunks ++ new_chunks <> [].
Proof.
  unfold Spec.chunk_changed_at. intros H E.
  apply app_eq_nil in E. destruct E as [-> ->].
  destruct i; simpl in H; contradiction.
Qed.

Lemma all_weight_positive (old_hash_info new_hash_info : HashInfo.t) i :
  Spec.weights_positive old_hash_info -> Spec.weights_positive new_hash_info ->
  Spec.chunk_changed_at (HashInfo.chunk_details old_hash_info)
                        (HashInfo.chunk_details new_hash_info) i ->
  0 < Py.sum (map Chunk.weight (HashInfo.chunk_details old_hash_info
                                ++ HashInfo.chunk_details new_hash_info)).
Proof.
  intros Ho Hn Hi. rewrite PyFacts.sum_total. apply total_pos.
  - apply Forall_weight_map. apply Forall_app. split; assumption.
  - intros E. apply map_eq_nil in E.
    apply (changed_position_nonempty _ _ _ Hi E).
Qed.

(** With positive chunk weights, as the engine assigns them, the guard on
    the total weight is never taken. *)
Lemma positive_weights_ratio (old_hash_info new_hash_info : HashInfo.t) :
  Spec.weights_positive old_hash_info -> Spec.weights_positive new_hash_info ->
  (exists i, Spec.chunk_changed_at (HashInfo.chunk_details old_hash_info)
                                   (HashInfo.chunk_details new_hash_info) i) ->
  0 < Spec.all_weight (HashInfo.chunk_details old_hash_info)
                      (HashInfo.chunk_details new_hash_info).
Proof.
  intros Ho Hn [i Hi]. rewrite <- all_weight_total.
  apply (all_weight_positive _ _ _ Ho Hn Hi).
Qed.

(** The chunk comparison on any two chunked fingerprints with at least one
    chunk added, removed or modified, whatever their weights: the division
    is guarded, so the [change_ratio] is the quotient of the changed weight
    by the total weight when that total is positive, and 1.0 when it is
    not. *)
Lemma chunk_comparison_ratio_cases
    (old_hash_info new_hash_info : HashInfo.t) :
  Spec.chunked old_hash_info -> Spec.chunked new_hash_info ->
  (exists i, Spec.chunk_changed_at (HashInfo.chunk_details old_hash_info)
                                   (HashInfo.chunk_details new_hash_info) i) ->
  exists v e,
    compare_chunk_hashes old_hash_info new_hash_info = Some v
    /\ ChangeResult.changed v = true
    /\ ChangeResult.evidence v = Some e
    /\ (0 < Spec.all_weight (HashInfo.chunk_details old_hash_info)
                            (HashInfo.chunk_details new_hash_info) ->
        ChunkEvidence.change_ratio e
        == Spec.changed_weight (HashInfo.chunk_details old_hash_info)
                               (HashInfo.chunk_details new_hash_info)
           / Spec.all_weight (HashInfo.chunk_details old_hash_info)
                             (HashInfo.chunk_details new_hash_info))
    /\ (Spec.all_weight (HashInfo.chunk_details old_hash_info)
                        (HashInfo.chunk_details new_hash_info) <= 0 ->
        ChunkEvidence.change_ratio e == 1.0)
    /\ (ChunkEvidence.has_important_change e = true <->
        exists i, (i <= 1)%nat
                  /\ Spec.chunk_changed_at (HashInfo.chunk_details old_hash_info)
                       (HashInfo.chunk_details new_hash_info) i
                  /\ 2.0 <= Spec.weight_at (HashInfo.chunk_details old_hash_info)
                              (HashInfo.chunk_details new_hash_info) i)
    /\ (ChunkEvidence.has_important_change e = true ->
        ChangeResult.confidence v == Qmin 0.98 (0.85 + 0.10))
    /\ (ChunkEvidence.has_important_change e = false ->
        ChangeResult.confidence v
        == Qmin 0.95 (0.85 + 0.10 * ChunkEvidence.change_ratio e)).
Proof.
  intros Co Cn Hex.
  assert (Hne : collect_changed_chunks (HashInfo.chunk_details old_hash_info)
                  (HashInfo.chunk_details new_hash_info) <> [])
    by (apply collect_nonempty; exact Hex).
  destruct (chunk_result_changed _ _ Co Cn Hne) as (conf & ratio & Hv & Hr & Hc).
  eexists. eexists. split; [exact Hv|]. simpl.
  split; [reflexivity|]. split; [reflexivity|].
  cbn [ChunkEvidence.change_ratio ChunkEvidence.has_important_change
       ChangeResult.confidence].
  split; [|split].
  - intros Hpos. rewrite <- all_weight_total in Hpos.
    apply PyFacts.lt_spec in Hpos. rewrite Hpos in Hr. cbv iota in Hr.
    rewrite Hr, all_weight_total, PyFacts.sum_total, collect_weight_total.
    reflexivity.
  - intros Hnonpos. rewrite <- all_weight_total in Hnonpos.
    apply PyFacts.lt_false in Hnonpos. rewrite Hnonpos in Hr. rewrite Hr.
    reflexivity.
  - split; [apply has_important_change_spec|]. split.
    + intros Himp. rewrite Hc, Himp. apply PyFacts.min_Qmin.
    + intros Himp. rewrite Hc, Himp. rewrite PyFacts.min_Qmin.
      apply Q.min_compat; [reflexivity | ring].
Qed.

(** C2.  For two chunked fingerprints with positive chunk weights, as the
    engine assigns them, and with at least one chunk added, removed or
    modified, the chunk comparison reports a change whose [change_ratio]
    is the summed weight of the changed chunks divided by the summed
    weight of all chunks; whose [has_important_change] holds exactly when
    some changed chunk has index at most 1 and weight at least 2.0; and
    whose confidence is [min(0.98, 0.85 + 0.10)] with an important change
    and [min(0.95, 0.85 + 0.10 * change_ratio)] otherwise. *)
Theorem chunk_comparison_ratio_and_confidence
    (old_hash_info new_hash_info : HashInfo.t) :
  Spec.chunked old_hash_info -> Spec.chunked new_hash_info ->
  Spec.weights_positive old_hash_info ->
  Spec.weights_positive new_hash_info ->
  (exists i, Spec.chunk_changed_at (HashInfo.chunk_details old_hash_info)
                                   (HashInfo.chunk_details new_hash_info) i) ->
  exists v e,
    compare_chunk_hashes old_hash_info new_hash_info = Some v
    /\ ChangeResult.changed v = true
    /\ ChangeResult.evidence v = Some e
    /\ 0 < Spec.all_weight (HashInfo.chunk_details old_hash_info)
                           (HashInfo.chunk_details new_hash_info)
    /\ ChunkEvidence.change_ratio e
       == Spec.changed_weight (HashInfo.chunk_details old_hash_info)
                              (HashInfo.chunk_details new_hash_info)
          / Spec.all_weight (HashInfo.chunk_details old_hash_info)
                            (HashInfo.chunk_details new_hash_info)
    /\ (ChunkEvidence.has_important_change e = true <->
        exists i, (i <= 1)%nat
                  /\ Spec.chunk_changed_at (HashInfo.chunk_details old_hash_info)
                       (HashInfo.chunk_details new_hash_info) i
                  /\ 2.0 <= Spec.weight_at (HashInfo.chunk_details old_hash_info)
                              (HashInfo.chunk_details new_hash_info) i)
    /\ (ChunkEvidence.has_important_change e = true ->
        ChangeResult.confidence v == Qmin 0.98 (0.85 + 0.10))
    /\ (ChunkEvidence.has_important_change e = false ->
        ChangeResult.confidence v
        == Qmin 0.95 (0.85 + 0.10 * ChunkEvidence.change_ratio e)).
Proof.
  intros Co Cn Ho Hn Hex.
  pose proof (positive_weights_ratio _ _ Ho Hn Hex) as Hpos.
  destruct (chunk_comparison_ratio_cases _ _ Co Cn Hex)
    as (v & e & Hv & Hc & He & Hratio & _ & Himp & Hyes & Hno).
  exists v, e. split; [exact Hv|]. split; [exact Hc|]. split; [exact He|].
  split; [exact Hpos|]. split; [exact (Hratio Hpos)|].
  split; [exact Himp|]. split; [exact Hyes | exact Hno].
Qed.

Lemma chunk_comparison_ratio_and_confidence_witness :
  exists v e,
    compare_chunk_hashes Samples.fp_old Samples.fp_head_changed = Some v
    /\ ChangeResult.changed v = true
    /\ ChangeResult.evidence v = Some e
    /\ 0 < Spec.all_weight (HashInfo.chunk_details Samples.fp_old)
                           (HashInfo.chunk_details Samples.fp_head_changed)
    /\ ChunkEvidence.change_ratio e
       == Spec.changed_weight (HashInfo.chunk_details Samples.fp_old)
                              (HashInfo.chunk_details Samples.fp_head_changed)
          / Spec.all_weight (HashInfo.chunk_details Samples.fp_old)
                            (HashInfo.chunk_details Samples.fp_head_changed)
    /\ (ChunkEvidence.has_important_change e = true <->
        exists i, (i <= 1)%nat
                  /\ Spec.chunk_changed_at
                       (HashInfo.chunk_details Samples.fp_old)
                       (HashInfo.chunk_details Samples.fp_head_changed) i
                  /\ 2.0 <= Spec.weight_at
                              (HashInfo.chunk_details Samples.fp_old)
                              (HashInfo.chunk_details Samples.fp_head_changed) i)
    /\ (ChunkEvidence.has_important_change e = true ->
        ChangeResult.confidence v == Qmin 0.98 (0.85 + 0.10))
    /\ (ChunkEvidence.has_important_change e = false ->
        ChangeResult.confidence v
        == Qmin 0.95 (0.85 + 0.10 * ChunkEvidence.change_ratio e)).
Proof.
  apply (chunk_comparison_ratio_and_confidence
           Samples.fp_old Samples.fp_head_changed).
  - reflexivity.
  - reflexivity.
  - unfold Spec.weights_positive. simpl. repeat constructor.
  - unfold Spec.weights_positive. simpl. repeat constructor.
  - exists 0%nat. simpl. discriminate.
Defined.

(** The first chunk of [fp_old] changed: weight 3 of 12 in all, an
    important change, confidence 0.95. *)
Example head_change_verdict :
  exists v e,
    compare_chunk_hashes Samples.fp_old Samples.fp_head_changed = Some v
    /\ ChangeResult.evidence v = Some e
    /\ ChunkEvidence.change_ratio e == 0.25
    /\ ChunkEvidence.has_important_change e = true
    /\ ChangeResult.confidence v == 0.95.
Proof.
  eexists. eexists. split; [reflexivity|]. split; [reflexivity|].
  repeat split; reflexivity.
Qed.

(** The hypothesis on the weights is needed.  On two hand-made
    fingerprints, which the engine does not produce, the one chunk of the
    prior fingerprint weighs 1, the one chunk of the current fingerprint
    weighs -3 and has another hash: the changed weight is -3, the total
    weight is -2, their quotient is 1.5, and the guard of the division
    makes the comparison report a change ratio of 1.0. *)
Lemma nonpositive_total_weight_ratio_is_one :
  exists v e,
    compare_chunk_hashes Samples.fp_weight_1 Samples.fp_weight_minus_3 = Some v
    /\ ChangeResult.evidence v = Some e
    /\ Spec.chunk_changed_at (HashInfo.chunk_details Samples.fp_weight_1)
         (HashInfo.chunk_details Samples.fp_weight_minus_3) 0
    /\ ChunkEvidence.change_ratio e == 1.0
    /\ Spec.changed_weight (HashInfo.chunk_details Samples.fp_weight_1)
         (HashInfo.chunk_details Samples.fp_weight_minus_3)
       / Spec.all_weight (HashInfo.chunk_details Samples.fp_weight_1)
           (HashInfo.chunk_details Samples.fp_weight_minus_3)
       == 1.5
    /\ ~ ChunkEvidence.change_ratio e
         == Spec.changed_weight (HashInfo.chunk_details Samples.fp_weight_1)
              (HashInfo.chunk_details Samples.fp_weight_minus_3)
            / Spec.all_weight (HashInfo.chunk_details Samples.fp_weight_1)
                (HashInfo.chunk_details Samples.fp_weight_minus_3).
Proof.
  eexists. eexists. split; [reflexivity|]. split; [reflexivity|].
  split; [simpl; discriminate|]. split; [reflexivity|].
  split; [reflexivity|]. intros H. vm_compute in H. discriminate.
Qed.

(** C9.  For two chunked fingerprints without negative chunk weights (the
    engine assigns positive ones), whose combined hashes differ and of
    which at least one chunk is added, removed or modified, the chunk
    comparison answers
    [changed = true] with a confidence of at least 0.85, and the classifier
    returns exactly that verdict for every third argument: with no
    comparison, or with any full-text comparison whatsoever. *)
Theorem chunk_change_verdict_ignores_similarity
    (old_hash_info new_hash_info : HashInfo.t) :
  Spec.chunked old_hash_info -> Spec.chunked new_hash_info ->
  HashInfo.hash old_hash_info <> HashInfo.hash new_hash_info ->
  Spec.weights_nonnegative old_hash_info ->
  Spec.weights_nonnegative new_hash_info ->
  (exists i, Spec.chunk_changed_at (HashInfo.chunk_details old_hash_info)
                                   (HashInfo.chunk_details new_hash_info) i) ->
  exists v,
    compare_chunk_hashes old_hash_info new_hash_info = Some v
    /\ ChangeResult.changed v = true
    /\ 0.85 <= ChangeResult.confidence v
    /\ forall cs : option Comparison.t,
         calculate_change_confidence old_hash_info new_hash_info cs = v.
Proof.
  intros Co Cn Hh Ho Hn Hex.
  assert (Hne : collect_changed_chunks (HashInfo.chunk_details old_hash_info)
                  (HashInfo.chunk_details new_hash_info) <> [])
    by (apply collect_nonempty; exact Hex).
  destruct (chunk_result_changed _ _ Co Cn Hne) as (conf & ratio & Hv & _ & _).
  pose proof (chunk_result_bounds _ _ _ Ho Hn Hv) as [Hlo _].
  eexists. split; [exact Hv|]. split; [reflexivity|]. split; [exact Hlo|].
  intros cs. unfold calculate_change_confidence.
  apply hash_eqb_neq in Hh. rewrite Hh, Hv.
  cbn [ChangeResult.changed ChangeResult.confidence] in *.
  apply PyFacts.le_spec in Hlo. rewrite Hlo. reflexivity.
Qed.

Lemma chunk_change_verdict_ignores_similarity_witness :
  exists v,
    compare_chunk_hashes Samples.fp_old Samples.fp_tail_changed = Some v
    /\ ChangeResult.changed v = true
    /\ 0.85 <= ChangeResult.confidence v
    /\ forall cs : option Comparison.t,
         calculate_change_confidence Samples.fp_old Samples.fp_tail_changed cs
         = v.
Proof.
  apply (chunk_change_verdict_ignores_similarity
           Samples.fp_old Samples.fp_tail_changed).
  - reflexivity.
  - reflexivity.
  - discriminate.
  - unfold Spec.weights_nonnegative. simpl. repeat constructor; discriminate.
  - unfold Spec.weights_nonnegative. simpl. repeat constructor; discriminate.
  - exists 2%nat. simpl. discriminate.
Defined.

(** The hypothesis on the weights is needed.  On two hand-made
    fingerprints, which the engine does not produce, the prior chunk
    weighs 10, the current chunk weighs -9 and has another hash: the
    change ratio is -9, the chunk verdict is a change of confidence -0.05,
    and the classifier handed a comparison of similarity 1 answers
    [changed = false] at 0.90 instead of that verdict. *)
Lemma negative_weight_verdict_depends_on_similarity :
  exists v,
    Spec.chunked Samples.fp_weight_10
    /\ Spec.chunked Samples.fp_weight_minus_9
    /\ HashInfo.hash Samples.fp_weight_10
       <> HashInfo.hash Samples.fp_weight_minus_9
    /\ Spec.chunk_changed_at (HashInfo.chunk_details Samples.fp_weight_10)
         (HashInfo.chunk_details Samples.fp_weight_minus_9) 0
    /\ compare_chunk_hashes Samples.fp_weight_10 Samples.fp_weight_minus_9
       = Some v
    /\ ChangeResult.confidence v == -0.05
    /\ ~ 0.85 <= ChangeResult.confidence v
    /\ calculate_change_confidence Samples.fp_weight_10
         Samples.fp_weight_minus_9 None = v
    /\ calculate_change_confidence Samples.fp_weight_10
         Samples.fp_weight_minus_9 (Some Samples.cmp_identical)
       = ChangeResult.Make false 0.90 None
    /\ calculate_change_confidence Samples.fp_weight_10
         Samples.fp_weight_minus_9 (Some Samples.cmp_identical) <> v.
Proof.
  eexists. split; [reflexivity|]. split; [reflexivity|].
  split; [discriminate|]. split; [simpl; discriminate|].
  split; [reflexivity|]. split; [reflexivity|].
  split; [intros H; vm_compute in H; apply H; reflexivity|].
  split; [reflexivity|]. split; [reflexivity|]. discriminate.
Qed.

Lemma base_confidence_bounds (old_hash_info new_hash_info : HashInfo.t) :
  0 <= HashInfo.confidence old_hash_info <= 1 ->
  0 <= HashInfo.confidence new_hash_info <= 1 ->
  0 <= base_confidence old_hash_info new_hash_info <= 1.
Proof.
  intros [Ho1 Ho2] [Hn1 Hn2]. unfold base_confidence. split.
  - apply PyFacts.min_glb; assumption.
  - pose proof (PyFacts.min_le_l (HashInfo.confidence old_hash_info)
                  (HashInfo.confidence new_hash_info)). lra.
Qed.

(** C10.  For two fingerprints whose confidence fields lie in [0, 1] and
    whose chunks have no negative weight (the engine assigns positive
    ones), the verdict of the classifier has a confidence in [0, 1] on
    every branch: equal hashes, chunk comparison, similarity pass on
    chunked or on whole-text fingerprints, and the default. *)
Theorem classifier_confidence_in_unit_interval
    (old_hash_info new_hash_info : HashInfo.t) (cs : option Comparison.t) :
  0 <= HashInfo.confidence old_hash_info <= 1 ->
  0 <= HashInfo.confidence new_hash_info <= 1 ->
  Spec.weights_nonnegative old_hash_info ->
  Spec.weights_nonnegative new_hash_info ->
  0 <= ChangeResult.confidence
         (calculate_change_confidence old_hash_info new_hash_info cs) <= 1.
Proof.
  intros Hco Hcn Ho Hn.
  pose proof (base_confidence_bounds _ _ Hco Hcn) as [Hb0 Hb1].
  unfold calculate_change_confidence.
  destruct (hash_eqb _ _); [simpl; lra|].
  destruct (compare_chunk_hashes old_hash_info new_hash_info) as [v|] eqn:Hv.
  - pose proof (chunk_result_bounds _ _ _ Ho Hn Hv) as [Hlo Hhi].
    destruct (ChangeResult.changed v && Py.le 0.85 (ChangeResult.confidence v));
      [lra|].
    destruct cs as [c|]; [|lra].
    destruct (ChangeResult.get_has_important_change v).
    + destruct (Py.lt (Comparison.similarity c) 0.999); simpl; [|lra].
      split.
      * apply PyFacts.min_glb; lra.
      * pose proof (PyFacts.min_le_r (ChangeResult.confidence v * 1.05) 0.98).
        lra.
    + destruct (Py.lt (Comparison.similarity c) 0.995); simpl; lra.
  - destruct cs as [c|]; [|simpl; lra].
    destruct (Py.lt 0.98 (Comparison.similarity c)
              && Py.lt (Comparison.length_diff c) 0.01); [simpl; lra|].
    destruct (Py.lt 0.95 (Comparison.similarity c)); simpl.
    + lra.
    + split.
      * apply PyFacts.min_glb; lra.
      * pose proof (PyFacts.min_le_r
                      (base_confidence old_hash_info new_hash_info * 1.1) 0.99).
        lra.
Qed.

Lemma classifier_confidence_in_unit_interval_witness :
  0 <= ChangeResult.confidence
         (calculate_change_confidence Samples.fp_old Samples.fp_tail_changed
            (Some Samples.cmp_identical)) <= 1.
Proof.
  apply (classifier_confidence_in_unit_interval
           Samples.fp_old Samples.fp_tail_changed (Some Samples.cmp_identical)).
  - simpl. lra.
  - simpl. lra.
  - unfold Spec.weights_nonnegative. simpl. repeat constructor; discriminate.
  - unfold Spec.weights_nonnegative. simpl. repeat constructor; discriminate.
Defined.

(** Here too the hypothesis on the weights is needed.  Both hand-made
    fingerprints have the confidence 0.92; the prior chunk weighs 10 and
    the current chunk weighs -9, and the classifier answers with the
    confidence -0.05. *)
Lemma negative_weight_confidence_below_zero :
  0 <= HashInfo.confidence Samples.fp_weight_10 <= 1
  /\ 0 <= HashInfo.confidence Samples.fp_weight_minus_9 <= 1
  /\ ChangeResult.confidence
       (calculate_change_confidence Samples.fp_weight_10
          Samples.fp_weight_minus_9 None) == -0.05
  /\ ChangeResult.confidence
       (calculate_change_confidence Samples.fp_weight_10
          Samples.fp_weight_minus_9 None) < 0.
Proof.
  split; [simpl; lra|]. split; [simpl; lra|].
  split; reflexivity.
Qed.

(** A length difference above 30% of the longer text ends the comparison
    early with similarity 0. *)
Lemma major_length_change {difflib : Difflib} (old_content new_content : Py.text) :
  (3 * Py.max (length old_content) (length new_content)
   < 10 * Py.absdiff (length old_content) (length new_content))%nat ->
  enhanced_content_comparison old_content new_content
  = Comparison.Make 0.0 true
      (Py.float (Py.absdiff (length old_content) (length new_content))
       / Py.float (Py.max (length old_content) (length new_content))).
Proof.
  intros H. unfold enhanced_content_comparison.
  assert (Hm : (0 < Py.max (length old_content) (length new_content))%nat)
    by (unfold Py.max, Py.absdiff in *; lia).
  set (m := Py.max (length old_content) (length new_content)) in *.
  set (d := Py.absdiff (length old_content) (length new_content)) in *.
  assert (E0 : (m =? 0)%nat = false) by (apply Nat.eqb_neq; lia).
  rewrite E0.
  assert (E : Py.lt 0.3 (Py.float d / Py.float m) = true).
  { apply PyFacts.lt_spec. apply Qlt_shift_div_l.
    - unfold Py.float, Qlt, inject_Z. cbn [Qnum Qden]. lia.
    - unfold Py.float, Qlt, Qmult, inject_Z. cbn [Qnum Qden]. lia. }
  rewrite E. reflexivity.
Qed.

(** With similarity 0 the classifier reports a change as soon as the two
    hash values differ. *)
Lemma zero_similarity_changed (old_hash_info new_hash_info : HashInfo.t)
    (major : bool) (ld : Q) :
  HashInfo.hash old_hash_info <> HashInfo.hash new_hash_info ->
  ChangeResult.changed
    (calculate_change_confidence old_hash_info new_hash_info
       (Some (Comparison.Make 0.0 major ld))) = true.
Proof.
  intros Hh. unfold calculate_change_confidence.
  apply hash_eqb_neq in Hh. rewrite Hh.
  destruct (compare_chunk_hashes old_hash_info new_hash_info) as [v|].
  - destruct (ChangeResult.changed v && Py.le 0.85 (ChangeResult.confidence v))
      eqn:E.
    + apply andb_true_iff in E. tauto.
    + cbn [Comparison.similarity].
      destruct (ChangeResult.get_has_important_change v); reflexivity.
  - reflexivity.
Qed.

(** C3, as the code has it.  When the two lengths differ by more than 30%
    of the longer text, the full-text comparison reports similarity 0 (a
    major change), and the classifier given that comparison answers
    [changed = true] whenever the two hash values differ; with identical
    hash values it still answers [changed = false] at confidence 0.99. *)
Theorem major_length_change_forces_changed {difflib : Difflib}
    (old_content new_content : Py.text)
    (old_hash_info new_hash_info : HashInfo.t) :
  (3 * Py.max (length old_content) (length new_content)
   < 10 * Py.absdiff (length old_content) (length new_content))%nat ->
  Comparison.similarity (enhanced_content_comparison old_content new_content)
  = 0.0
  /\ Comparison.major_change
       (enhanced_content_comparison old_content new_content) = true
  /\ (HashInfo.hash old_hash_info <> HashInfo.hash new_hash_info ->
      ChangeResult.changed
        (calculate_change_confidence old_hash_info new_hash_info
           (Some (enhanced_content_comparison old_content new_content)))
      = true)
  /\ (HashInfo.hash old_hash_info = HashInfo.hash new_hash_info ->
      calculate_change_confidence old_hash_info new_hash_info
        (Some (enhanced_content_comparison old_content new_content))
      = ChangeResult.Make false 0.99 None).
Proof.
  intros H. rewrite (major_length_change _ _ H). simpl.
  split; [reflexivity|]. split; [reflexivity|]. split.
  - apply zero_similarity_changed.
  - apply classify_equal_hash.
Qed.

Lemma major_length_change_forces_changed_witness :
  Comparison.similarity
    (@enhanced_content_comparison Samples.prefix_difflib
       Samples.text10 Samples.text6) = 0.0
  /\ Comparison.major_change
       (@enhanced_content_comparison Samples.prefix_difflib
          Samples.text10 Samples.text6) = true
  /\ (HashInfo.hash Samples.fp_ast <> HashInfo.hash Samples.fp_ast_other ->
      ChangeResult.changed
        (calculate_change_confidence Samples.fp_ast Samples.fp_ast_other
           (Some (@enhanced_content_comparison Samples.prefix_difflib
                    Samples.text10 Samples.text6)))
      = true)
  /\ (HashInfo.hash Samples.fp_ast = HashInfo.hash Samples.fp_ast_other ->
      calculate_change_confidence Samples.fp_ast Samples.fp_ast_other
        (Some (@enhanced_content_comparison Samples.prefix_difflib
                 Samples.text10 Samples.text6))
      = ChangeResult.Make false 0.99 None).
Proof.
  apply (@major_length_change_forces_changed Samples.prefix_difflib
           Samples.text10 Samples.text6 Samples.fp_ast Samples.fp_ast_other).
  vm_compute. lia.
Defined.

(** C3, as the specification words it, fails: the two texts differ in
    length by 40%, the comparison reports similarity 0, and the classifier
    handed that comparison still answers [changed = false], because the two
    fingerprints carry the same hash. *)
Lemma major_length_change_same_hash_unchanged :
  (3 * Py.max (length Samples.text10) (length Samples.text6)
   < 10 * Py.absdiff (length Samples.text10) (length Samples.text6))%nat
  /\ Comparison.similarity
       (@enhanced_content_comparison Samples.prefix_difflib
          Samples.text10 Samples.text6) = 0.0
  /\ ChangeResult.changed
       (calculate_change_confidence Samples.fp_ast Samples.fp_ast
          (Some (@enhanced_content_comparison Samples.prefix_difflib
                   Samples.text10 Samples.text6)))
     = false.
Proof.
  split; [vm_compute; lia|]. split; reflexivity.
Qed.

End ClassifierClaims.

(* ================================================================== *)
(** * The claims about the fingerprint engine                           *)
(* ================================================================== *)

Module FingerprintClaims.
Import Fingerprint.
Local Open Scope Q_scope.

Section Engine.
Context {hashlib : Hashlib} {normalizer : Normalizer}.

Lemma add_chunk_grows (js_content : Py.text) (chunk_size : nat)
    (chunks : list Chunk.t) (i : nat) :
  (length chunks <= length (add_chunk js_content chunk_size chunks i))%nat.
Proof.
  unfold add_chunk. destruct (length _ <? 100)%nat.
  - lia.
  - rewrite length_app. simpl. lia.
Qed.

Lemma fold_add_chunk_grows (js_content : Py.text) (chunk_size : nat)
    (offsets : list nat) (chunks : list Chunk.t) :
  (length chunks
   <= length (fold_left (add_chunk js_content chunk_size) offsets chunks))%nat.
Proof.
  revert chunks. induction offsets as [|i offsets IH]; intros chunks; simpl.
  - lia.
  - specialize (IH (add_chunk js_content chunk_size chunks i)).
    pose proof (add_chunk_grows js_content chunk_size chunks i). lia.
Qed.

Lemma weight_of_chunk_number_positive (n : nat) : 0 < weight_of_chunk_number n.
Proof. destruct n as [|[|n]]; reflexivity. Qed.

Lemma fold_add_chunk_weights (js_content : Py.text) (chunk_size : nat)
    (offsets : list nat) (chunks : list Chunk.t) :
  Forall (fun c => 0 < Chunk.weight c) chunks ->
  Forall (fun c => 0 < Chunk.weight c)
    (fold_left (add_chunk js_content chunk_size) offsets chunks).
Proof.
  revert chunks. induction offsets as [|i offsets IH]; intros chunks H; simpl.
  - exact H.
  - apply IH. unfold add_chunk. destruct (length _ <? 100)%nat; [exact H|].
    apply Forall_app. split; [exact H|]. constructor; [|constructor].
    apply weight_of_chunk_number_positive.
Qed.

(** Every fingerprint of the chunked strategy has positive chunk
    weights. *)
Lemma engine_weights_positive (js_content : Py.text) (chunk_size : nat)
    (h : HashInfo.t) :
  generate_position_aware_hash js_content chunk_size = Some h ->
  Spec.weights_positive h.
Proof.
  unfold generate_position_aware_hash, Spec.weights_positive.
  destruct (length js_content <=? chunk_size)%nat.
  - intros E. inversion E. constructor.
  - destruct (Py.range_step _ _) as [offsets|]; [|discriminate].
    intros E. inversion E. simpl. apply fold_add_chunk_weights. constructor.
Qed.

(** The boundary for any chunk size of at least 100 characters, the
    smallest chunk the loop keeps. *)
Lemma chunk_size_boundary_general (chunk_size : nat) (js_content : Py.text) :
  (100 <= chunk_size)%nat ->
  (length js_content = chunk_size ->
   generate_position_aware_hash js_content chunk_size
   = Some (HashInfo.Make (Some (md5 js_content)) simple_content 0.9
             (Some 1%nat) []))
  /\ (length js_content = (chunk_size + 1)%nat ->
      exists h,
        generate_position_aware_hash js_content chunk_size = Some h
        /\ HashInfo.method h = position_aware_chunked
        /\ HashInfo.confidence h = 0.92
        /\ HashInfo.chunk_details h <> []
        /\ HashInfo.chunks h = Some (length (HashInfo.chunk_details h))).
Proof.
  intros Hcs. split; intros Hlen; unfold generate_position_aware_hash.
  - assert (E : (length js_content <=? chunk_size)%nat = true)
      by (apply Nat.leb_le; lia).
    rewrite E. reflexivity.
  - assert (E : (length js_content <=? chunk_size)%nat = false)
      by (apply Nat.leb_gt; lia).
    rewrite E.
    assert (Hstep : (50 <= chunk_size / 2)%nat)
      by (apply Nat.div_le_lower_bound; lia).
    unfold Py.range_step.
    destruct (chunk_size / 2)%nat as [|p] eqn:Ep; [lia|].
    assert (Hn : (0 < (length js_content + S p - 1) / S p)%nat).
    { apply Nat.div_str_pos. lia. }
    destruct ((length js_content + S p - 1) / S p)%nat as [|n]; [lia|].
    eexists. split; [reflexivity|].
    cbn [HashInfo.method HashInfo.confidence HashInfo.chunk_details
         HashInfo.chunks].
    repeat split.
    cbn [seq map fold_left]. rewrite Nat.mul_0_l.
    intros Hnil.
    pose proof (fold_add_chunk_grows js_content chunk_size
                  (map (fun k => (k * S p)%nat) (seq 1 n))
                  (add_chunk js_content chunk_size [] 0)) as Hg.
    rewrite Hnil in Hg.
    unfold add_chunk, Py.slice in Hg.
    rewrite length_firstn, length_skipn in Hg.
    replace (Nat.min (0 + chunk_size - 0) (length js_content - 0))
      with chunk_size in Hg by lia.
    assert (E100 : (chunk_size <? 100)%nat = false)
      by (apply Nat.ltb_ge; lia).
    rewrite E100 in Hg. rewrite length_app in Hg. simpl in Hg. lia.
Qed.

(** The engine as a whole, on a text of at most 10000 characters that the
    parser rejects, falls back to the chunked strategy and shows the same
    boundary. *)
Lemma engine_boundary_on_parse_failure {esprima : Esprima}
    (js_content : Py.text) :
  ast_json (normalize_javascript_content js_content) = None ->
  (length js_content = chunk_size_default ->
   generate_enhanced_ast_hash js_content
   = Some (HashInfo.Make (Some (md5 js_content)) simple_content 0.9
             (Some 1%nat) []))
  /\ (length js_content = (chunk_size_default + 1)%nat ->
      exists h,
        generate_enhanced_ast_hash js_content = Some h
        /\ HashInfo.method h = position_aware_chunked
        /\ HashInfo.chunk_details h <> []).
Proof.
  intros Hparse. unfold generate_enhanced_ast_hash. rewrite Hparse.
  assert (H100 : (100 <= chunk_size_default)%nat)
    by (apply Nat.leb_le; vm_compute; reflexivity).
  destruct (chunk_size_boundary_general chunk_size_default js_content H100)
    as [Hexact Hlonger].
  split; intros Hlen.
  - assert (E : (10000 <? length js_content)%nat = false)
      by (rewrite Hlen; vm_compute; reflexivity).
    rewrite E. apply Hexact. exact Hlen.
  - assert (E : (10000 <? length js_content)%nat = false)
      by (rewrite Hlen; vm_compute; reflexivity).
    rewrite E. destruct (Hlonger Hlen) as (h & Hh & Hm & _ & Hd & _).
    exists h. auto.
Qed.

(** C4.  The boundary at the chunk-size threshold (2000, the value every
    call uses) is that of the chunking strategy: a text of exactly that
    length is hashed whole, method ['simple_content'], confidence 0.9, and
    a text one character longer is hashed in chunks, method
    ['position_aware_chunked'] with a non-empty ['chunk_details'].  The
    fingerprint engine shows the boundary when the parser rejects the
    text; when the parser accepts a text of at most 10000 characters, the
    engine returns method ['ast'] with confidence 0.95 and no chunk
    details, at either length. *)
Theorem chunk_size_boundary {esprima : Esprima} (js_content : Py.text) :
  (length js_content = chunk_size_default ->
   generate_position_aware_hash js_content chunk_size_default
   = Some (HashInfo.Make (Some (md5 js_content)) simple_content 0.9
             (Some 1%nat) [])
   /\ (ast_json (normalize_javascript_content js_content) = None ->
       generate_enhanced_ast_hash js_content
       = Some (HashInfo.Make (Some (md5 js_content)) simple_content 0.9
                 (Some 1%nat) [])))
  /\ (length js_content = (chunk_size_default + 1)%nat ->
      exists h,
        generate_position_aware_hash js_content chunk_size_default = Some h
        /\ HashInfo.method h = position_aware_chunked
        /\ HashInfo.chunk_details h <> []
        /\ (ast_json (normalize_javascript_content js_content) = None ->
            generate_enhanced_ast_hash js_content = Some h))
  /\ ((length js_content <= 10000)%nat ->
      forall ast_json_text,
        ast_json (normalize_javascript_content js_content)
        = Some ast_json_text ->
        generate_enhanced_ast_hash js_content
        = Some (HashInfo.Make (Some (md5 ast_json_text)) ast 0.95 None [])).
Proof.
  assert (H100 : (100 <= chunk_size_default)%nat)
    by (apply Nat.leb_le; vm_compute; reflexivity).
  destruct (chunk_size_boundary_general chunk_size_default js_content H100)
    as [Hexact Hlonger].
  split; [|split].
  - intros Hlen. split; [exact (Hexact Hlen)|].
    intros Hparse.
    exact (proj1 (engine_boundary_on_parse_failure js_content Hparse) Hlen).
  - intros Hlen. destruct (Hlonger Hlen) as (h & Hh & Hm & _ & Hd & _).
    exists h. split; [exact Hh|]. split; [exact Hm|]. split; [exact Hd|].
    intros Hparse. unfold generate_enhanced_ast_hash. rewrite Hparse.
    assert (E : (10000 <? length js_content)%nat = false)
      by (rewrite Hlen; vm_compute; reflexivity).
    rewrite E. exact Hh.
  - intros Hlen t Hparse. unfold generate_enhanced_ast_hash.
    apply Nat.ltb_ge in Hlen. rewrite Hlen, Hparse. reflexivity.
Qed.

(** Every fingerprint the engine returns has positive chunk weights. *)
Lemma engine_fingerprint_weights_positive {esprima : Esprima}
    (js_content : Py.text) (h : HashInfo.t) :
  generate_enhanced_ast_hash js_content = Some h -> Spec.weights_positive h.
Proof.
  unfold generate_enhanced_ast_hash.
  destruct (10000 <? length js_content)%nat.
  - apply engine_weights_positive.
  - destruct (ast_json _).
    + intros E. inversion E. constructor.
    + apply engine_weights_positive.
Qed.

Lemma add_chunk_first_grows (js_content : Py.text) (chunk_size : nat)
    (offsets : list nat) (chunks : list Chunk.t) :
  (length chunks
   <= length (fold_left (add_chunk_first js_content chunk_size) offsets
                chunks))%nat.
Proof.
  revert chunks. induction offsets as [|i offsets IH]; intros chunks; simpl.
  - lia.
  - specialize (IH (add_chunk_first js_content chunk_size chunks i)).
    assert (length chunks
            <= length (add_chunk_first js_content chunk_size chunks i))%nat.
    { unfold add_chunk_first. destruct (length _ <? 100)%nat; [lia|].
      rewrite length_app. simpl. lia. }
    lia.
Qed.

(** The replaced first definition shows the same boundary at its own
    threshold of 1500 characters. *)
Lemma chunk_size_boundary_first_definition (js_content : Py.text) :
  (length js_content = chunk_size_default_first ->
   generate_position_aware_hash_first js_content chunk_size_default_first
   = Some (HashInfo.Make (Some (md5 js_content)) simple_content 0.9
             (Some 1%nat) []))
  /\ (length js_content = (chunk_size_default_first + 1)%nat ->
      exists h,
        generate_position_aware_hash_first js_content chunk_size_default_first
        = Some h
        /\ HashInfo.method h = position_aware_chunked
        /\ HashInfo.chunk_details h <> []).
Proof.
  unfold generate_position_aware_hash_first. split; intros Hlen.
  - rewrite Hlen, Nat.leb_refl. reflexivity.
  - assert (E : (length js_content <=? chunk_size_default_first)%nat = false)
      by (rewrite Hlen; vm_compute; reflexivity).
    rewrite E.
    change (chunk_size_default_first - chunk_size_default_first / 3)%nat
      with 1000%nat.
    unfold Py.range_step.
    replace ((length js_content + 1000 - 1) / 1000)%nat with 2%nat
      by (rewrite Hlen; vm_compute; reflexivity).
    eexists. split; [reflexivity|]. split; [reflexivity|].
    cbn [HashInfo.chunk_details seq map fold_left]. intros Hnil.
    pose proof (add_chunk_first_grows js_content chunk_size_default_first
                  [(1 * 1000)%nat]
                  (add_chunk_first js_content chunk_size_default_first []
                     (0 * 1000)%nat)) as Hg.
    cbn [fold_left] in Hg. rewrite Hnil in Hg.
    unfold add_chunk_first, Py.slice in Hg.
    rewrite length_firstn, length_skipn, Hlen in Hg.
    change (length []) with 0%nat in Hg.
    replace (Nat.min (0 * 1000 + chunk_size_default_first - 0 * 1000)
               (chunk_size_default_first + 1 - 0 * 1000))%nat
      with 1500%nat in Hg by (vm_compute; reflexivity).
    change (1500 <? 100)%nat with false in Hg.
    cbv iota in Hg. rewrite length_app in Hg. simpl in Hg. lia.
Qed.

End Engine.

Lemma chunk_size_boundary_witness :
  @generate_position_aware_hash Samples.prefix_hashlib
    Samples.identity_normalizer Samples.text2000 chunk_size_default
  = Some (HashInfo.Make (Some (@md5 Samples.prefix_hashlib Samples.text2000))
            simple_content 0.9 (Some 1%nat) [])
  /\ exists h,
       @generate_position_aware_hash Samples.prefix_hashlib
         Samples.identity_normalizer Samples.text2001 chunk_size_default
       = Some h
       /\ HashInfo.method h = position_aware_chunked
       /\ HashInfo.chunk_details h <> [].
Proof.
  split.
  - apply (proj1 (@chunk_size_boundary Samples.prefix_hashlib
                    Samples.identity_normalizer Samples.accepting_esprima
                    Samples.text2000)).
    vm_compute. reflexivity.
  - destruct (proj1 (proj2 (@chunk_size_boundary Samples.prefix_hashlib
                              Samples.identity_normalizer
                              Samples.accepting_esprima Samples.text2001)))
      as (h & Hh & Hm & Hd & _).
    + vm_compute. reflexivity.
    + exists h. auto.
Defined.

(** The engine does not show the boundary on texts the parser accepts: at
    2000 and at 2001 characters it returns the structural fingerprint,
    method ['ast'], confidence 0.95, without chunks. *)
Lemma parsed_text_is_not_chunked_at_boundary :
  length Samples.text2000 = chunk_size_default
  /\ length Samples.text2001 = (chunk_size_default + 1)%nat
  /\ @generate_enhanced_ast_hash Samples.prefix_hashlib
       Samples.identity_normalizer Samples.accepting_esprima Samples.text2000
     = Some (HashInfo.Make
               (Some (@md5 Samples.prefix_hashlib Samples.text2000))
               ast 0.95 None [])
  /\ @generate_enhanced_ast_hash Samples.prefix_hashlib
       Samples.identity_normalizer Samples.accepting_esprima Samples.text2001
     = Some (HashInfo.Make
               (Some (@md5 Samples.prefix_hashlib Samples.text2001))
               ast 0.95 None []).
Proof. repeat split; vm_compute; reflexivity. Qed.

End FingerprintClaims.

(* ================================================================== *)
(** * The claims about the diff renderer                                *)
(* ================================================================== *)

Module DiffFacts.
Import Diff.












(** ** Lines *)





Section Render.
Context {difflib : Difflib} {template : PageTemplate}.








End Render.





(** A change of comment gives no report; a change of statement gives
    one. *)
Example comment_change_no_report :
  @generate_enhanced_html_diff Samples.prefix_difflib Samples.bare_template
    Samples.script_v1 Samples.script_v2 Samples.sample_url
  = Py.Returned None.
Proof. vm_compute. reflexivity. Qed.

Example statement_change_report :
  exists page,
    @generate_enhanced_html_diff Samples.prefix_difflib Samples.bare_template
      Samples.script_v1 Samples.script_v3 Samples.sample_url
    = Py.Returned (Some page).
Proof. eexists. vm_compute. reflexivity. Qed.

End DiffFacts.

(* ================================================================== *)
(** * The claims about the version store                                *)
(* ================================================================== *)

Module StorageFacts.
Import ContentStorage.

(** ** The order on file names *)

Lemma ltb_lt (a b : string) : String.ltb a b = true <-> String_as_OT.lt a b.
Proof.
  rewrite <- String_as_OT.cmp_lt. unfold String.ltb, String_as_OT.cmp.
  destruct (String.compare a b); split; intros H; congruence.
Qed.

Lemma leb_cases (a b : string) :
  String.leb a b = true <-> a = b \/ String.ltb a b = true.
Proof.
  unfold String.leb, String.ltb.
  destruct (String.compare a b) eqn:E; split; intros H; try reflexivity.
  - left. apply String.compare_eq_iff. exact E.
  - right. reflexivity.
  - discriminate.
  - destruct H as [H|H]; [|discriminate].
    subst b. assert (String.compare a a = Eq)
      by (apply String_as_OT.cmp_eq; reflexivity). congruence.
Qed.

Lemma ltb_trans (a b c : string) :
  String.ltb a b = true -> String.ltb b c = true -> String.ltb a c = true.
Proof.
  rewrite !ltb_lt. apply String_as_OT.lt_trans.
Qed.

Lemma ltb_irrefl (a : string) : String.ltb a a = false.
Proof.
  destruct (String.ltb a a) eqn:E; [|reflexivity].
  apply ltb_lt in E. exfalso. apply (String_as_OT.lt_not_eq _ _ E).
  reflexivity.
Qed.

Lemma ltb_leb (a b : string) : String.ltb a b = true -> String.leb a b = true.
Proof. intros H. apply leb_cases. right. exact H. Qed.

(** Two names whose time stamps have one width compare as their time
    stamps do. *)
Lemma compare_append (t1 t2 s1 s2 : string) :
  String.length t1 = String.length t2 ->
  String.compare t1 t2 <> Eq ->
  String.compare (t1 ++ s1) (t2 ++ s2) = String.compare t1 t2.
Proof.
  revert t2. induction t1 as [|c1 t1 IH]; intros [|c2 t2] Hlen Hne;
    simpl in *; try discriminate; try congruence.
  destruct (Ascii.compare c1 c2); try reflexivity.
  apply IH; [lia | exact Hne].
Qed.

Lemma filename_ltb (t1 t2 h1 h2 : string) :
  String.length t1 = String.length t2 ->
  String.ltb t1 t2 = true ->
  String.ltb (filename_of t1 h1) (filename_of t2 h2) = true.
Proof.
  unfold filename_of, String.ltb. intros Hlen Hlt.
  rewrite compare_append; [exact Hlt | exact Hlen |].
  destruct (String.compare t1 t2); discriminate.
Qed.

(** ** [sorted(names, reverse=True)] *)

Lemma insert_desc_perm (x : string) (l : list string) :
  Permutation (insert_desc x l) (x :: l).
Proof.
  induction l as [|y l IH]; simpl; [reflexivity|].
  destruct (String.leb y x); [reflexivity|].
  rewrite IH. apply perm_swap.
Qed.

Lemma sorted_reverse_perm (l : list string) : Permutation (sorted_reverse l) l.
Proof.
  induction l as [|x l IH]; simpl; [reflexivity|].
  rewrite insert_desc_perm. apply perm_skip. exact IH.
Qed.

(** A list that already descends is left as it is. *)
Lemma sorted_reverse_descending (l : list string) :
  Spec.descending l -> sorted_reverse l = l.
Proof.
  induction 1 as [|x l Hl IH Hx]; simpl; [reflexivity|].
  rewrite IH. destruct l as [|y l']; [reflexivity|]. simpl.
  inversion Hx as [|? ? Hy _]; subst.
  rewrite (ltb_leb _ _ Hy). reflexivity.
Qed.

(** ** Any listing order *)

Lemma leb_total (a b : string) :
  String.leb a b = false -> String.leb b a = true.
Proof.
  unfold String.leb. rewrite (String.compare_antisym b a).
  destruct (String.compare a b); simpl; congruence.
Qed.

Lemma leb_trans (a b c : string) :
  String.leb a b = true -> String.leb b c = true -> String.leb a c = true.
Proof.
  rewrite !leb_cases. intros [->|H1] [->|H2]; auto.
  right. exact (ltb_trans _ _ _ H1 H2).
Qed.

Lemma ltb_not_leb (a b : string) :
  String.ltb a b = true -> String.leb b a = true -> False.
Proof.
  intros H1 H2. apply leb_cases in H2. destruct H2 as [->|H2].
  - rewrite ltb_irrefl in H1. discriminate.
  - pose proof (ltb_trans _ _ _ H1 H2) as H.
    rewrite ltb_irrefl in H. discriminate.
Qed.

Lemma insert_desc_sorted (x : string) (l : list string) :
  StronglySorted (fun a b => String.leb b a = true) l ->
  StronglySorted (fun a b => String.leb b a = true) (insert_desc x l).
Proof.
  induction 1 as [|y l Hl IH Hy]; simpl.
  - repeat constructor.
  - destruct (String.leb y x) eqn:E.
    + constructor; [constructor; assumption|].
      constructor; [exact E|].
      eapply Forall_impl; [|exact Hy].
      intros z Hz. exact (leb_trans _ _ _ Hz E).
    + constructor; [exact IH|].
      apply (Permutation_Forall (Permutation_sym (insert_desc_perm x l))).
      constructor; [apply leb_total; exact E | exact Hy].
Qed.

Lemma sorted_reverse_sorted (l : list string) :
  StronglySorted (fun a b => String.leb b a = true) (sorted_reverse l).
Proof.
  induction l as [|x l IH]; simpl; [constructor|].
  apply insert_desc_sorted. exact IH.
Qed.

(** There is one descending list of given names. *)
Lemma descending_unique (s l : list string) :
  StronglySorted (fun a b => String.leb b a = true) s ->
  Spec.descending l -> Permutation s l -> s = l.
Proof.
  intros Hs. revert l.
  induction Hs as [|a s Hs IH Ha]; intros l Hl Hp.
  - apply Permutation_nil in Hp. symmetry. exact Hp.
  - inversion Hl as [|b l' Hl' Hb]; subst.
    + apply Permutation_sym, Permutation_nil in Hp. discriminate.
    + assert (E : a = b).
      { destruct (string_dec a b) as [E|N]; [exact E|]. exfalso.
        assert (Hal : In a l').
        { destruct (Permutation_in a Hp (or_introl eq_refl)) as [E|H];
            [congruence | exact H]. }
        assert (Hbs : In b s).
        { destruct (Permutation_in b (Permutation_sym Hp) (or_introl eq_refl))
            as [E|H]; [congruence | exact H]. }
        rewrite Forall_forall in Ha, Hb.
        exact (ltb_not_leb a b (Hb a Hal) (Ha b Hbs)). }
      subst b. f_equal. apply IH; [exact Hl'|].
      exact (Permutation_cons_inv Hp).
Qed.

(** In whatever order the names were listed, sorting gives their one
    descending list. *)
Lemma sorted_reverse_any_order (l names : list string) :
  Permutation l names -> Spec.descending names -> sorted_reverse l = names.
Proof.
  intros Hp Hd. apply descending_unique.
  - apply sorted_reverse_sorted.
  - exact Hd.
  - rewrite sorted_reverse_perm. exact Hp.
Qed.

(** A file of a directory without two entries of one name is read by its
    name. *)
Lemma read_file_In (f : file) (d : directory) :
  NoDup (listdir d) -> In f d -> read_file (fst f) d = Some (snd f).
Proof.
  unfold read_file, listdir.
  induction d as [|g d IH]; simpl; intros Hn Hi; [contradiction|].
  inversion Hn as [|? ? Hg Hn']; subst. destruct Hi as [->|Hi].
  - rewrite String.eqb_refl. reflexivity.
  - destruct (String.eqb (fst g) (fst f)) eqn:E.
    + apply String.eqb_eq in E. exfalso. apply Hg. rewrite E.
      apply in_map. exact Hi.
    + apply IH; assumption.
Qed.

(** The names a directory lists when it holds the snapshots of a
    history. *)
Lemma holds_names (d : directory) (history : list Spec.snapshot) :
  Permutation d (map Spec.snapshot_file history) ->
  Permutation (listdir d) (map Spec.snapshot_name history).
Proof.
  intros Hp. unfold listdir.
  rewrite (Permutation_map fst Hp), map_map. reflexivity.
Qed.

(** ** The deletion loop *)

Lemma remove_file_filter (name : string) (names : list string) (d : directory) :
  filter (Spec.not_among names) (remove_file name d)
  = filter (Spec.not_among (name :: names)) d.
Proof.
  unfold remove_file, Spec.not_among. induction d as [|f d IH]; simpl; [reflexivity|].
  destruct (String.eqb (fst f) name); simpl.
  - exact IH.
  - destruct (existsb (String.eqb (fst f)) names); simpl; [exact IH|].
    rewrite IH. reflexivity.
Qed.

(** The loop counts the names whose removal succeeds and removes exactly
    those; a name whose removal fails changes nothing. *)
Lemma remove_steps (removable : string -> bool) (names : list string)
    (deleted_count : nat) (d : directory) :
  fold_left (remove_step removable) names (deleted_count, d)
  = (deleted_count + length (filter removable names),
     filter (Spec.not_among (filter removable names)) d).
Proof.
  revert deleted_count d.
  induction names as [|n names IH]; intros deleted_count d; simpl.
  - rewrite Nat.add_0_r. f_equal. unfold Spec.not_among. simpl.
    induction d as [|f d IHd]; simpl; [reflexivity|]. rewrite <- IHd.
    reflexivity.
  - destruct (removable n); simpl.
    + rewrite IH, remove_file_filter. f_equal. lia.
    + apply IH.
Qed.

Lemma listdir_filter (names : list string) (d : directory) :
  listdir (filter (Spec.not_among names) d)
  = filter (fun n => negb (existsb (String.eqb n) names)) (listdir d).
Proof.
  unfold listdir, Spec.not_among. induction d as [|f d IH]; simpl; [reflexivity|].
  destruct (existsb (String.eqb (fst f)) names); simpl; [exact IH|].
  rewrite IH. reflexivity.
Qed.

Lemma existsb_eqb_In (n : string) (names : list string) :
  existsb (String.eqb n) names = true <-> In n names.
Proof.
  rewrite existsb_exists. split.
  - intros [x [Hx E]]. apply String.eqb_eq in E. subst. exact Hx.
  - intros H. exists n. split; [exact H | apply String.eqb_refl].
Qed.

(** What [clean_old_versions] does to a directory that holds more than
    [versions_to_keep] files. *)
Lemma clean_old_versions_directory (st : storage) (url_id : nat)
    (d : directory) (versions_to_keep : nat) (removable : string -> bool) :
  st url_id = Some d ->
  versions_to_keep < length d ->
  clean_old_versions st url_id versions_to_keep removable
  = (length (filter removable
               (skipn versions_to_keep (sorted_reverse (listdir d)))),
     set_dir st url_id
       (filter (Spec.not_among
                  (filter removable
                     (skipn versions_to_keep (sorted_reverse (listdir d)))))
          d)).
Proof.
  intros Hd Hlen. unfold clean_old_versions. rewrite Hd.
  assert (El : length (sorted_reverse (listdir d)) = length d).
  { rewrite (Permutation_length (sorted_reverse_perm (listdir d))).
    unfold listdir. apply length_map. }
  rewrite El. apply Nat.ltb_lt in Hlen. rewrite Hlen.
  rewrite remove_steps. reflexivity.
Qed.

(** ** Storing *)

Lemma remove_file_absent (name : string) (d : directory) :
  ~ In name (listdir d) -> remove_file name d = d.
Proof.
  unfold remove_file, listdir. induction d as [|f d IH]; simpl; intros H.
  - reflexivity.
  - destruct (String.eqb (fst f) name) eqn:E.
    + apply String.eqb_eq in E. exfalso. apply H. left. exact E.
    + simpl. rewrite IH; [reflexivity|]. intros Hin. apply H. right. exact Hin.
Qed.

Lemma descending_head_absent (x : string) (l : list string) :
  Spec.descending (x :: l) -> ~ In x l.
Proof.
  intros H Hin. apply StronglySorted_inv in H. destruct H as [_ Hx].
  rewrite Forall_forall in Hx. specialize (Hx x Hin).
  rewrite ltb_irrefl in Hx. discriminate.
Qed.

Lemma descending_NoDup (l : list string) : Spec.descending l -> NoDup l.
Proof.
  induction l as [|x l IH]; intros H; constructor.
  - apply descending_head_absent. exact H.
  - apply IH. apply StronglySorted_inv in H. tauto.
Qed.

Lemma descending_app_r (a b : list string) : Spec.descending (a ++ b) -> Spec.descending b.
Proof.
  induction a as [|x a IH]; simpl; intros H; [exact H|].
  apply IH. apply StronglySorted_inv in H. tauto.
Qed.

Lemma descending_snoc (l : list string) (n : string) :
  Spec.descending l -> Forall (fun y => String.ltb n y = true) l ->
  Spec.descending (l ++ [n]).
Proof.
  induction 1 as [|x l Hl IH Hx]; intros Hn; simpl.
  - constructor; constructor.
  - inversion Hn as [|? ? Hnx Hnl]; subst. constructor.
    + apply IH. exact Hnl.
    + apply Forall_app. split; [exact Hx|]. constructor; [exact Hnx|constructor].
Qed.

(** Snapshots stored at ascending time stamps get Spec.descending names when
    read from the newest back. *)
Lemma ascending_names_descending (history : list Spec.snapshot) :
  Spec.timestamps_ascending history ->
  Spec.descending (rev (map Spec.snapshot_name history)).
Proof.
  induction 1 as [|s history Hh IH Hs]; simpl.
  - constructor.
  - apply descending_snoc; [exact IH|].
    apply Forall_forall. intros y Hy.
    apply in_rev in Hy. apply in_map_iff in Hy. destruct Hy as (s' & <- & Hin).
    rewrite Forall_forall in Hs. destruct (Hs s' Hin) as [Hlen Hlt].
    apply filename_ltb; assumption.
Qed.

Lemma store_content_names (st : storage) (url_id : nat) (s : Spec.snapshot) :
  ~ In (Spec.snapshot_name s) (Spec.names_of st url_id) ->
  Spec.names_of (snd (store_content st url_id (fst (fst s)) (snd s) (snd (fst s))))
    url_id
  = Spec.snapshot_name s :: Spec.names_of st url_id.
Proof.
  unfold Spec.names_of, store_content, set_dir, write_file. simpl.
  rewrite Nat.eqb_refl. intros H. simpl. f_equal.
  destruct (st url_id) as [d|]; [|reflexivity].
  rewrite remove_file_absent; [reflexivity | exact H].
Qed.

(** The directory after a run of stores lists the new names, newest
    first, before the names it held. *)
Lemma store_all_names (history : list Spec.snapshot) (st : storage)
    (url_id : nat) :
  Spec.descending (rev (map Spec.snapshot_name history) ++ Spec.names_of st url_id) ->
  Spec.names_of (Spec.store_all st url_id history) url_id
  = rev (map Spec.snapshot_name history) ++ Spec.names_of st url_id.
Proof.
  revert st. induction history as [|s history IH]; intros st H.
  - reflexivity.
  - simpl in H. rewrite <- app_assoc in H. simpl in H.
    assert (Hfresh : ~ In (Spec.snapshot_name s) (Spec.names_of st url_id)).
    { apply descending_head_absent. apply (descending_app_r _ _ H). }
    pose proof (store_content_names st url_id s Hfresh) as Hst1.
    change (Spec.store_all st url_id (s :: history))
      with (Spec.store_all
              (snd (store_content st url_id (fst (fst s)) (snd s)
                      (snd (fst s)))) url_id history).
    rewrite IH; rewrite Hst1; [|exact H].
    simpl. rewrite <- app_assoc. reflexivity.
Qed.

Lemma store_all_exists (history : list Spec.snapshot) (st : storage)
    (url_id : nat) :
  history <> [] \/ st url_id <> None ->
  exists d, Spec.store_all st url_id history url_id = Some d.
Proof.
  revert st. induction history as [|s history IH]; intros st H.
  - destruct H as [H|H]; [congruence|]. simpl.
    destruct (st url_id) as [d|]; [eauto | congruence].
  - unfold Spec.store_all in *. simpl. apply IH. right.
    unfold store_content, set_dir. simpl. rewrite Nat.eqb_refl. discriminate.
Qed.

Lemma names_of_files (st : storage) (url_id : nat) :
  Spec.names_of st url_id = listdir (Shape.files_of st url_id).
Proof.
  unfold Spec.names_of, Shape.files_of. destruct (st url_id); reflexivity.
Qed.

Lemma store_content_files (st : storage) (url_id : nat) (s : Spec.snapshot) :
  ~ In (Spec.snapshot_name s) (Spec.names_of st url_id) ->
  Shape.files_of
    (snd (store_content st url_id (fst (fst s)) (snd s) (snd (fst s)))) url_id
  = Shape.file_of s :: Shape.files_of st url_id.
Proof.
  unfold Spec.names_of, Shape.files_of, store_content, set_dir, write_file.
  cbn [snd]. rewrite Nat.eqb_refl. intros H. unfold Shape.file_of.
  destruct (st url_id) as [d|]; [|reflexivity].
  rewrite remove_file_absent by exact H. reflexivity.
Qed.

Lemma store_all_files (history : list Spec.snapshot) (st : storage)
    (url_id : nat) :
  Spec.descending
    (rev (map Spec.snapshot_name history) ++ Spec.names_of st url_id) ->
  Shape.files_of (Spec.store_all st url_id history) url_id
  = rev (map Shape.file_of history) ++ Shape.files_of st url_id.
Proof.
  revert st. induction history as [|s history IH]; intros st H.
  - reflexivity.
  - cbn [map rev] in H. rewrite <- app_assoc in H. cbn [app] in H.
    assert (Hfresh : ~ In (Spec.snapshot_name s) (Spec.names_of st url_id)).
    { apply descending_head_absent. apply (descending_app_r _ _ H). }
    change (Spec.store_all st url_id (s :: history))
      with (Spec.store_all
              (snd (store_content st url_id (fst (fst s)) (snd s)
                      (snd (fst s)))) url_id history).
    rewrite IH.
    + rewrite (store_content_files st url_id s Hfresh).
      cbn [map rev]. rewrite <- app_assoc. reflexivity.
    + rewrite (store_content_names st url_id s Hfresh). exact H.
Qed.

(** The directory after the snapshots were stored one after the other
    holds them. *)
Lemma store_all_holds (history : list Spec.snapshot) (url_id : nat) :
  history <> [] ->
  Spec.timestamps_ascending history ->
  Spec.holds (Spec.store_all empty url_id history) url_id history.
Proof.
  intros Hne Hasc.
  destruct (store_all_exists history empty url_id (or_introl Hne)) as [d Hd].
  exists d. split; [exact Hd|].
  pose proof (store_all_files history empty url_id) as Hf.
  change (Spec.names_of empty url_id) with (@nil string) in Hf.
  change (Shape.files_of empty url_id) with (@nil file) in Hf.
  rewrite !app_nil_r in Hf.
  specialize (Hf (ascending_names_descending _ Hasc)).
  unfold Shape.files_of in Hf. rewrite Hd in Hf. subst d.
  apply Permutation_sym, Permutation_rev.
Qed.

Lemma unordered_store_holds :
  Spec.holds Samples.unordered_store 1 Samples.history7.
Proof.
  exists Samples.listed7. split; [reflexivity|].
  unfold Samples.listed7. apply Permutation_map.
  change Samples.history7
    with (firstn 3 Samples.history7 ++ skipn 3 Samples.history7) at 3.
  apply Permutation_app_comm.
Qed.

End StorageFacts.

Module StorageClaims.
Import ContentStorage StorageFacts.

(** C7.  After N+k snapshots (k > 0) were stored for a source at ascending
    time stamps, its directory holds them; and whenever the directory
    holds them, in whatever order it lists them, pruning with keep = N
    goes through the k oldest snapshots and through no other.  It removes
    each of them whose deletion succeeds, whatever happens to the others,
    and reports how many it removed; the N most recently stored snapshots
    remain.  When every deletion succeeds the report is k and exactly the
    N newest snapshots are left. *)
Theorem prune_keeps_most_recent (history : list Spec.snapshot)
    (url_id N k : nat) (removable : string -> bool) :
  Spec.timestamps_ascending history ->
  length history = N + k ->
  0 < k ->
  Spec.holds (Spec.store_all empty url_id history) url_id history
  /\ forall st : storage,
       Spec.holds st url_id history ->
       exists d',
         clean_old_versions st url_id N removable
         = (length (filter removable
                      (map Spec.snapshot_name (firstn k history))),
            set_dir st url_id d')
         /\ (forall name,
               In name (listdir d') <->
               In name (map Spec.snapshot_name (skipn k history))
               \/ (In name (map Spec.snapshot_name (firstn k history))
                   /\ removable name = false))
         /\ (forall name,
               In name (map Spec.snapshot_name (firstn k history)) ->
               removable name = true -> ~ In name (listdir d'))
         /\ length (map Spec.snapshot_name (skipn k history)) = N
         /\ ((forall name, removable name = true) ->
             length (filter removable
                       (map Spec.snapshot_name (firstn k history)))
             = k
             /\ forall name,
                  In name (listdir d') <->
                  In name (map Spec.snapshot_name (skipn k history))).
Proof.
  intros Hasc Hlen Hk. split.
  { apply store_all_holds; [|exact Hasc].
    intros E. subst history. simpl in Hlen. lia. }
  intros st [d [Hd Hp]].
  set (names := map Spec.snapshot_name history).
  set (oldest := map Spec.snapshot_name (firstn k history)).
  set (newest := map Spec.snapshot_name (skipn k history)).
  pose proof (ascending_names_descending history Hasc) as Hdesc.
  fold names in Hdesc.
  assert (Hsplit : names = oldest ++ newest).
  { unfold names, oldest, newest.
    rewrite <- map_app, firstn_skipn. reflexivity. }
  assert (Hnodup : NoDup names).
  { rewrite <- (rev_involutive names). apply NoDup_rev.
    apply descending_NoDup. exact Hdesc. }
  assert (Hdisj : forall name, In name oldest -> ~ In name newest).
  { intros name Ho Hn. rewrite Hsplit in Hnodup.
    apply NoDup_app_remove_l in Hnodup as Hnd.
    clear Hnd. revert Ho Hn Hnodup. clear.
    induction oldest as [|x o IH]; simpl; intros Ho Hn Hnd; [contradiction|].
    inversion Hnd as [|? ? Hx Hnd']; subst. destruct Ho as [->|Ho].
    - apply Hx. apply in_or_app. right. exact Hn.
    - apply (IH Ho Hn Hnd'). }
  pose proof (holds_names _ _ Hp) as Hlisted. fold names in Hlisted.
  assert (Hmem : forall name, In name (listdir d) <-> In name names).
  { intros name. split; intros H.
    - exact (Permutation_in _ Hlisted H).
    - exact (Permutation_in _ (Permutation_sym Hlisted) H). }
  assert (Hsorted : sorted_reverse (listdir d) = rev names).
  { apply sorted_reverse_any_order; [|exact Hdesc].
    exact (Permutation_trans Hlisted (Permutation_rev _)). }
  assert (Hd_len : length d = N + k).
  { rewrite <- Hlen. transitivity (length (listdir d)).
    - unfold listdir. symmetry. apply length_map.
    - rewrite (Permutation_length Hlisted). unfold names. apply length_map. }
  rewrite (clean_old_versions_directory _ _ d N removable Hd)
    by (rewrite Hd_len; lia).
  rewrite Hsorted, skipn_rev.
  replace (length names - N) with k
    by (unfold names; rewrite length_map; lia).
  replace (firstn k names) with oldest
    by (unfold names, oldest; rewrite firstn_map; reflexivity).
  rewrite filter_rev, length_rev.
  eexists. split; [reflexivity|].
  assert (Hin : forall name,
            In name (listdir (filter (Spec.not_among (rev (filter removable oldest))) d))
            <-> In name newest \/ (In name oldest /\ removable name = false)).
  { intros name. rewrite listdir_filter, filter_In, Hmem.
    rewrite negb_true_iff.
    rewrite Hsplit, in_app_iff. split.
    - intros [[Ho|Hn] Hex]; [|left; exact Hn]. right. split; [exact Ho|].
      destruct (removable name) eqn:Er; [|reflexivity].
      assert (existsb (String.eqb name) (rev (filter removable oldest)) = true).
      { apply existsb_eqb_In. apply -> in_rev. apply filter_In. tauto. }
      congruence.
    - intros [Hn|[Ho Hr]].
      + split; [right; exact Hn|].
        destruct (existsb _ _) eqn:Ex; [|reflexivity].
        apply existsb_eqb_In in Ex. apply in_rev in Ex. apply filter_In in Ex.
        exfalso. apply (Hdisj name); tauto.
      + split; [left; exact Ho|].
        destruct (existsb _ _) eqn:Ex; [|reflexivity].
        apply existsb_eqb_In in Ex. apply in_rev in Ex. apply filter_In in Ex.
        destruct Ex. congruence. }
  split; [exact Hin|]. split.
  - intros name Ho Hr Hd'. apply Hin in Hd'. destruct Hd' as [Hn|[_ Hf]].
    + apply (Hdisj name Ho Hn).
    + congruence.
  - split.
    + unfold newest. rewrite length_map, length_skipn. lia.
    + intros Hall. split.
      * assert (E : filter removable oldest = oldest).
        { clear - Hall. induction oldest as [|x o IH]; simpl; [reflexivity|].
          rewrite Hall, IH. reflexivity. }
        rewrite E. unfold oldest. rewrite length_map, length_firstn. lia.
      * intros name. rewrite Hin. split; [|tauto].
        intros [Hn|[_ Hf]]; [exact Hn|]. rewrite Hall in Hf. discriminate.
Qed.

Lemma prune_keeps_most_recent_witness :
  exists d',
    clean_old_versions Samples.unordered_store 1 5 Samples.oldest_locked
    = (length (filter Samples.oldest_locked
                 (map Spec.snapshot_name (firstn 2 Samples.history7))),
       set_dir Samples.unordered_store 1 d')
    /\ (forall name,
          In name (listdir d') <->
          In name (map Spec.snapshot_name (skipn 2 Samples.history7))
          \/ (In name (map Spec.snapshot_name (firstn 2 Samples.history7))
              /\ Samples.oldest_locked name = false))
    /\ (forall name,
          In name (map Spec.snapshot_name (firstn 2 Samples.history7)) ->
          Samples.oldest_locked name = true -> ~ In name (listdir d'))
    /\ length (map Spec.snapshot_name (skipn 2 Samples.history7)) = 5
    /\ ((forall name, Samples.oldest_locked name = true) ->
        length (filter Samples.oldest_locked
                  (map Spec.snapshot_name (firstn 2 Samples.history7)))
        = 2
        /\ forall name,
             In name (listdir d') <->
             In name (map Spec.snapshot_name (skipn 2 Samples.history7))).
Proof.
  refine (proj2 (prune_keeps_most_recent Samples.history7 1 5 2
                   Samples.oldest_locked _ _ _)
            Samples.unordered_store unordered_store_holds).
  - unfold Spec.timestamps_ascending, Samples.history7.
    repeat constructor.
  - reflexivity.
  - lia.
Defined.

(** Seven snapshots listed out of order, keep five: two deletions, the
    five newest remain, in the order the directory had them. *)
Example prune_unordered_directory :
  fst (clean_old_versions Samples.unordered_store 1 5 (fun _ => true)) = 2
  /\ Spec.names_of
       (snd (clean_old_versions Samples.unordered_store 1 5
               (fun _ => true))) 1
     = [ "20260103000000000000_h4.js.gz"; "20260104000000000000_h5.js.gz";
         "20260105000000000000_h6.js.gz"; "20260106000000000000_h7.js.gz";
         "20260102000000000000_h3.js.gz" ]%string.
Proof. split; vm_compute; reflexivity. Qed.

(** Seven snapshots, keep five: two deletions, the five newest remain. *)
Example prune_seven_keep_five :
  fst (clean_old_versions (Spec.store_all empty 1 Samples.history7) 1 5
         (fun _ => true)) = 2
  /\ Spec.names_of
       (snd (clean_old_versions (Spec.store_all empty 1 Samples.history7) 1 5
               (fun _ => true))) 1
     = [ "20260106000000000000_h7.js.gz"; "20260105000000000000_h6.js.gz";
         "20260104000000000000_h5.js.gz"; "20260103000000000000_h4.js.gz";
         "20260102000000000000_h3.js.gz" ]%string.
Proof. split; vm_compute; reflexivity. Qed.

(** The oldest snapshot cannot be deleted: the second oldest still goes,
    and one deletion is reported. *)
Example prune_with_locked_file :
  fst (clean_old_versions (Spec.store_all empty 1 Samples.history7) 1 5
         Samples.oldest_locked) = 1
  /\ Spec.names_of
       (snd (clean_old_versions (Spec.store_all empty 1 Samples.history7) 1 5
               Samples.oldest_locked)) 1
     = [ "20260106000000000000_h7.js.gz"; "20260105000000000000_h6.js.gz";
         "20260104000000000000_h5.js.gz"; "20260103000000000000_h4.js.gz";
         "20260102000000000000_h3.js.gz"; "20260101000000000001_h1.js.gz" ]%string.
Proof. split; vm_compute; reflexivity. Qed.

End StorageClaims.

(* ================================================================== *)
(** * The claims about the monitoring cycle                             *)
(* ================================================================== *)

Module MonitorClaims.
Import Monitor.
Local Open Scope Q_scope.

Section Cycle.
Context {hashlib : Hashlib} {normalizer : Normalizer} {esprima : Esprima}
        {difflib : Difflib} {template : PageTemplate} {world : World}.

(** With the chunk size every call uses, the fingerprint engine always
    returns. *)
Lemma generate_position_aware_hash_returns (js_content : Py.text) :
  exists h,
    Fingerprint.generate_position_aware_hash js_content
      Fingerprint.chunk_size_default = Some h.
Proof.
  unfold Fingerprint.generate_position_aware_hash.
  destruct (length js_content <=? Fingerprint.chunk_size_default)%nat;
    [eauto|].
  change (Fingerprint.chunk_size_default / 2)%nat with 1000%nat.
  unfold Py.range_step. eauto.
Qed.

Lemma generate_enhanced_ast_hash_returns (js_content : Py.text) :
  exists h, Fingerprint.generate_enhanced_ast_hash js_content = Some h.
Proof.
  unfold Fingerprint.generate_enhanced_ast_hash.
  destruct (10000 <? length js_content)%nat.
  - apply generate_position_aware_hash_returns.
  - destruct (ast_json _); [eauto|].
    apply generate_position_aware_hash_returns.
Qed.

(** With nothing stored for the source, the previous hash info is the
    legacy record without a hash. *)
Lemma previous_hash_info_first_check (monitored_url : MonitoredUrl) :
  last_hash monitored_url = None ->
  last_hash_info monitored_url = None ->
  HashInfo.hash (previous_hash_info monitored_url) = None.
Proof.
  intros Hh Hi. unfold previous_hash_info. rewrite Hi.
  destruct (has_last_hash_info monitored_url); simpl; exact Hh.
Qed.

(** C5.  In the first-ever check of a source (no hash and no hash info
    stored) the cycle never reports [changed = true]; whenever the download
    delivers a text, the cycle succeeds with [changed = false] and the
    message of a completed first check, the confidence is the one of the
    new fingerprint, and the row afterwards carries the new hash. *)
Theorem first_check_reports_unchanged (monitored_url : MonitoredUrl)
    (st : ContentStorage.storage) :
  last_hash monitored_url = None ->
  last_hash_info monitored_url = None ->
  changed (fst (fst (fst (monitor_single_url monitored_url st)))) <> Some true
  /\ (forall downloaded,
        download_javascript (url monitored_url) = Fetched downloaded ->
        exists current_hash_info obfuscation,
          monitor_single_url monitored_url st
          = (Result true (FirstCheckCompleted obfuscation) (Some false)
               (Some (HashInfo.confidence current_hash_info))
               (Some (HashInfo.method current_hash_info)),
             updated monitored_url current_hash_info,
             snd (ContentStorage.store_content st (id monitored_url)
                    utcnow_timestamp
                    (beautify_javascript
                       (if Py.lt 0.3 (get_obfuscation_score downloaded)
                        then deobfuscate downloaded else downloaded))
                    (hash_text (HashInfo.hash current_hash_info))),
             [])).
Proof.
  intros Hh Hi.
  pose proof (previous_hash_info_first_check monitored_url Hh Hi) as Hprev.
  assert (Hcycle : forall downloaded,
    download_javascript (url monitored_url) = Fetched downloaded ->
    exists current_hash_info obfuscation,
      monitor_single_url monitored_url st
      = (Result true (FirstCheckCompleted obfuscation) (Some false)
           (Some (HashInfo.confidence current_hash_info))
           (Some (HashInfo.method current_hash_info)),
         updated monitored_url current_hash_info,
         snd (ContentStorage.store_content st (id monitored_url)
                utcnow_timestamp
                (beautify_javascript
                   (if Py.lt 0.3 (get_obfuscation_score downloaded)
                    then deobfuscate downloaded else downloaded))
                (hash_text (HashInfo.hash current_hash_info))),
         [])).
  { intros downloaded Hd. unfold monitor_single_url. rewrite Hd.
    destruct (generate_enhanced_ast_hash_returns
                (beautify_javascript
                   (if Py.lt 0.3 (get_obfuscation_score downloaded)
                    then deobfuscate downloaded else downloaded)))
      as [current Hc].
    rewrite Hc, Hprev. cbn [hash_truthy].
    unfold record_change. rewrite Hprev. cbn [hash_truthy].
    unfold ContentStorage.store_content.
    exists current. eexists. reflexivity. }
  split; [|exact Hcycle].
  destruct (download_javascript (url monitored_url)) as [downloaded| |] eqn:Hd.
  - destruct (Hcycle downloaded eq_refl) as (c & o & ->). simpl. discriminate.
  - unfold monitor_single_url. rewrite Hd. simpl. discriminate.
  - unfold monitor_single_url. rewrite Hd. simpl. discriminate.
Qed.

End Cycle.

Lemma first_check_reports_unchanged_witness :
  changed
    (fst (fst (fst
       (@monitor_single_url Samples.prefix_hashlib Samples.identity_normalizer
          Samples.accepting_esprima Samples.prefix_difflib
          Samples.bare_template Samples.quiet_world
          Samples.fresh_url ContentStorage.empty))))
  <> Some true
  /\ (forall downloaded,
        @download_javascript Samples.quiet_world
          (url Samples.fresh_url) = Fetched downloaded ->
        exists current_hash_info obfuscation,
          @monitor_single_url Samples.prefix_hashlib Samples.identity_normalizer
            Samples.accepting_esprima Samples.prefix_difflib
            Samples.bare_template Samples.quiet_world
            Samples.fresh_url ContentStorage.empty
          = (Result true (FirstCheckCompleted obfuscation) (Some false)
               (Some (HashInfo.confidence current_hash_info))
               (Some (HashInfo.method current_hash_info)),
             @updated Samples.quiet_world Samples.fresh_url current_hash_info,
             snd (ContentStorage.store_content ContentStorage.empty
                    (id Samples.fresh_url)
                    (@utcnow_timestamp Samples.quiet_world)
                    (@beautify_javascript Samples.quiet_world
                       (if Py.lt 0.3
                             (@get_obfuscation_score Samples.quiet_world
                                downloaded)
                        then @deobfuscate Samples.quiet_world downloaded
                        else downloaded))
                    (hash_text (HashInfo.hash current_hash_info))),
             [])).
Proof.
  apply (@first_check_reports_unchanged Samples.prefix_hashlib
           Samples.identity_normalizer Samples.accepting_esprima
           Samples.prefix_difflib Samples.bare_template Samples.quiet_world
           Samples.fresh_url ContentStorage.empty).
  - reflexivity.
  - reflexivity.
Defined.

(** The first check of [fresh_url] in the quiet world. *)
Example first_check_of_fresh_url :
  fst (fst (fst
    (@monitor_single_url Samples.prefix_hashlib Samples.identity_normalizer
       Samples.accepting_esprima Samples.prefix_difflib
       Samples.bare_template Samples.quiet_world
       Samples.fresh_url ContentStorage.empty)))
  = Result true (FirstCheckCompleted None) (Some false) (Some 0.95)
      (Some ast).
Proof. vm_compute. reflexivity. Qed.

End MonitorClaims.

(* ================================================================== *)
(** * The claim about the escalation to the similarity pass             *)
(* ================================================================== *)

Module EscalationClaims.
Import Classifier ClassifierFacts VerdictFacts.
Local Open Scope Q_scope.

(** When the chunk verdict is not a change of confidence 0.85 or more, a
    supplied comparison decides the answer: similarity 0 and similarity 1
    give different verdicts. *)
Lemma low_chunk_verdict_uses_similarity
    (old_hash_info new_hash_info : HashInfo.t) (v : ChangeResult.t) :
  HashInfo.hash old_hash_info <> HashInfo.hash new_hash_info ->
  compare_chunk_hashes old_hash_info new_hash_info = Some v ->
  ChangeResult.changed v && Py.le 0.85 (ChangeResult.confidence v) = false ->
  ChangeResult.changed
    (calculate_change_confidence old_hash_info new_hash_info
       (Some Samples.cmp_unrelated)) = true
  /\ calculate_change_confidence old_hash_info new_hash_info
       (Some Samples.cmp_identical)
     = ChangeResult.Make false 0.90 None.
Proof.
  intros Hh Hv Hgate. unfold calculate_change_confidence.
  apply hash_eqb_neq in Hh. rewrite Hh, Hv, Hgate.
  cbn [Samples.cmp_unrelated Samples.cmp_identical Comparison.similarity].
  destruct (ChangeResult.get_has_important_change v); split; reflexivity.
Qed.

Section Cycle.
Context {hashlib : Hashlib} {normalizer : Normalizer} {esprima : Esprima}
        {difflib : Difflib} {template : PageTemplate} {world : World}.

(** The monitoring cycle computes the full-text comparison exactly when the
    first classification has a confidence below 0.80 and a non-empty
    previous content is stored. *)
Lemma detect_change_gate (old_hash_info current_hash_info : HashInfo.t)
    (previous_content : option Py.text) (content : Py.text) :
  snd (Monitor.detect_change old_hash_info current_hash_info previous_content
         content) <> None
  <-> ChangeResult.confidence
        (calculate_change_confidence old_hash_info current_hash_info None)
      < 0.80
      /\ exists previous, previous_content = Some previous /\ previous <> [].
Proof.
  unfold Monitor.detect_change.
  destruct (Py.lt _ 0.80) eqn:E.
  - apply PyFacts.lt_spec in E.
    destruct previous_content as [[|c previous]|]; simpl.
    + split; [congruence|]. intros [_ (p & Hp & Hne)]. congruence.
    + split; [|discriminate]. intros _. split; [exact E|].
      eexists. split; [reflexivity | discriminate].
    + split; [congruence|]. intros [_ (p & Hp & _)]. discriminate.
  - apply PyFacts.lt_false in E. simpl. split; [congruence|].
    intros [Hlt _]. exfalso. apply (Qlt_not_le _ _ Hlt E).
Qed.

(** The test the classifier makes on a chunk verdict, for any two
    fingerprints with differing hash values: a change of confidence 0.85
    or more is returned as it is, for every third argument; in every other
    case a supplied comparison decides the answer.  The cycle computes a
    comparison exactly when the first classification has a confidence
    below 0.80 and previous content is stored. *)
Lemma chunk_verdict_gate (old_hash_info new_hash_info : HashInfo.t)
    (v : ChangeResult.t) :
  HashInfo.hash old_hash_info <> HashInfo.hash new_hash_info ->
  compare_chunk_hashes old_hash_info new_hash_info = Some v ->
  (ChangeResult.changed v = true /\ 0.85 <= ChangeResult.confidence v ->
   (forall cs : option Comparison.t,
      calculate_change_confidence old_hash_info new_hash_info cs = v)
   /\ ~ Spec.similarity_pass_performed old_hash_info new_hash_info)
  /\ (~ (ChangeResult.changed v = true /\ 0.85 <= ChangeResult.confidence v) ->
      Spec.similarity_pass_performed old_hash_info new_hash_info)
  /\ (forall previous_content content,
        snd (Monitor.detect_change old_hash_info new_hash_info
               previous_content content) <> None
        <-> ChangeResult.confidence
              (calculate_change_confidence old_hash_info new_hash_info None)
            < 0.80
            /\ exists previous,
                 previous_content = Some previous /\ previous <> []).
Proof.
  intros Hh Hv. split; [|split].
  - intros [Hc Hconf].
    assert (Hret : forall cs : option Comparison.t,
              calculate_change_confidence old_hash_info new_hash_info cs = v).
    { intros cs. unfold calculate_change_confidence.
      apply hash_eqb_neq in Hh. rewrite Hh, Hv, Hc.
      apply PyFacts.le_spec in Hconf. rewrite Hconf. reflexivity. }
    split; [exact Hret|].
    intros (cs1 & cs2 & Hne). apply Hne. rewrite !Hret. reflexivity.
  - intros Hlow.
    assert (Hgate : ChangeResult.changed v
                    && Py.le 0.85 (ChangeResult.confidence v) = false).
    { destruct (ChangeResult.changed v
                && Py.le 0.85 (ChangeResult.confidence v)) eqn:E;
        [|reflexivity].
      apply andb_true_iff in E. destruct E as [Ec El].
      apply PyFacts.le_spec in El. exfalso. apply Hlow. tauto. }
    destruct (low_chunk_verdict_uses_similarity _ _ _ Hh Hv Hgate)
      as [H0 H1].
    exists Samples.cmp_unrelated, Samples.cmp_identical.
    intros E. rewrite E, H1 in H0. discriminate.
  - apply detect_change_gate.
Qed.

End Cycle.

End EscalationClaims.

(* ================================================================== *)
(** * Further properties of the change classifier                       *)
(* ================================================================== *)

Module ClassifierInvariants.
Import Classifier.
Local Open Scope Q_scope.

Lemma changed_weight_le_all (old_chunks new_chunks : list Chunk.t) :
  Forall (fun c => 0 <= Chunk.weight c) old_chunks ->
  Forall (fun c => 0 <= Chunk.weight c) new_chunks ->
  Spec.changed_weight old_chunks new_chunks
  <= Spec.all_weight old_chunks new_chunks.
Proof.
  unfold Spec.all_weight. revert new_chunks.
  induction old_chunks as [|o old_chunks IH]; intros new_chunks Ho Hn.
  - simpl. lra.
  - destruct new_chunks as [|n new_chunks].
    + simpl. lra.
    + inversion Ho as [|? ? Ho0 Ho']; inversion Hn as [|? ? Hn0 Hn']; subst.
      specialize (IH new_chunks Ho' Hn'). simpl.
      destruct (String.eqb _ _); lra.
Qed.

(** X1.  The share of the changed weight that a chunk comparison reports lies
    between 0 and 1 when no chunk has a negative weight. *)
Theorem change_ratio_in_unit_interval
    (old_hash_info new_hash_info : HashInfo.t) (v : ChangeResult.t)
    (e : ChunkEvidence.t) :
  Spec.weights_nonnegative old_hash_info ->
  Spec.weights_nonnegative new_hash_info ->
  compare_chunk_hashes old_hash_info new_hash_info = Some v ->
  ChangeResult.evidence v = Some e ->
  0 <= ChunkEvidence.change_ratio e <= 1.
Proof.
  intros Ho Hn Hv He.
  destruct (VerdictFacts.chunk_result_Some _ _ _ Hv) as [Co Cn].
  destruct (VerdictFacts.nil_or_not
              (collect_changed_chunks (HashInfo.chunk_details old_hash_info)
                 (HashInfo.chunk_details new_hash_info))) as [E|E].
  - rewrite (VerdictFacts.chunk_result_unchanged _ _ Co Cn E) in Hv.
    inversion Hv; subst. discriminate He.
  - destruct (VerdictFacts.chunk_result_changed _ _ Co Cn E)
      as (c & r & Hc & Hr & _).
    rewrite Hc in Hv. inversion Hv; subst v. simpl in He. inversion He.
    cbn [ChunkEvidence.change_ratio]. split.
    + rewrite Hr. apply VerdictFacts.change_ratio_nonneg; assumption.
    + rewrite Hr.
      destruct (Py.lt 0 _) eqn:Ht; [|lra].
      apply PyFacts.lt_spec in Ht.
      apply Qle_shift_div_r; [exact Ht|].
      rewrite Qmult_1_l, PyFacts.sum_total,
        ClassifierFacts.collect_weight_total,
        ClassifierClaims.all_weight_total.
      apply changed_weight_le_all; assumption.
Qed.

Lemma change_ratio_in_unit_interval_witness :
  0 <= ChunkEvidence.change_ratio Fixtures.head_change_evidence <= 1.
Proof.
  apply (change_ratio_in_unit_interval Samples.fp_old Samples.fp_head_changed
           Fixtures.head_change_verdict Fixtures.head_change_evidence).
  - repeat constructor; vm_compute; discriminate.
  - repeat constructor; vm_compute; discriminate.
  - vm_compute. reflexivity.
  - vm_compute. reflexivity.
Defined.

Lemma compare_position_index_sym (old_chunks new_chunks : list Chunk.t)
    (i : nat) :
  map ChangedChunk.chunk_index (compare_position old_chunks new_chunks i)
  = map ChangedChunk.chunk_index (compare_position new_chunks old_chunks i).
Proof.
  unfold compare_position.
  destruct (nth_error old_chunks i) as [o|], (nth_error new_chunks i) as [n|];
    try reflexivity.
  rewrite String.eqb_sym. destruct (String.eqb _ _); reflexivity.
Qed.

Lemma collect_index_sym (old_chunks new_chunks : list Chunk.t) :
  map ChangedChunk.chunk_index (collect_changed_chunks old_chunks new_chunks)
  = map ChangedChunk.chunk_index (collect_changed_chunks new_chunks old_chunks).
Proof.
  unfold collect_changed_chunks, Py.max.
  rewrite (Nat.max_comm (length new_chunks)).
  induction (seq 0 (Nat.max (length old_chunks) (length new_chunks)))
    as [|i l IH]; [reflexivity|].
  simpl. rewrite !map_app, IH, compare_position_index_sym. reflexivity.
Qed.

(** X2.  A chunk comparison does not depend on the direction as far as the
    answer "changed" and the positions of the changed chunks go: comparing
    new against old finds a change exactly when comparing old against new
    does, at the same positions. *)
Theorem chunk_comparison_symmetric (old_hash_info new_hash_info : HashInfo.t) :
  option_map ChangeResult.changed
    (compare_chunk_hashes old_hash_info new_hash_info)
  = option_map ChangeResult.changed
      (compare_chunk_hashes new_hash_info old_hash_info)
  /\ map ChangedChunk.chunk_index
       (collect_changed_chunks (HashInfo.chunk_details old_hash_info)
          (HashInfo.chunk_details new_hash_info))
     = map ChangedChunk.chunk_index
         (collect_changed_chunks (HashInfo.chunk_details new_hash_info)
            (HashInfo.chunk_details old_hash_info)).
Proof.
  split; [|apply collect_index_sym].
  unfold compare_chunk_hashes.
  rewrite (orb_comm
             (negb (String.eqb (HashInfo.method new_hash_info)
                      position_aware_chunked))).
  destruct (_ || _); [reflexivity|].
  pose proof (collect_index_sym (HashInfo.chunk_details old_hash_info)
                (HashInfo.chunk_details new_hash_info)) as Hs.
  destruct (collect_changed_chunks (HashInfo.chunk_details old_hash_info)
              (HashInfo.chunk_details new_hash_info));
    destruct (collect_changed_chunks (HashInfo.chunk_details new_hash_info)
                (HashInfo.chunk_details old_hash_info));
    try discriminate Hs; reflexivity.
Qed.

Lemma chunk_result_unchanged_inv (old_hash_info new_hash_info : HashInfo.t)
    (v : ChangeResult.t) :
  compare_chunk_hashes old_hash_info new_hash_info = Some v ->
  ChangeResult.changed v = false ->
  v = ChangeResult.Make false 0.98 None.
Proof.
  unfold compare_chunk_hashes. destruct (_ || _); [discriminate|].
  destruct (collect_changed_chunks _ _); intros E; inversion E; subst.
  - reflexivity.
  - discriminate.
Qed.

Lemma unchanged_verdict_cases (old_hash_info new_hash_info : HashInfo.t)
    (cs : option Comparison.t) :
  ChangeResult.changed
    (calculate_change_confidence old_hash_info new_hash_info cs) = false ->
  exists c,
    calculate_change_confidence old_hash_info new_hash_info cs
    = ChangeResult.Make false c None
    /\ In c [0.99; 0.98; 0.95; 0.90].
Proof.
  unfold calculate_change_confidence.
  destruct (hash_eqb _ _).
  { intros _. exists 0.99. simpl. auto. }
  destruct (compare_chunk_hashes old_hash_info new_hash_info) as [v|] eqn:Hv.
  - destruct (ChangeResult.changed v) eqn:Hc.
    + destruct (Py.le 0.85 (ChangeResult.confidence v)); cbn [andb].
      * intros H. congruence.
      * destruct cs as [c|]; [|intros H; congruence].
        destruct (ChangeResult.get_has_important_change v).
        -- destruct (Py.lt _ _); [discriminate|].
           intros _. exists 0.90. simpl. auto 6.
        -- destruct (Py.lt _ _); [discriminate|].
           intros _. exists 0.90. simpl. auto 6.
    + cbn [andb].
      pose proof (chunk_result_unchanged_inv _ _ _ Hv Hc) as Ev.
      destruct cs as [c|].
      * destruct (ChangeResult.get_has_important_change v).
        -- destruct (Py.lt _ _); [discriminate|].
           intros _. exists 0.90. simpl. auto 6.
        -- destruct (Py.lt _ _); [discriminate|].
           intros _. exists 0.90. simpl. auto 6.
      * intros _. exists 0.98. rewrite Ev. simpl. auto.
  - destruct cs as [c|]; [|discriminate].
    destruct (_ && _).
    + intros _. exists 0.95. simpl. auto 6.
    + destruct (Py.lt _ _); discriminate.
Qed.

(** X3.  A verdict of "unchanged" is never a weak one: its confidence is one of
    0.99, 0.98, 0.95 and 0.90, whatever the fingerprints and the similarity
    are, and it carries no chunk evidence. *)
Theorem unchanged_verdict_confidence
    (old_hash_info new_hash_info : HashInfo.t) (cs : option Comparison.t) :
  ChangeResult.changed
    (calculate_change_confidence old_hash_info new_hash_info cs) = false ->
  In (ChangeResult.confidence
        (calculate_change_confidence old_hash_info new_hash_info cs))
     [0.99; 0.98; 0.95; 0.90]
  /\ 0.90 <= ChangeResult.confidence
               (calculate_change_confidence old_hash_info new_hash_info cs)
  /\ ChangeResult.evidence
       (calculate_change_confidence old_hash_info new_hash_info cs) = None.
Proof.
  intros H. destruct (unchanged_verdict_cases _ _ _ H) as (c & E & Hc).
  rewrite E. cbn [ChangeResult.confidence ChangeResult.evidence].
  split; [exact Hc|]. split; [|reflexivity].
  simpl in Hc. destruct Hc as [<-|[<-|[<-|[<-|[]]]]]; lra.
Qed.

Lemma unchanged_verdict_confidence_witness :
  In (ChangeResult.confidence
        (calculate_change_confidence Samples.fp_old Samples.fp_rehashed None))
     [0.99; 0.98; 0.95; 0.90]
  /\ 0.90 <= ChangeResult.confidence
               (calculate_change_confidence Samples.fp_old Samples.fp_rehashed
                  None)
  /\ ChangeResult.evidence
       (calculate_change_confidence Samples.fp_old Samples.fp_rehashed None)
     = None.
Proof.
  apply (unchanged_verdict_confidence Samples.fp_old Samples.fp_rehashed None).
  vm_compute. reflexivity.
Defined.

Lemma unchanged_confidence_not_low
    (old_hash_info new_hash_info : HashInfo.t) (cs : option Comparison.t) :
  ChangeResult.changed
    (calculate_change_confidence old_hash_info new_hash_info cs) = false ->
  Py.lt (ChangeResult.confidence
           (calculate_change_confidence old_hash_info new_hash_info cs)) 0.80
  = false.
Proof.
  intros H. destruct (unchanged_verdict_cases _ _ _ H) as (c & E & Hc).
  rewrite E. cbn [ChangeResult.confidence]. apply PyFacts.lt_false.
  simpl in Hc. destruct Hc as [<-|[<-|[<-|[<-|[]]]]]; lra.
Qed.

(** X4.  The cycle runs the full-text comparison only on a first verdict of
    "changed": a first verdict of "unchanged" is final, so the comparison
    can withdraw a change and never introduce one. *)
Theorem full_text_comparison_only_withdraws {difflib : Difflib}
    (old_hash_info current_hash_info : HashInfo.t)
    (previous_content : option Py.text) (content : Py.text) :
  (ChangeResult.changed
     (calculate_change_confidence old_hash_info current_hash_info None)
   = false ->
   Monitor.detect_change old_hash_info current_hash_info previous_content
     content
   = (calculate_change_confidence old_hash_info current_hash_info None, None))
  /\ (ChangeResult.changed
        (fst (Monitor.detect_change old_hash_info current_hash_info
                previous_content content)) = true ->
      ChangeResult.changed
        (calculate_change_confidence old_hash_info current_hash_info None)
      = true).
Proof.
  assert (H1 : ChangeResult.changed
                 (calculate_change_confidence old_hash_info current_hash_info
                    None) = false ->
               Monitor.detect_change old_hash_info current_hash_info
                 previous_content content
               = (calculate_change_confidence old_hash_info current_hash_info
                    None, None)).
  { intros H. unfold Monitor.detect_change.
    rewrite (unchanged_confidence_not_low _ _ _ H). reflexivity. }
  split; [exact H1|].
  destruct (ChangeResult.changed
              (calculate_change_confidence old_hash_info current_hash_info
                 None)) eqn:Hc; [reflexivity|].
  rewrite (H1 eq_refl). cbn [fst]. rewrite Hc. discriminate.
Qed.

Lemma full_text_comparison_only_withdraws_witness :
  @Monitor.detect_change Samples.prefix_difflib Samples.fp_old
    Samples.fp_rehashed (Some Samples.script_v1) Samples.script_v3
  = (calculate_change_confidence Samples.fp_old Samples.fp_rehashed None, None).
Proof.
  apply (@full_text_comparison_only_withdraws Samples.prefix_difflib
           Samples.fp_old Samples.fp_rehashed (Some Samples.script_v1)
           Samples.script_v3).
  vm_compute. reflexivity.
Defined.

(** X5.  The helper [should_do_additional_verification] answers "no" on every
    result of a chunk comparison of fingerprints without negative weights:
    such a result has a confidence of at least 0.85, above both of the
    helper's thresholds. *)
Theorem no_additional_verification_on_chunk_results
    (old_hash_info new_hash_info : HashInfo.t) (v : ChangeResult.t) :
  Spec.weights_nonnegative old_hash_info ->
  Spec.weights_nonnegative new_hash_info ->
  compare_chunk_hashes old_hash_info new_hash_info = Some v ->
  should_do_additional_verification v = false.
Proof.
  intros Ho Hn Hv.
  pose proof (VerdictFacts.chunk_result_bounds _ _ _ Ho Hn Hv) as [Hlo _].
  unfold should_do_additional_verification. apply PyFacts.lt_false.
  destruct (ChangeResult.get_has_important_change v); lra.
Qed.

Lemma no_additional_verification_on_chunk_results_witness :
  should_do_additional_verification Fixtures.head_change_verdict = false.
Proof.
  apply (no_additional_verification_on_chunk_results Samples.fp_old
           Samples.fp_head_changed Fixtures.head_change_verdict).
  - repeat constructor; vm_compute; discriminate.
  - repeat constructor; vm_compute; discriminate.
  - vm_compute. reflexivity.
Defined.

Lemma absdiff_sym (a b : nat) : Py.absdiff a b = Py.absdiff b a.
Proof. unfold Py.absdiff. apply Nat.add_comm. Qed.

Lemma float_nonneg (n : nat) : 0 <= Py.float n.
Proof.
  unfold Py.float. change 0 with (inject_Z 0). rewrite <- Zle_Qle. lia.
Qed.

Lemma float_le (a b : nat) : (a <= b)%nat -> Py.float a <= Py.float b.
Proof. intros H. unfold Py.float. rewrite <- Zle_Qle. lia. Qed.

Lemma float_pos (n : nat) : (0 < n)%nat -> 0 < Py.float n.
Proof.
  intros H. unfold Py.float. change 0 with (inject_Z 0). rewrite <- Zlt_Qlt.
  lia.
Qed.

Lemma length_diff_bounds (a b : nat) :
  (Py.max a b =? 0)%nat = false ->
  0 <= Py.float (Py.absdiff a b) / Py.float (Py.max a b) <= 1.
Proof.
  intros H. apply Nat.eqb_neq in H.
  assert (Hp : 0 < Py.float (Py.max a b)) by (apply float_pos; lia).
  split.
  - apply Qle_shift_div_l; [exact Hp|]. rewrite Qmult_0_l. apply float_nonneg.
  - apply Qle_shift_div_r; [exact Hp|]. rewrite Qmult_1_l. apply float_le.
    unfold Py.absdiff, Py.max. lia.
Qed.

(** X6.  The full-text comparison: the relative length difference lies between
    0 and 1 and does not depend on the order of the two texts; the
    similarity lies between 0 and 1 when difflib's ratios do; and in each of
    its three cases the flag ['major_change'] is set exactly when the
    similarity is below 0.7 or the length difference above 0.2. *)
Theorem content_comparison_ranges {difflib : Difflib}
    (old_content new_content : Py.text) :
  Shape.ratios_in_unit_interval ->
  0 <= Comparison.length_diff
         (enhanced_content_comparison old_content new_content) <= 1
  /\ Comparison.length_diff
       (enhanced_content_comparison old_content new_content)
     = Comparison.length_diff
         (enhanced_content_comparison new_content old_content)
  /\ 0 <= Comparison.similarity
            (enhanced_content_comparison old_content new_content) <= 1
  /\ (Comparison.major_change
        (enhanced_content_comparison old_content new_content) = true
      <-> Comparison.similarity
            (enhanced_content_comparison old_content new_content) < 0.7
          \/ 0.2 < Comparison.length_diff
                     (enhanced_content_comparison old_content new_content)).
Proof.
  intros [Hl Hc]. split; [|split; [|split]].
  - unfold enhanced_content_comparison.
    destruct (_ =? 0)%nat eqn:E0; [simpl; lra|].
    pose proof (length_diff_bounds _ _ E0) as Hb.
    destruct (Py.lt 0.3 _); exact Hb.
  - unfold enhanced_content_comparison.
    rewrite (absdiff_sym (length new_content)).
    unfold Py.max. rewrite (Nat.max_comm (length new_content)).
    destruct (_ =? 0)%nat; [reflexivity|].
    destruct (Py.lt 0.3 _); reflexivity.
  - unfold enhanced_content_comparison.
    destruct (_ =? 0)%nat; [simpl; lra|].
    destruct (Py.lt 0.3 _); [simpl; lra|].
    cbn [Comparison.similarity].
    destruct (_ <? 1000)%nat; [|apply Hl].
    destruct (Py.lt _ _); [apply Hc|apply Hl].
  - unfold enhanced_content_comparison.
    destruct (_ =? 0)%nat.
    { cbn [Comparison.major_change Comparison.similarity
           Comparison.length_diff].
      split; [discriminate|]. intros [H|H]; lra. }
    destruct (Py.lt 0.3 _) eqn:E3.
    { cbn [Comparison.major_change Comparison.similarity
           Comparison.length_diff].
      split; [|reflexivity]. intros _. left. lra. }
    cbn [Comparison.major_change Comparison.similarity Comparison.length_diff].
    rewrite orb_true_iff, !PyFacts.lt_spec. reflexivity.
Qed.

Lemma content_comparison_ranges_witness :
  0 <= Comparison.length_diff
         (@enhanced_content_comparison Samples.prefix_difflib
            Samples.script_v1 Samples.script_v3) <= 1
  /\ Comparison.length_diff
       (@enhanced_content_comparison Samples.prefix_difflib
          Samples.script_v1 Samples.script_v3)
     = Comparison.length_diff
         (@enhanced_content_comparison Samples.prefix_difflib
            Samples.script_v3 Samples.script_v1)
  /\ 0 <= Comparison.similarity
            (@enhanced_content_comparison Samples.prefix_difflib
               Samples.script_v1 Samples.script_v3) <= 1
  /\ (Comparison.major_change
        (@enhanced_content_comparison Samples.prefix_difflib
           Samples.script_v1 Samples.script_v3) = true
      <-> Comparison.similarity
            (@enhanced_content_comparison Samples.prefix_difflib
               Samples.script_v1 Samples.script_v3) < 0.7
          \/ 0.2 < Comparison.length_diff
                     (@enhanced_content_comparison Samples.prefix_difflib
                        Samples.script_v1 Samples.script_v3)).
Proof.
  apply (@content_comparison_ranges Samples.prefix_difflib Samples.script_v1
           Samples.script_v3).
  split; intros a b; cbn [ratio_lines ratio_chars Samples.prefix_difflib].
  - destruct (_ && _); vm_compute; split; discriminate.
  - destruct (Samples.lines_eqb a b); vm_compute; split; discriminate.
Defined.

(** X7.  A row without stored hash info (every row of the database model) is
    never classified by its chunks: when its last hash differs from the
    new one and a previous content is stored, the cycle always runs the
    full-text comparison, and the verdict is "unchanged" exactly when the
    similarity is above 0.98 and the length difference below 0.01. *)
Theorem legacy_row_decided_by_full_text {difflib : Difflib} {world : World}
    (monitored_url : Monitor.MonitoredUrl) (current_hash_info : HashInfo.t)
    (previous content : Py.text) :
  Shape.legacy_row monitored_url ->
  Monitor.last_hash monitored_url <> HashInfo.hash current_hash_info ->
  previous <> [] ->
  Monitor.previous_hash_info monitored_url
  = Monitor.legacy_hash_info monitored_url
  /\ compare_chunk_hashes (Monitor.previous_hash_info monitored_url)
       current_hash_info = None
  /\ Monitor.detect_change (Monitor.previous_hash_info monitored_url)
       current_hash_info (Some previous) content
     = (calculate_change_confidence (Monitor.legacy_hash_info monitored_url)
          current_hash_info
          (Some (enhanced_content_comparison previous content)),
        Some (enhanced_content_comparison previous content))
  /\ (ChangeResult.changed
        (fst (Monitor.detect_change
                (Monitor.previous_hash_info monitored_url)
                current_hash_info (Some previous) content)) = false
      <-> 0.98 < Comparison.similarity
                   (enhanced_content_comparison previous content)
          /\ Comparison.length_diff
               (enhanced_content_comparison previous content) < 0.01).
Proof.
  intros Hrow Hneq Hprev.
  assert (Ep : Monitor.previous_hash_info monitored_url
               = Monitor.legacy_hash_info monitored_url).
  { unfold Monitor.previous_hash_info. rewrite Hrow. reflexivity. }
  assert (Ec : compare_chunk_hashes (Monitor.legacy_hash_info monitored_url)
                 current_hash_info = None) by reflexivity.
  assert (Eh : hash_eqb
                 (HashInfo.hash (Monitor.legacy_hash_info monitored_url))
                 (HashInfo.hash current_hash_info) = false).
  { apply ClassifierFacts.hash_eqb_neq. exact Hneq. }
  assert (Ed : Monitor.detect_change (Monitor.legacy_hash_info monitored_url)
                 current_hash_info (Some previous) content
               = (calculate_change_confidence
                    (Monitor.legacy_hash_info monitored_url)
                    current_hash_info
                    (Some (enhanced_content_comparison previous content)),
                  Some (enhanced_content_comparison previous content))).
  { unfold Monitor.detect_change.
    assert (El : Py.lt (ChangeResult.confidence
                          (calculate_change_confidence
                             (Monitor.legacy_hash_info monitored_url)
                             current_hash_info None)) 0.80 = true).
    { unfold calculate_change_confidence. rewrite Eh, Ec.
      cbn [ChangeResult.confidence]. apply PyFacts.lt_spec.
      unfold base_confidence.
      pose proof (PyFacts.min_le_l
                    (HashInfo.confidence
                       (Monitor.legacy_hash_info monitored_url))
                    (HashInfo.confidence current_hash_info)) as Hm.
      cbn [Monitor.legacy_hash_info HashInfo.confidence] in Hm |- *. lra. }
    rewrite El. destruct previous; [congruence|]. reflexivity. }
  rewrite Ep. split; [reflexivity|]. split; [exact Ec|]. split; [exact Ed|].
  rewrite Ed. cbn [fst]. unfold calculate_change_confidence.
  rewrite Eh, Ec.
  destruct (Py.lt 0.98 _) eqn:E1; destruct (Py.lt _ 0.01) eqn:E2;
    cbn [andb].
  - apply PyFacts.lt_spec in E1, E2. cbn [ChangeResult.changed]. tauto.
  - apply PyFacts.lt_spec in E1. apply PyFacts.lt_false in E2.
    destruct (Py.lt 0.95 _); cbn [ChangeResult.changed];
      (split; [discriminate|]); intros [_ H]; lra.
  - apply PyFacts.lt_false in E1.
    destruct (Py.lt 0.95 _); cbn [ChangeResult.changed];
      (split; [discriminate|]); intros [H _]; lra.
  - apply PyFacts.lt_false in E1.
    destruct (Py.lt 0.95 _); cbn [ChangeResult.changed];
      (split; [discriminate|]); intros [H _]; lra.
Qed.

Lemma legacy_row_decided_by_full_text_witness :
  @Monitor.previous_hash_info Samples.quiet_world Fixtures.checked_url
  = Monitor.legacy_hash_info Fixtures.checked_url
  /\ compare_chunk_hashes
       (@Monitor.previous_hash_info Samples.quiet_world Fixtures.checked_url)
       Samples.fp_ast = None
  /\ @Monitor.detect_change Samples.prefix_difflib
       (@Monitor.previous_hash_info Samples.quiet_world Fixtures.checked_url)
       Samples.fp_ast (Some Samples.script_v1) Samples.script_v3
     = (calculate_change_confidence
          (Monitor.legacy_hash_info Fixtures.checked_url) Samples.fp_ast
          (Some (@enhanced_content_comparison Samples.prefix_difflib
                   Samples.script_v1 Samples.script_v3)),
        Some (@enhanced_content_comparison Samples.prefix_difflib
                Samples.script_v1 Samples.script_v3))
  /\ (ChangeResult.changed
        (fst (@Monitor.detect_change Samples.prefix_difflib
                (@Monitor.previous_hash_info Samples.quiet_world
                   Fixtures.checked_url)
                Samples.fp_ast (Some Samples.script_v1) Samples.script_v3))
      = false
      <-> 0.98 < Comparison.similarity
                   (@enhanced_content_comparison Samples.prefix_difflib
                      Samples.script_v1 Samples.script_v3)
          /\ Comparison.length_diff
               (@enhanced_content_comparison Samples.prefix_difflib
                  Samples.script_v1 Samples.script_v3) < 0.01).
Proof.
  apply (@legacy_row_decided_by_full_text Samples.prefix_difflib
           Samples.quiet_world Fixtures.checked_url Samples.fp_ast
           Samples.script_v1 Samples.script_v3).
  - reflexivity.
  - vm_compute. discriminate.
  - vm_compute. discriminate.
Defined.

End ClassifierInvariants.

(* ================================================================== *)
(** * Further properties of the fingerprint engine                      *)
(* ================================================================== *)

Module EngineInvariants.
Import Fingerprint.
Local Open Scope Q_scope.

Section Engine.
Context {hashlib : Hashlib} {normalizer : Normalizer}.

Lemma slice_length {A} (s : list A) (i n : nat) :
  length (Py.slice s i (i + n)) = Nat.min n (length s - i).
Proof.
  unfold Py.slice. rewrite length_firstn, length_skipn.
  replace (i + n - i)%nat with n by lia. reflexivity.
Qed.

Lemma slice_clip {A} (s : list A) (i n : nat) :
  Py.slice s i (i + Nat.min n (length s - i)) = Py.slice s i (i + n).
Proof.
  unfold Py.slice.
  replace (i + Nat.min n (length s - i) - i)%nat
    with (Nat.min n (length s - i)) by lia.
  replace (i + n - i)%nat with n by lia.
  rewrite <- (length_skipn i s).
  destruct (Nat.le_ge_cases n (length (skipn i s))) as [H|H].
  - rewrite Nat.min_l by exact H. reflexivity.
  - rewrite Nat.min_r by exact H. rewrite !firstn_all2; [reflexivity|exact H|lia].
Qed.

Lemma add_chunk_eq (js_content : Py.text) (chunk_size : nat)
    (chunks : list Chunk.t) (i : nat) :
  add_chunk js_content chunk_size chunks i
  = if (Nat.min chunk_size (length js_content - i) <? 100)%nat then chunks
    else chunks
         ++ [Chunk.Make i (i + Nat.min chunk_size (length js_content - i))
               (md5 (normalize_javascript_content
                       (Py.slice js_content i (i + chunk_size))))
               (weight_of_chunk_number (length chunks))].
Proof. unfold add_chunk. rewrite slice_length. reflexivity. Qed.

Lemma fold_add_chunk_chunks (js_content : Py.text) (chunk_size : nat)
    (offsets : list nat) (chunks : list Chunk.t) :
  Forall (fun i => exists k, i = k * (chunk_size / 2))%nat offsets ->
  Forall (Shape.chunk_of js_content chunk_size) chunks ->
  Forall (Shape.chunk_of js_content chunk_size)
    (fold_left (add_chunk js_content chunk_size) offsets chunks).
Proof.
  revert chunks.
  induction offsets as [|i offsets IH]; intros chunks Ho Hc; [exact Hc|].
  inversion Ho as [|? ? Hi Ho']; subst. cbn [fold_left]. apply IH; [exact Ho'|].
  rewrite add_chunk_eq.
  destruct (_ <? 100)%nat eqn:E; [exact Hc|]. apply Nat.ltb_ge in E.
  apply Forall_app. split; [exact Hc|]. constructor; [|constructor].
  unfold Shape.chunk_of. cbn [Chunk.start Chunk.end_ Chunk.hash].
  split; [exact Hi|]. split; [lia|]. split; [lia|]. split; [lia|].
  rewrite slice_clip. reflexivity.
Qed.

Lemma fold_add_chunk_schedule (js_content : Py.text) (chunk_size : nat)
    (offsets : list nat) (chunks : list Chunk.t) :
  Shape.scheduled_weights chunks ->
  Shape.scheduled_weights
    (fold_left (add_chunk js_content chunk_size) offsets chunks).
Proof.
  revert chunks.
  induction offsets as [|i offsets IH]; intros chunks Hc; [exact Hc|].
  cbn [fold_left]. apply IH. rewrite add_chunk_eq.
  destruct (_ <? 100)%nat; [exact Hc|].
  intros n c Hn.
  destruct (Nat.lt_ge_cases n (length chunks)) as [Hlt|Hge].
  - rewrite nth_error_app1 in Hn by exact Hlt. apply Hc. exact Hn.
  - rewrite nth_error_app2 in Hn by exact Hge.
    destruct (n - length chunks)%nat as [|m] eqn:Em.
    + cbn in Hn. inversion Hn; subst c. cbn [Chunk.weight].
      replace n with (length chunks) by lia. reflexivity.
    + cbn in Hn. destruct m; discriminate Hn.
Qed.

Lemma fold_add_chunk_keeps (js_content : Py.text) (chunk_size : nat)
    (offsets : list nat) (chunks : list Chunk.t) (c : Chunk.t) :
  In c chunks ->
  In c (fold_left (add_chunk js_content chunk_size) offsets chunks).
Proof.
  revert chunks.
  induction offsets as [|i offsets IH]; intros chunks Hc; [exact Hc|].
  cbn [fold_left]. apply IH. rewrite add_chunk_eq.
  destruct (_ <? 100)%nat; [exact Hc|]. apply in_or_app. left. exact Hc.
Qed.

Lemma fold_add_chunk_at (js_content : Py.text) (chunk_size : nat)
    (offsets : list nat) (chunks : list Chunk.t) (i : nat) :
  In i offsets ->
  (100 <= Nat.min chunk_size (length js_content - i))%nat ->
  exists c,
    In c (fold_left (add_chunk js_content chunk_size) offsets chunks)
    /\ Chunk.start c = i
    /\ Chunk.end_ c = (i + Nat.min chunk_size (length js_content - i))%nat.
Proof.
  revert chunks.
  induction offsets as [|j offsets IH]; intros chunks Hi Hlen; [destruct Hi|].
  cbn [fold_left]. destruct Hi as [->|Hi]; [|apply IH; assumption].
  eexists. split.
  - apply fold_add_chunk_keeps. rewrite add_chunk_eq.
    assert (E : (Nat.min chunk_size (length js_content - i) <? 100)%nat
                = false) by (apply Nat.ltb_ge; exact Hlen).
    rewrite E. apply in_or_app. right. left. reflexivity.
  - split; reflexivity.
Qed.

(** The offsets of the loop: the multiples of the step below the length of
    the text. *)
Lemma range_step_offsets (stop step : nat) :
  (0 < step)%nat ->
  exists offsets,
    Py.range_step stop step = Some offsets
    /\ Forall (fun i => exists k, i = k * step)%nat offsets
    /\ forall k, (k * step < stop)%nat -> In (k * step)%nat offsets.
Proof.
  intros Hs. unfold Py.range_step. destruct step as [|p]; [lia|].
  eexists. split; [reflexivity|]. split.
  - apply Forall_forall. intros i Hi. apply in_map_iff in Hi.
    destruct Hi as (k & <- & _). exists k. reflexivity.
  - intros k Hk. apply in_map_iff. exists k. split; [reflexivity|].
    apply in_seq. split; [lia|]. cbn [Nat.add].
    apply Nat.lt_le_trans with (m := S k); [lia|].
    apply Nat.div_le_lower_bound; lia.
Qed.

(** The chunked branch, spelled out. *)
Lemma chunked_branch (js_content : Py.text) (chunk_size : nat) :
  (2 <= chunk_size < length js_content)%nat ->
  exists offsets,
    Py.range_step (length js_content) (chunk_size / 2) = Some offsets
    /\ Forall (fun i => exists k, i = k * (chunk_size / 2))%nat offsets
    /\ (forall k, (k * (chunk_size / 2) < length js_content)%nat ->
                  In (k * (chunk_size / 2))%nat offsets)
    /\ generate_position_aware_hash js_content chunk_size
       = Some (HashInfo.Make
                 (Some (md5 (Py.concat
                               (flat_map weighted_parts
                                  (fold_left (add_chunk js_content chunk_size)
                                     offsets [])))))
                 position_aware_chunked 0.92
                 (Some (length (fold_left (add_chunk js_content chunk_size)
                                  offsets [])))
                 (fold_left (add_chunk js_content chunk_size) offsets [])).
Proof.
  intros [H2 Hlen].
  assert (Hs : (0 < chunk_size / 2)%nat) by (apply Nat.div_str_pos; lia).
  destruct (range_step_offsets (length js_content) (chunk_size / 2) Hs)
    as (offsets & Hr & Hm & Hin).
  exists offsets. split; [exact Hr|]. split; [exact Hm|]. split; [exact Hin|].
  unfold generate_position_aware_hash.
  assert (E : (length js_content <=? chunk_size)%nat = false)
    by (apply Nat.leb_gt; exact Hlen).
  rewrite E, Hr. reflexivity.
Qed.

End Engine.

Section Chunks.
Context {hashlib : Hashlib} {normalizer : Normalizer}.

Lemma engine_chunks (js_content : Py.text) (chunk_size : nat)
    (h : HashInfo.t) :
  generate_position_aware_hash js_content chunk_size = Some h ->
  Forall (Shape.chunk_of js_content chunk_size) (HashInfo.chunk_details h)
  /\ Shape.scheduled_weights (HashInfo.chunk_details h).
Proof.
  unfold generate_position_aware_hash.
  destruct (length js_content <=? chunk_size)%nat.
  { intros E. inversion E. cbn [HashInfo.chunk_details]. split.
    - constructor.
    - intros i c Hi. destruct i; discriminate Hi. }
  destruct (Nat.eq_dec (chunk_size / 2) 0) as [E0|E0].
  { rewrite E0. discriminate. }
  destruct (range_step_offsets (length js_content) (chunk_size / 2))
    as (offsets & Hr & Hm & _); [lia|].
  rewrite Hr. intros E. inversion E. cbn [HashInfo.chunk_details]. split.
  - apply fold_add_chunk_chunks; [exact Hm|constructor].
  - apply fold_add_chunk_schedule. intros i c Hi. destruct i; discriminate Hi.
Qed.

(** X8.  Every chunk of a fingerprint is cut from the text it fingerprints: it
    starts at a multiple of half the chunk size, ends within the text,
    holds between 100 and [chunk_size] characters, and its hash is the
    hash of exactly these characters after normalisation.  The weights are
    3, 2, 1, 1, ... in the order of the chunks, and the count ['chunks'] of
    a chunked fingerprint is the number of its chunks. *)
Theorem fingerprint_chunks_well_formed (js_content : Py.text)
    (chunk_size : nat) (h : HashInfo.t) :
  generate_position_aware_hash js_content chunk_size = Some h ->
  Forall (Shape.chunk_of js_content chunk_size) (HashInfo.chunk_details h)
  /\ Shape.scheduled_weights (HashInfo.chunk_details h)
  /\ (HashInfo.method h = position_aware_chunked ->
      HashInfo.chunks h = Some (length (HashInfo.chunk_details h))).
Proof.
  intros Hh. destruct (engine_chunks _ _ _ Hh) as [Hc Hw].
  split; [exact Hc|]. split; [exact Hw|].
  revert Hh. unfold generate_position_aware_hash.
  destruct (length js_content <=? chunk_size)%nat.
  - intros E. inversion E. cbn [HashInfo.method]. discriminate.
  - destruct (Py.range_step _ _); [|discriminate].
    intros E. inversion E. reflexivity.
Qed.

Lemma covering_offset (p s : nat) :
  (0 < s)%nat ->
  ((p / s - 1) * s <= p)%nat
  /\ (p < (p / s - 1) * s + 2 * s)%nat
  /\ ((p / s - 1) * s = 0 \/ (p / s - 1) * s + s <= p)%nat.
Proof.
  intros Hs. pose proof (Nat.div_mod_eq p s) as E.
  pose proof (Nat.mod_upper_bound p s) as Hr.
  destruct (p / s)%nat as [|k].
  - cbn [Nat.sub Nat.mul]. lia.
  - replace (S k - 1)%nat with k by lia. nia.
Qed.

Lemma chunked_cover (js_content : Py.text) (chunk_size : nat) :
  (200 <= chunk_size)%nat ->
  (chunk_size < length js_content)%nat ->
  exists h,
    generate_position_aware_hash js_content chunk_size = Some h
    /\ HashInfo.method h = position_aware_chunked
    /\ HashInfo.confidence h = 0.92
    /\ HashInfo.hash h <> None
    /\ forall p, (p < length js_content)%nat ->
                 Shape.covered (HashInfo.chunk_details h) p.
Proof.
  intros Hcs Hlen.
  destruct (chunked_branch js_content chunk_size) as (offsets & _ & _ & Hin & Hh);
    [lia|].
  eexists. split; [exact Hh|]. split; [reflexivity|]. split; [reflexivity|].
  split; [discriminate|].
  cbn [HashInfo.chunk_details]. intros p Hp.
  assert (Hs : (100 <= chunk_size / 2)%nat)
    by (apply Nat.div_le_lower_bound; lia).
  assert (H2s : (2 * (chunk_size / 2) <= chunk_size)%nat)
    by (apply Nat.Div0.mul_div_le).
  destruct (covering_offset p (chunk_size / 2)) as (Hi1 & Hi2 & Hi3); [lia|].
  set (k := (p / (chunk_size / 2) - 1)%nat) in *.
  destruct (fold_add_chunk_at js_content chunk_size offsets []
              (k * (chunk_size / 2))%nat) as (c & Hc & Hstart & Hend).
  - apply Hin. lia.
  - lia.
  - exists c. split; [exact Hc|]. rewrite Hstart, Hend. lia.
Qed.

(** X9.  With a chunk size of at least 200, no character of a text that is
    fingerprinted in chunks escapes the fingerprint: every position of
    the text lies in one of the chunks. *)
Theorem chunks_cover_the_text (js_content : Py.text) (chunk_size : nat) :
  (200 <= chunk_size)%nat ->
  (chunk_size < length js_content)%nat ->
  exists h,
    generate_position_aware_hash js_content chunk_size = Some h
    /\ HashInfo.method h = position_aware_chunked
    /\ forall p, (p < length js_content)%nat ->
                 Shape.covered (HashInfo.chunk_details h) p.
Proof.
  intros Hcs Hlen.
  destruct (chunked_cover js_content chunk_size Hcs Hlen)
    as (h & Hh & Hm & _ & _ & Hp).
  exists h. auto.
Qed.

End Chunks.

Lemma chunks_cover_the_text_witness :
  exists h,
    @generate_position_aware_hash Samples.prefix_hashlib
      Samples.identity_normalizer Samples.text2001 chunk_size_default = Some h
    /\ HashInfo.method h = position_aware_chunked
    /\ forall p, (p < length Samples.text2001)%nat ->
                 Shape.covered (HashInfo.chunk_details h) p.
Proof.
  apply (@chunks_cover_the_text Samples.prefix_hashlib
           Samples.identity_normalizer Samples.text2001 chunk_size_default).
  - vm_compute. lia.
  - vm_compute. lia.
Defined.

Lemma fingerprint_chunks_well_formed_witness :
  Forall (@Shape.chunk_of Samples.prefix_hashlib Samples.identity_normalizer
            Samples.text2001 chunk_size_default)
    (HashInfo.chunk_details Fixtures.fingerprint_2001)
  /\ Shape.scheduled_weights (HashInfo.chunk_details Fixtures.fingerprint_2001)
  /\ (HashInfo.method Fixtures.fingerprint_2001 = position_aware_chunked ->
      HashInfo.chunks Fixtures.fingerprint_2001
      = Some (length (HashInfo.chunk_details Fixtures.fingerprint_2001))).
Proof.
  apply (@fingerprint_chunks_well_formed Samples.prefix_hashlib
           Samples.identity_normalizer Samples.text2001 chunk_size_default
           Fixtures.fingerprint_2001).
  vm_compute. reflexivity.
Defined.

Lemma scheduled_important (old_chunks new_chunks : list Chunk.t) :
  Shape.scheduled_weights old_chunks ->
  Shape.scheduled_weights new_chunks ->
  existsb Classifier.is_important
    (Classifier.collect_changed_chunks old_chunks new_chunks) = true
  <-> Spec.chunk_changed_at old_chunks new_chunks 0
      \/ Spec.chunk_changed_at old_chunks new_chunks 1.
Proof.
  intros Ho Hn. rewrite ClassifierFacts.has_important_change_spec. split.
  - intros (i & Hi & Hc & _).
    destruct i as [|[|i]]; [left; exact Hc|right; exact Hc|lia].
  - assert (Hw : forall i, (i <= 1)%nat ->
                   Spec.chunk_changed_at old_chunks new_chunks i ->
                   2.0 <= Spec.weight_at old_chunks new_chunks i).
    { intros i Hi. unfold Spec.chunk_changed_at, Spec.weight_at.
      destruct (nth_error old_chunks i) as [o|] eqn:Eo;
        destruct (nth_error new_chunks i) as [n|] eqn:En; intros Hc.
      - rewrite (Hn _ _ En). destruct i as [|[|i]]; [simpl; lra|simpl; lra|lia].
      - rewrite (Ho _ _ Eo). destruct i as [|[|i]]; [simpl; lra|simpl; lra|lia].
      - rewrite (Hn _ _ En). destruct i as [|[|i]]; [simpl; lra|simpl; lra|lia].
      - destruct Hc. }
    intros [Hc|Hc].
    + exists 0%nat. split; [lia|]. split; [exact Hc|]. apply Hw; [lia|exact Hc].
    + exists 1%nat. split; [lia|]. split; [exact Hc|]. apply Hw; [lia|exact Hc].
Qed.

Lemma weighted_parts_key (chunks : list Chunk.t) :
  flat_map weighted_parts chunks
  = flat_map
      (fun k : string * Q =>
         repeat (Py.lit (fst k)) (Z.to_nat (Qfloor (snd k))))
      (map (fun c => (Chunk.hash c, Chunk.weight c)) chunks).
Proof.
  induction chunks as [|c chunks IH]; [reflexivity|].
  cbn [flat_map map]. rewrite IH. reflexivity.
Qed.

Lemma unchanged_chunks_same_parts (old_chunks new_chunks : list Chunk.t) :
  Shape.scheduled_weights old_chunks ->
  Shape.scheduled_weights new_chunks ->
  Classifier.collect_changed_chunks old_chunks new_chunks = [] ->
  flat_map weighted_parts old_chunks = flat_map weighted_parts new_chunks.
Proof.
  intros Ho Hn Hnil.
  assert (Hno : forall i, ~ Spec.chunk_changed_at old_chunks new_chunks i).
  { intros i Hc.
    apply (proj2 (ClassifierFacts.collect_nonempty old_chunks new_chunks));
      [exists i; exact Hc|exact Hnil]. }
  rewrite !weighted_parts_key. f_equal. apply nth_error_ext. intros i.
  rewrite !nth_error_map. specialize (Hno i).
  unfold Spec.chunk_changed_at in Hno.
  destruct (nth_error old_chunks i) as [o|] eqn:Eo;
    destruct (nth_error new_chunks i) as [n|] eqn:En; cbn [option_map].
  - rewrite (Ho _ _ Eo), (Hn _ _ En).
    destruct (string_dec (Chunk.hash o) (Chunk.hash n)) as [->|Hd];
      [reflexivity|contradiction].
  - exfalso. apply Hno. exact I.
  - exfalso. apply Hno. exact I.
  - reflexivity.
Qed.

Section Verdicts.
Context {hashlib : Hashlib} {normalizer : Normalizer}.

Lemma engine_hash (js_content : Py.text) (chunk_size : nat) (h : HashInfo.t) :
  generate_position_aware_hash js_content chunk_size = Some h ->
  HashInfo.method h = position_aware_chunked ->
  HashInfo.hash h
  = Some (md5 (Py.concat (flat_map weighted_parts (HashInfo.chunk_details h)))).
Proof.
  unfold generate_position_aware_hash.
  destruct (length js_content <=? chunk_size)%nat.
  - intros E. inversion E. cbn [HashInfo.method]. discriminate.
  - destruct (Py.range_step _ _); [|discriminate].
    intros E. inversion E. reflexivity.
Qed.

(** X10.  Between two fingerprints of the engine, the first two chunks are the
    important ones: a chunk comparison reports an important change exactly
    when the chunk at position 0 or at position 1 changed, and its
    confidence is then 0.95; without one it lies between 0.85 and 0.95. *)
Theorem important_change_is_head_change
    (old_content new_content : Py.text) (old_size new_size : nat)
    (old_hash_info new_hash_info : HashInfo.t) (v : ChangeResult.t) :
  generate_position_aware_hash old_content old_size = Some old_hash_info ->
  generate_position_aware_hash new_content new_size = Some new_hash_info ->
  Classifier.compare_chunk_hashes old_hash_info new_hash_info = Some v ->
  (ChangeResult.get_has_important_change v = true
   <-> Spec.chunk_changed_at (HashInfo.chunk_details old_hash_info)
         (HashInfo.chunk_details new_hash_info) 0
       \/ Spec.chunk_changed_at (HashInfo.chunk_details old_hash_info)
            (HashInfo.chunk_details new_hash_info) 1)
  /\ (ChangeResult.get_has_important_change v = true ->
      ChangeResult.confidence v == 0.95)
  /\ (ChangeResult.get_has_important_change v = false ->
      ChangeResult.changed v = true ->
      0.85 <= ChangeResult.confidence v <= 0.95).
Proof.
  intros Ho Hn Hv.
  destruct (engine_chunks _ _ _ Ho) as [_ Hso].
  destruct (engine_chunks _ _ _ Hn) as [_ Hsn].
  pose proof (scheduled_important _ _ Hso Hsn) as Himp.
  destruct (VerdictFacts.chunk_result_Some _ _ _ Hv) as [Co Cn].
  destruct (VerdictFacts.nil_or_not
              (Classifier.collect_changed_chunks
                 (HashInfo.chunk_details old_hash_info)
                 (HashInfo.chunk_details new_hash_info))) as [E|E].
  - rewrite (VerdictFacts.chunk_result_unchanged _ _ Co Cn E) in Hv.
    inversion Hv; subst v.
    cbn [ChangeResult.get_has_important_change ChangeResult.evidence
         ChangeResult.changed].
    rewrite E in Himp. cbn [existsb] in Himp.
    split; [exact Himp|]. split; discriminate.
  - destruct (VerdictFacts.chunk_result_changed _ _ Co Cn E)
      as (c & r & Hc & Hr & Hconf).
    pose proof (VerdictFacts.chunk_result_bounds _ _ _
                  (VerdictFacts.weights_positive_nonnegative _
                     (FingerprintClaims.engine_weights_positive _ _ _ Ho))
                  (VerdictFacts.weights_positive_nonnegative _
                     (FingerprintClaims.engine_weights_positive _ _ _ Hn))
                  Hv) as [Hlo _].
    rewrite Hc in Hv. inversion Hv; subst v.
    cbn [ChangeResult.get_has_important_change ChangeResult.evidence
         ChunkEvidence.has_important_change ChangeResult.confidence
         ChangeResult.changed] in *.
    split; [exact Himp|]. split.
    + intros Hi. rewrite Hconf, Hi. rewrite PyFacts.min_Qmin.
      rewrite (Q.min_r 0.98 (0.85 + 0.10)) by lra. lra.
    + intros Hi _. split; [exact Hlo|].
      rewrite Hconf, Hi. apply PyFacts.min_le_l.
Qed.

(** X11.  Two chunked fingerprints of the engine whose chunks all agree have the
    same combined hash.  So the classifier decides a pair of chunked
    engine fingerprints without the similarity: its verdict is the same
    for every similarity it is handed, it is "unchanged" exactly when the
    combined hashes are equal, and its confidence is at least 0.85. *)
Theorem chunked_fingerprints_decided_without_similarity
    (old_content new_content : Py.text) (old_size new_size : nat)
    (old_hash_info new_hash_info : HashInfo.t) :
  generate_position_aware_hash old_content old_size = Some old_hash_info ->
  generate_position_aware_hash new_content new_size = Some new_hash_info ->
  Spec.chunked old_hash_info -> Spec.chunked new_hash_info ->
  (Classifier.collect_changed_chunks (HashInfo.chunk_details old_hash_info)
     (HashInfo.chunk_details new_hash_info) = [] ->
   HashInfo.hash old_hash_info = HashInfo.hash new_hash_info)
  /\ (forall cs : option Comparison.t,
        Classifier.calculate_change_confidence old_hash_info new_hash_info cs
        = Classifier.calculate_change_confidence old_hash_info new_hash_info
            None)
  /\ (ChangeResult.changed
        (Classifier.calculate_change_confidence old_hash_info new_hash_info
           None) = false
      <-> HashInfo.hash old_hash_info = HashInfo.hash new_hash_info)
  /\ 0.85 <= ChangeResult.confidence
               (Classifier.calculate_change_confidence old_hash_info
                  new_hash_info None).
Proof.
  intros Ho Hn Co Cn.
  destruct (engine_chunks _ _ _ Ho) as [_ Hso].
  destruct (engine_chunks _ _ _ Hn) as [_ Hsn].
  assert (Hsame : Classifier.collect_changed_chunks
                    (HashInfo.chunk_details old_hash_info)
                    (HashInfo.chunk_details new_hash_info) = [] ->
                  HashInfo.hash old_hash_info = HashInfo.hash new_hash_info).
  { intros E. rewrite (engine_hash _ _ _ Ho Co), (engine_hash _ _ _ Hn Cn).
    rewrite (unchanged_chunks_same_parts _ _ Hso Hsn E). reflexivity. }
  split; [exact Hsame|].
  destruct (Classifier.hash_eqb (HashInfo.hash old_hash_info)
              (HashInfo.hash new_hash_info)) eqn:Eh.
  { apply ClassifierFacts.hash_eqb_eq in Eh.
    assert (Ev : forall cs,
               Classifier.calculate_change_confidence old_hash_info
                 new_hash_info cs = ChangeResult.Make false 0.99 None)
      by (intros cs; apply ClassifierClaims.classify_equal_hash; exact Eh).
    split; [intros cs; rewrite !Ev; reflexivity|].
    rewrite Ev. cbn [ChangeResult.changed ChangeResult.confidence].
    split; [tauto|lra]. }
  assert (Hne : HashInfo.hash old_hash_info <> HashInfo.hash new_hash_info)
    by (apply ClassifierFacts.hash_eqb_neq; exact Eh).
  assert (E : Classifier.collect_changed_chunks
                (HashInfo.chunk_details old_hash_info)
                (HashInfo.chunk_details new_hash_info) <> [])
    by (intros E; apply Hne, Hsame, E).
  destruct (VerdictFacts.chunk_result_changed _ _ Co Cn E)
    as (c & r & Hc & _ & _).
  pose proof (VerdictFacts.chunk_result_bounds _ _ _
                (VerdictFacts.weights_positive_nonnegative _
                   (FingerprintClaims.engine_weights_positive _ _ _ Ho))
                (VerdictFacts.weights_positive_nonnegative _
                   (FingerprintClaims.engine_weights_positive _ _ _ Hn))
                Hc) as [Hlo _].
  cbn [ChangeResult.confidence] in Hlo.
  assert (Ev : forall cs,
             Classifier.calculate_change_confidence old_hash_info
               new_hash_info cs
             = ChangeResult.Make true c
                 (Some (ChunkEvidence.Make
                          (Classifier.collect_changed_chunks
                             (HashInfo.chunk_details old_hash_info)
                             (HashInfo.chunk_details new_hash_info))
                          r
                          (existsb Classifier.is_important
                             (Classifier.collect_changed_chunks
                                (HashInfo.chunk_details old_hash_info)
                                (HashInfo.chunk_details new_hash_info)))))).
  { intros cs. unfold Classifier.calculate_change_confidence.
    rewrite Eh, Hc. cbn [ChangeResult.changed ChangeResult.confidence andb].
    rewrite (proj2 (PyFacts.le_spec 0.85 c) Hlo). reflexivity. }
  split; [intros cs; rewrite !Ev; reflexivity|].
  rewrite Ev. cbn [ChangeResult.changed ChangeResult.confidence].
  split; [|exact Hlo]. split; [discriminate|]. intros H. contradiction.
Qed.

End Verdicts.

Lemma important_change_is_head_change_witness :
  (ChangeResult.get_has_important_change Fixtures.verdict_2001 = true
   <-> Spec.chunk_changed_at (HashInfo.chunk_details Fixtures.fingerprint_2001)
         (HashInfo.chunk_details Fixtures.fingerprint_2001_b) 0
       \/ Spec.chunk_changed_at
            (HashInfo.chunk_details Fixtures.fingerprint_2001)
            (HashInfo.chunk_details Fixtures.fingerprint_2001_b) 1)
  /\ (ChangeResult.get_has_important_change Fixtures.verdict_2001 = true ->
      ChangeResult.confidence Fixtures.verdict_2001 == 0.95)
  /\ (ChangeResult.get_has_important_change Fixtures.verdict_2001 = false ->
      ChangeResult.changed Fixtures.verdict_2001 = true ->
      0.85 <= ChangeResult.confidence Fixtures.verdict_2001 <= 0.95).
Proof.
  apply (@important_change_is_head_change Samples.prefix_hashlib
           Samples.identity_normalizer Samples.text2001 Fixtures.text2001_b
           chunk_size_default chunk_size_default
           Fixtures.fingerprint_2001 Fixtures.fingerprint_2001_b
           Fixtures.verdict_2001).
  - vm_compute. reflexivity.
  - vm_compute. reflexivity.
  - vm_compute. reflexivity.
Defined.

Lemma chunked_fingerprints_decided_without_similarity_witness :
  (Classifier.collect_changed_chunks
     (HashInfo.chunk_details Fixtures.fingerprint_2001)
     (HashInfo.chunk_details Fixtures.fingerprint_2001_b) = [] ->
   HashInfo.hash Fixtures.fingerprint_2001
   = HashInfo.hash Fixtures.fingerprint_2001_b)
  /\ (forall cs : option Comparison.t,
        Classifier.calculate_change_confidence Fixtures.fingerprint_2001
          Fixtures.fingerprint_2001_b cs
        = Classifier.calculate_change_confidence Fixtures.fingerprint_2001
            Fixtures.fingerprint_2001_b None)
  /\ (ChangeResult.changed
        (Classifier.calculate_change_confidence Fixtures.fingerprint_2001
           Fixtures.fingerprint_2001_b None) = false
      <-> HashInfo.hash Fixtures.fingerprint_2001
          = HashInfo.hash Fixtures.fingerprint_2001_b)
  /\ 0.85 <= ChangeResult.confidence
               (Classifier.calculate_change_confidence
                  Fixtures.fingerprint_2001 Fixtures.fingerprint_2001_b None).
Proof.
  apply (@chunked_fingerprints_decided_without_similarity
           Samples.prefix_hashlib Samples.identity_normalizer
           Samples.text2001 Fixtures.text2001_b
           chunk_size_default chunk_size_default
           Fixtures.fingerprint_2001 Fixtures.fingerprint_2001_b).
  - vm_compute. reflexivity.
  - vm_compute. reflexivity.
  - reflexivity.
  - reflexivity.
Defined.

Section Whole.
Context {hashlib : Hashlib} {normalizer : Normalizer}.

Lemma covered_nonempty (chunks : list Chunk.t) (p : nat) :
  Shape.covered chunks p -> chunks <> [].
Proof. intros (c & Hc & _) E. rewrite E in Hc. destruct Hc. Qed.

Lemma position_aware_shape (js_content : Py.text) :
  exists h,
    generate_position_aware_hash js_content chunk_size_default = Some h
    /\ HashInfo.hash h <> None
    /\ ((HashInfo.method h = simple_content
         /\ HashInfo.confidence h = 0.9
         /\ HashInfo.chunk_details h = []
         /\ (length js_content <= 2000)%nat)
        \/ (HashInfo.method h = position_aware_chunked
            /\ HashInfo.confidence h = 0.92
            /\ HashInfo.chunk_details h <> []
            /\ (2000 < length js_content)%nat)).
Proof.
  destruct (Nat.le_gt_cases (length js_content) chunk_size_default) as [H|H].
  - unfold generate_position_aware_hash.
    rewrite (proj2 (Nat.leb_le _ _) H). eexists. split; [reflexivity|].
    split; [discriminate|]. left. auto.
  - destruct (chunked_cover js_content chunk_size_default)
      as (h & Hh & Hm & Hc & Hx & Hp).
    + unfold chunk_size_default. lia.
    + exact H.
    + exists h. split; [exact Hh|]. split; [exact Hx|]. right.
      split; [exact Hm|]. split; [exact Hc|]. split; [|exact H].
      apply (covered_nonempty _ 0%nat), Hp.
      unfold chunk_size_default in H. lia.
Qed.

(** X12.  What the engine returns on every text: a fingerprint with a hash, of
    one of three kinds.  Method ['ast'] has confidence 0.95 and no chunks
    and is used up to 10000 characters only; ['simple_content'] has
    confidence 0.9 and no chunks, up to 2000 characters; the chunked
    method has confidence 0.92 and at least one chunk, above 2000
    characters.  The confidence lies between 0 and 1, the chunk weights are
    positive, and the legacy [generate_ast_hash] returns the hash of this
    fingerprint. *)
Theorem engine_fingerprint_shape {esprima : Esprima} (js_content : Py.text) :
  exists h,
    generate_enhanced_ast_hash js_content = Some h
    /\ HashInfo.hash h <> None
    /\ ((HashInfo.method h = ast
         /\ HashInfo.confidence h = 0.95
         /\ HashInfo.chunk_details h = []
         /\ (length js_content <= 10000)%nat)
        \/ (HashInfo.method h = simple_content
            /\ HashInfo.confidence h = 0.9
            /\ HashInfo.chunk_details h = []
            /\ (length js_content <= 2000)%nat)
        \/ (HashInfo.method h = position_aware_chunked
            /\ HashInfo.confidence h = 0.92
            /\ HashInfo.chunk_details h <> []
            /\ (2000 < length js_content)%nat))
    /\ 0 <= HashInfo.confidence h <= 1
    /\ Spec.weights_positive h
    /\ Legacy.generate_ast_hash js_content = Some (HashInfo.hash h).
Proof.
  assert (Hpa : forall h,
            generate_position_aware_hash js_content chunk_size_default
            = Some h ->
            generate_enhanced_ast_hash js_content = Some h ->
            generate_enhanced_ast_hash js_content = Some h
            /\ HashInfo.hash h <> None
            /\ ((HashInfo.method h = ast
                 /\ HashInfo.confidence h = 0.95
                 /\ HashInfo.chunk_details h = []
                 /\ (length js_content <= 10000)%nat)
                \/ (HashInfo.method h = simple_content
                    /\ HashInfo.confidence h = 0.9
                    /\ HashInfo.chunk_details h = []
                    /\ (length js_content <= 2000)%nat)
                \/ (HashInfo.method h = position_aware_chunked
                    /\ HashInfo.confidence h = 0.92
                    /\ HashInfo.chunk_details h <> []
                    /\ (2000 < length js_content)%nat))
            /\ 0 <= HashInfo.confidence h <= 1
            /\ Spec.weights_positive h
            /\ Legacy.generate_ast_hash js_content = Some (HashInfo.hash h)).
  { intros h Hh He.
    destruct (position_aware_shape js_content) as (h' & Hh' & Hx & Hs).
    rewrite Hh in Hh'. inversion Hh'; subst h'.
    split; [exact He|]. split; [exact Hx|]. split; [tauto|]. split.
    - destruct Hs as [(_ & -> & _)|(_ & -> & _)]; lra.
    - split; [exact (FingerprintClaims.engine_weights_positive _ _ _ Hh)|].
      unfold Legacy.generate_ast_hash. rewrite He. reflexivity. }
  destruct (position_aware_shape js_content) as (h & Hh & _).
  unfold generate_enhanced_ast_hash in *.
  destruct (10000 <? length js_content)%nat eqn:E.
  - exists h. apply Hpa; exact Hh.
  - apply Nat.ltb_ge in E.
    destruct (ast_json (normalize_javascript_content js_content))
      as [ast_json_text|] eqn:Ea.
    + eexists. split; [reflexivity|]. split; [discriminate|].
      cbn [HashInfo.method HashInfo.confidence HashInfo.chunk_details
           HashInfo.hash].
      split; [left; auto|]. split; [lra|]. split; [constructor|].
      unfold Legacy.generate_ast_hash, generate_enhanced_ast_hash.
      rewrite (proj2 (Nat.ltb_ge _ _) E), Ea. reflexivity.
    + exists h. apply Hpa; exact Hh.
Qed.

(** X13.  A text of more than 10000 characters is never parsed: its fingerprint
    is the same whatever the parser would answer, it is a chunked one, and
    every position of the text lies in one of its chunks. *)
Theorem large_text_fingerprinted_in_chunks (esprima1 esprima2 : Esprima)
    (js_content : Py.text) :
  (10000 < length js_content)%nat ->
  @generate_enhanced_ast_hash hashlib normalizer esprima1 js_content
  = @generate_enhanced_ast_hash hashlib normalizer esprima2 js_content
  /\ exists h,
       @generate_enhanced_ast_hash hashlib normalizer esprima1 js_content
       = Some h
       /\ HashInfo.method h = position_aware_chunked
       /\ forall p, (p < length js_content)%nat ->
                    Shape.covered (HashInfo.chunk_details h) p.
Proof.
  intros Hlen. unfold generate_enhanced_ast_hash.
  rewrite (proj2 (Nat.ltb_lt _ _) Hlen). split; [reflexivity|].
  destruct (chunked_cover js_content chunk_size_default)
    as (h & Hh & Hm & _ & _ & Hp).
  - unfold chunk_size_default. lia.
  - apply Nat.lt_trans with (m := 10000%nat); [|exact Hlen].
    apply Nat.ltb_lt. vm_compute. reflexivity.
  - exists h. auto.
Qed.

End Whole.

Lemma large_text_fingerprinted_in_chunks_witness :
  @generate_enhanced_ast_hash Samples.prefix_hashlib
    Samples.identity_normalizer Samples.accepting_esprima Fixtures.text10001
  = @generate_enhanced_ast_hash Samples.prefix_hashlib
      Samples.identity_normalizer Fixtures.rejecting_esprima
      Fixtures.text10001
  /\ exists h,
       @generate_enhanced_ast_hash Samples.prefix_hashlib
         Samples.identity_normalizer Samples.accepting_esprima
         Fixtures.text10001 = Some h
       /\ HashInfo.method h = position_aware_chunked
       /\ forall p, (p < length Fixtures.text10001)%nat ->
                    Shape.covered (HashInfo.chunk_details h) p.
Proof.
  apply (@large_text_fingerprinted_in_chunks Samples.prefix_hashlib
           Samples.identity_normalizer Samples.accepting_esprima
           Fixtures.rejecting_esprima Fixtures.text10001).
  vm_compute. lia.
Defined.

End EngineInvariants.

Module EscalationGate.
Import Classifier ClassifierFacts VerdictFacts Fingerprint EngineInvariants.
Local Open Scope Q_scope.

Section Gate.
Context {hashlib : Hashlib} {normalizer : Normalizer} {esprima : Esprima}
        {difflib : Difflib}.





End Gate.


(** The chunk verdict on the two sample fingerprints: a change of
    confidence 0.95, which the helper with the thresholds 0.75 and 0.70
    sends to no further verification. *)
Example engine_pair_verdict :
  compare_chunk_hashes Fixtures.fingerprint_2001 Fixtures.fingerprint_2001_b
  = Some Fixtures.verdict_2001
  /\ ChangeResult.changed Fixtures.verdict_2001 = true
  /\ should_do_additional_verification Fixtures.verdict_2001 = false.
Proof. repeat split; vm_compute; reflexivity. Qed.

End EscalationGate.

(* ================================================================== *)
(** * Further properties of the diff renderer                           *)
(* ================================================================== *)

Module DiffInvariants.
Import Diff.

Lemma join_cons (sep p : Py.text) (parts : list Py.text) :
  parts <> [] -> Py.join sep (p :: parts) = p ++ sep ++ Py.join sep parts.
Proof. destruct parts; [congruence|reflexivity]. Qed.

Lemma join_app (sep : Py.text) (a b : list Py.text) :
  a <> [] -> b <> [] ->
  Py.join sep (a ++ b) = Py.join sep a ++ sep ++ Py.join sep b.
Proof.
  intros Ha Hb. induction a as [|p a IH]; [congruence|].
  destruct a as [|q a].
  - cbn [app]. rewrite join_cons by exact Hb. reflexivity.
  - change ((p :: q :: a) ++ b) with (p :: ((q :: a) ++ b)).
    rewrite join_cons by discriminate.
    rewrite IH by discriminate.
    rewrite (join_cons sep p (q :: a)) by discriminate.
    rewrite <- !app_assoc. reflexivity.
Qed.

Lemma split_from_nonempty (cur s : Py.text) : Py.split_from cur s <> [].
Proof.
  revert cur. induction s as [|c s IH]; intros cur; cbn [Py.split_from].
  - discriminate.
  - destruct (Ascii.eqb c Py.LF); [discriminate|apply IH].
Qed.

Lemma join_split_from (cur s : Py.text) :
  Py.join [Py.LF] (Py.split_from cur s) = rev cur ++ s.
Proof.
  revert cur. induction s as [|c s IH]; intros cur; cbn [Py.split_from].
  - cbn [Py.join]. rewrite app_nil_r. reflexivity.
  - destruct (Ascii.eqb c Py.LF) eqn:E.
    + apply Ascii.eqb_eq in E. subst c.
      rewrite join_cons by apply split_from_nonempty.
      rewrite IH. reflexivity.
    + rewrite IH. cbn [rev]. rewrite <- app_assoc. reflexivity.
Qed.

Lemma split_from_no_linefeed (cur s : Py.text) :
  ~ In Py.LF cur ->
  Forall (fun line => ~ In Py.LF line) (Py.split_from cur s).
Proof.
  revert cur. induction s as [|c s IH]; intros cur Hc; cbn [Py.split_from].
  - constructor; [|constructor]. rewrite <- in_rev. exact Hc.
  - destruct (Ascii.eqb c Py.LF) eqn:E.
    + constructor; [rewrite <- in_rev; exact Hc|]. apply IH. intros [].
    + apply IH. intros [H|H]; [|exact (Hc H)].
      subst c. rewrite Ascii.eqb_refl in E. discriminate.
Qed.

(** The chunks an accumulator of the loop stands for: those closed, and
    the open one if it holds a line. *)
Lemma join_two_groups (chunks : list Py.text) (a b : list Py.text) :
  a <> [] -> b <> [] ->
  Py.join [Py.LF] ((chunks ++ [Py.join [Py.LF] a]) ++ [Py.join [Py.LF] b])
  = Py.join [Py.LF] (chunks ++ [Py.join [Py.LF] (a ++ b)]).
Proof.
  intros Ha Hb.
  assert (Hs : forall p, Py.join [Py.LF] [p] = p) by reflexivity.
  destruct chunks as [|c chunks].
  - cbn [app]. rewrite join_cons by discriminate. rewrite !Hs.
    rewrite join_app by assumption. reflexivity.
  - rewrite (join_app _ ((c :: chunks) ++ [Py.join [Py.LF] a]));
      [|destruct chunks; discriminate|discriminate].
    rewrite !(join_app _ (c :: chunks)); try discriminate.
    rewrite !Hs. rewrite (join_app _ a b) by assumption.
    rewrite <- !app_assoc. reflexivity.
Qed.

Lemma chunk_steps_text (max_chunk_size : nat) (lines : list Py.text)
    (chunks current_chunk : list Py.text) (current_size : nat) :
  forall chunks' current_chunk' current_size',
    fold_left (chunk_step max_chunk_size) lines
      (chunks, current_chunk, current_size)
    = (chunks', current_chunk', current_size') ->
    Py.join [Py.LF]
      (if Py.truthy current_chunk'
       then chunks' ++ [Py.join [Py.LF] current_chunk']
       else chunks')
    = Py.join [Py.LF]
        (if Py.truthy (current_chunk ++ lines)
         then chunks ++ [Py.join [Py.LF] (current_chunk ++ lines)]
         else chunks).
Proof.
  revert chunks current_chunk current_size.
  induction lines as [|line lines IH];
    intros chunks current_chunk current_size chunks' current_chunk'
      current_size' E.
  - cbn [fold_left] in E. inversion E; subst. rewrite app_nil_r. reflexivity.
  - cbn [fold_left] in E. unfold chunk_step at 2 in E.
    destruct ((max_chunk_size <? current_size + (length line + 1))
              && Py.truthy current_chunk) eqn:Ec.
    + apply andb_prop in Ec. destruct Ec as [_ Ht].
      rewrite (IH _ _ _ _ _ _ E).
      assert (Hne : current_chunk <> [])
        by (intros ->; discriminate Ht).
      replace (Py.truthy ([line] ++ lines)) with true by reflexivity.
      replace (Py.truthy (current_chunk ++ line :: lines)) with true
        by (destruct current_chunk; [congruence|reflexivity]).
      apply join_two_groups; [exact Hne|discriminate].
    + rewrite (IH _ _ _ _ _ _ E). rewrite <- app_assoc. reflexivity.
Qed.

(** X14.  Cutting a text into chunks loses nothing: the chunks, joined by line
    feeds, are the text again, and there is always at least one chunk. *)
Theorem chunks_join_to_content (content : Py.text) (max_chunk_size : nat) :
  Py.join [Py.LF] (chunk_large_content content max_chunk_size) = content
  /\ chunk_large_content content max_chunk_size <> [].
Proof.
  assert (Hj : Py.join [Py.LF] (chunk_large_content content max_chunk_size)
               = content).
  { unfold chunk_large_content.
    destruct (length content <=? max_chunk_size); [reflexivity|].
    destruct (fold_left (chunk_step max_chunk_size) (Py.split_lf content)
                ([], [], 0)) as [[chunks' current_chunk'] current_size']
      eqn:E.
    rewrite (chunk_steps_text _ _ _ _ _ _ _ _ E). cbn [app].
    unfold Py.split_lf.
    pose proof (split_from_nonempty [] content) as Hne.
    destruct (Py.split_from [] content) as [|l ls] eqn:Es; [congruence|].
    cbn [Py.truthy]. rewrite <- Es.
    change (Py.join [Py.LF] [Py.join [Py.LF] (Py.split_from [] content)])
      with (Py.join [Py.LF] (Py.split_from [] content)).
    rewrite join_split_from. reflexivity. }
  split; [exact Hj|].
  intros Hnil. unfold chunk_large_content in Hj, Hnil.
  destruct (length content <=? max_chunk_size) eqn:El; [discriminate|].
  apply Nat.leb_gt in El. rewrite Hnil in Hj. cbn [Py.join] in Hj.
  subst content. cbn [length] in El. lia.
Qed.

Lemma lines_size_join (lines : list Py.text) :
  lines <> [] ->
  length (Py.join [Py.LF] lines) + 1 = Shape.lines_size lines.
Proof.
  induction lines as [|l lines IH]; [congruence|]. intros _.
  destruct lines as [|m lines].
  - cbn. lia.
  - rewrite join_cons by discriminate. rewrite !length_app.
    specialize (IH ltac:(discriminate)).
    unfold Shape.lines_size in *. cbn [fold_right length] in *. lia.
Qed.

Lemma lines_size_app (a b : list Py.text) :
  Shape.lines_size (a ++ b) = Shape.lines_size a + Shape.lines_size b.
Proof.
  induction a as [|l a IH]; [reflexivity|].
  unfold Shape.lines_size in *. cbn [app fold_right]. lia.
Qed.

Lemma closed_chunk_within_limit (max_chunk_size : nat)
    (current_chunk : list Py.text) :
  current_chunk <> [] ->
  Forall (fun line => ~ In Py.LF line) current_chunk ->
  (Shape.lines_size current_chunk <= max_chunk_size
   \/ length current_chunk <= 1) ->
  Shape.within_limit max_chunk_size (Py.join [Py.LF] current_chunk).
Proof.
  intros Hne Hlf [Hs|Hl].
  - left. pose proof (lines_size_join _ Hne). lia.
  - right. destruct current_chunk as [|l [|m rest]];
      [congruence| |cbn [length] in Hl; lia].
    cbn [Py.join]. inversion Hlf; assumption.
Qed.

Lemma chunk_steps_limit (max_chunk_size : nat) (lines : list Py.text) :
  forall (chunks current_chunk : list Py.text) (current_size : nat)
         chunks' current_chunk' current_size',
    Forall (fun line => ~ In Py.LF line) lines ->
    Forall (fun line => ~ In Py.LF line) current_chunk ->
    current_size = Shape.lines_size current_chunk ->
    (current_size <= max_chunk_size \/ length current_chunk <= 1) ->
    Forall (Shape.within_limit max_chunk_size) chunks ->
    fold_left (chunk_step max_chunk_size) lines
      (chunks, current_chunk, current_size)
    = (chunks', current_chunk', current_size') ->
    Forall (fun line => ~ In Py.LF line) current_chunk'
    /\ (Shape.lines_size current_chunk' <= max_chunk_size
        \/ length current_chunk' <= 1)
    /\ Forall (Shape.within_limit max_chunk_size) chunks'.
Proof.
  induction lines as [|line lines IH];
    intros chunks current_chunk current_size chunks' current_chunk'
      current_size' Hl Hc Hs Hb Hk E.
  - cbn [fold_left] in E. inversion E; subst. auto.
  - inversion Hl as [|? ? Hline Hlines]; subst.
    cbn [fold_left] in E. unfold chunk_step at 2 in E.
    destruct ((max_chunk_size
               <? Shape.lines_size current_chunk + (length line + 1))
              && Py.truthy current_chunk) eqn:Ec.
    + apply andb_prop in Ec. destruct Ec as [_ Ht].
      assert (Hne : current_chunk <> []) by (intros ->; discriminate Ht).
      apply (IH _ _ _ _ _ _ Hlines) in E; [exact E| | | |].
      * constructor; [exact Hline|constructor].
      * cbn. lia.
      * right. cbn. lia.
      * apply Forall_app. split; [exact Hk|]. constructor; [|constructor].
        apply closed_chunk_within_limit; assumption.
    + apply (IH _ _ _ _ _ _ Hlines) in E; [exact E| | | |exact Hk].
      * apply Forall_app. split; [exact Hc|].
        constructor; [exact Hline|constructor].
      * rewrite lines_size_app. cbn. lia.
      * apply andb_false_iff in Ec. destruct Ec as [Ec|Ec].
        -- apply Nat.ltb_ge in Ec. left. lia.
        -- right. destruct current_chunk; [cbn; lia|discriminate Ec].
Qed.

(** X15.  No chunk exceeds the limit, unless it is a single line that is longer
    than the limit by itself. *)
Theorem chunks_within_limit (content : Py.text) (max_chunk_size : nat) :
  Forall (Shape.within_limit max_chunk_size)
    (chunk_large_content content max_chunk_size).
Proof.
  unfold chunk_large_content.
  destruct (length content <=? max_chunk_size) eqn:El.
  { apply Nat.leb_le in El. constructor; [left; exact El|constructor]. }
  destruct (fold_left (chunk_step max_chunk_size) (Py.split_lf content)
              ([], [], 0)) as [[chunks' current_chunk'] current_size'] eqn:E.
  apply chunk_steps_limit in E.
  - destruct E as (Hlf & Hb & Hk).
    destruct current_chunk' as [|l ls]; [exact Hk|]. cbn [Py.truthy].
    apply Forall_app. split; [exact Hk|]. constructor; [|constructor].
    apply closed_chunk_within_limit; [discriminate|exact Hlf|exact Hb].
  - apply split_from_no_linefeed. intros [].
  - constructor.
  - reflexivity.
  - left. lia.
  - constructor.
Qed.

(** Three lines of 10, 10 and 8 characters under a limit of 12: one chunk
    for each line. *)
Example three_lines_three_chunks :
  chunk_large_content Fixtures.three_lines 12
  = [Py.lit "var a = 1;"; Py.lit "var b = 2;"; Py.lit "f(a, b);"].
Proof. vm_compute. reflexivity. Qed.

End DiffInvariants.

(* ================================================================== *)
(** * Further properties of the version store                           *)
(* ================================================================== *)

Module StorageInvariants.
Import ContentStorage StorageFacts.

(** X16.  The content the cycle diffs against: when the directory of a
    source holds the snapshots stored for it at ascending time stamps, in
    whatever order the directory lists them, [get_previous_content]
    returns the content of the last but one.  With a single snapshot, or
    without a directory for the source, it returns nothing.  The
    directory after the snapshots were stored one after the other is such
    a directory. *)
Theorem previous_content_is_last_but_one (url_id : nat) :
  get_previous_content empty url_id = None
  /\ (forall (st : storage) (a : Spec.snapshot),
        Spec.holds st url_id [a] -> get_previous_content st url_id = None)
  /\ (forall (st : storage) (history : list Spec.snapshot)
             (a b : Spec.snapshot),
        Spec.timestamps_ascending (history ++ [a; b]) ->
        Spec.holds st url_id (history ++ [a; b]) ->
        get_previous_content st url_id = Some (snd a))
  /\ (forall history : list Spec.snapshot,
        history <> [] ->
        Spec.timestamps_ascending history ->
        Spec.holds (Spec.store_all empty url_id history) url_id history).
Proof.
  split; [reflexivity|]. split; [|split].
  - intros st a [d [Hd Hp]]. apply Permutation_sym in Hp.
    apply Permutation_length_1_inv in Hp. subst d.
    unfold get_previous_content. rewrite Hd. reflexivity.
  - intros st history a b Hasc [d [Hd Hp]].
    pose proof (ascending_names_descending _ Hasc) as Hdesc.
    pose proof (holds_names _ _ Hp) as Hnames.
    pose proof (sorted_reverse_any_order _ _
                  (Permutation_trans Hnames (Permutation_rev _)) Hdesc) as Hs.
    unfold get_previous_content. rewrite Hd. cbv zeta. rewrite Hs.
    rewrite map_app, rev_app_distr.
    cbn [map rev app length Nat.ltb Nat.leb nth_error].
    apply (read_file_In (Spec.snapshot_file a)).
    + apply (Permutation_NoDup (Permutation_sym
               (Permutation_trans Hnames (Permutation_rev _)))).
      apply descending_NoDup. exact Hdesc.
    + apply (Permutation_in _ (Permutation_sym Hp)).
      rewrite map_app. apply in_or_app. right. left. reflexivity.
  - intros history Hne Hasc. apply store_all_holds; assumption.
Qed.

Lemma previous_content_is_last_but_one_witness :
  get_previous_content Samples.unordered_store 1 = Some (Py.lit "v6").
Proof.
  apply (proj1 (proj2 (proj2 (previous_content_is_last_but_one 1)))
           Samples.unordered_store
           (firstn 5 Samples.history7)
           ("20260105000000000000"%string, "h6"%string, Py.lit "v6")
           ("20260106000000000000"%string, "h7"%string, Py.lit "v7")).
  - repeat constructor.
  - exact unordered_store_holds.
Defined.

Lemma filter_perm {A} (f : A -> bool) (l l' : list A) :
  Permutation l l' -> Permutation (filter f l) (filter f l').
Proof.
  induction 1 as [|x l l' _ IH|x y l|l l' l'' _ IH1 _ IH2]; cbn [filter].
  - constructor.
  - destruct (f x); [constructor|]; exact IH.
  - destruct (f x), (f y); try apply Permutation_refl.
    apply perm_swap.
  - exact (Permutation_trans IH1 IH2).
Qed.

Lemma filter_all {A} (l : list A) : filter (fun _ => true) l = l.
Proof. induction l as [|x l IH]; [reflexivity|]. cbn. rewrite IH. reflexivity. Qed.

Lemma filter_out_own (names : list string) :
  filter (fun n => negb (existsb (String.eqb n) names)) names = [].
Proof.
  assert (H : forall l, incl l names ->
            filter (fun n => negb (existsb (String.eqb n) names)) l = []).
  { induction l as [|x l IH]; intros Hi; [reflexivity|]. cbn [filter].
    rewrite (proj2 (existsb_eqb_In x names)) by (apply Hi; left; reflexivity).
    cbn [negb]. apply IH. intros y Hy. apply Hi. right. exact Hy. }
  apply H. apply incl_refl.
Qed.

Lemma pruned_length (names : list string) (versions_to_keep : nat) :
  length
    (filter
       (fun n =>
          negb (existsb (String.eqb n)
                  (skipn versions_to_keep (sorted_reverse names))))
       names)
  <= versions_to_keep.
Proof.
  rewrite <- (Permutation_length
                (filter_perm _ _ _ (sorted_reverse_perm names))).
  pose proof (filter_out_own
                (skipn versions_to_keep (sorted_reverse names))) as Hown.
  set (kept := fun n : string =>
                 negb (existsb (String.eqb n)
                         (skipn versions_to_keep (sorted_reverse names))))
    in *.
  rewrite <- (firstn_skipn versions_to_keep (sorted_reverse names)).
  rewrite filter_app, Hown, app_nil_r.
  apply Nat.le_trans
    with (m := length (firstn versions_to_keep (sorted_reverse names))).
  - apply filter_length_le.
  - apply firstn_le_length.
Qed.

Lemma clean_old_versions_noop (st : storage) (url_id versions_to_keep : nat)
    (removable : string -> bool) :
  length (Spec.names_of st url_id) <= versions_to_keep ->
  clean_old_versions st url_id versions_to_keep removable = (0, st).
Proof.
  unfold Spec.names_of, clean_old_versions.
  destruct (st url_id) as [d|]; [|reflexivity]. intros H.
  rewrite (Permutation_length (sorted_reverse_perm (listdir d))).
  rewrite (proj2 (Nat.ltb_ge _ _) H). reflexivity.
Qed.

Lemma clean_old_versions_bound (st : storage) (url_id versions_to_keep : nat) :
  length
    (Spec.names_of
       (snd (clean_old_versions st url_id versions_to_keep (fun _ => true)))
       url_id)
  <= versions_to_keep.
Proof.
  destruct (Nat.le_gt_cases (length (Spec.names_of st url_id))
              versions_to_keep) as [H|H].
  - rewrite clean_old_versions_noop by exact H. exact H.
  - unfold Spec.names_of in H |- *.
    destruct (st url_id) as [d|] eqn:Ed; [|cbn in H; lia].
    unfold listdir in H. rewrite length_map in H.
    rewrite (clean_old_versions_directory st url_id d _ _ Ed H).
    cbn [snd]. unfold set_dir. rewrite Nat.eqb_refl.
    rewrite filter_all, listdir_filter. apply pruned_length.
Qed.

Lemma clean_old_versions_others (st : storage) (url_id versions_to_keep : nat)
    (removable : string -> bool) (u : nat) :
  u <> url_id ->
  snd (clean_old_versions st url_id versions_to_keep removable) u = st u.
Proof.
  intros Hu. unfold clean_old_versions.
  destruct (st url_id) as [d|]; [|reflexivity].
  destruct (_ <? _); [|reflexivity].
  destruct (fold_left _ _ _) as [deleted_count d']. cbn [snd].
  unfold set_dir. rewrite (proj2 (Nat.eqb_neq _ _) Hu). reflexivity.
Qed.

(** X17.  Pruning with every removal succeeding leaves at most
    [versions_to_keep] snapshots of the source, leaves every other source
    as it was, and is idempotent: pruning again deletes nothing and
    changes nothing. *)
Theorem prune_bounds_and_is_idempotent (st : storage)
    (url_id versions_to_keep : nat) :
  length
    (Spec.names_of
       (snd (clean_old_versions st url_id versions_to_keep (fun _ => true)))
       url_id)
  <= versions_to_keep
  /\ (forall u, u <> url_id ->
        snd (clean_old_versions st url_id versions_to_keep (fun _ => true)) u
        = st u)
  /\ (forall removable,
        clean_old_versions
          (snd (clean_old_versions st url_id versions_to_keep (fun _ => true)))
          url_id versions_to_keep removable
        = (0,
           snd (clean_old_versions st url_id versions_to_keep
                  (fun _ => true)))).
Proof.
  split; [apply clean_old_versions_bound|]. split.
  - intros u Hu. apply clean_old_versions_others. exact Hu.
  - intros removable. apply clean_old_versions_noop.
    apply clean_old_versions_bound.
Qed.

Lemma clean_fold_bound (versions_to_keep : nat) (url_ids : list nat) :
  forall (st : storage) (total : nat) (u : nat),
    In u url_ids \/ length (Spec.names_of st u) <= versions_to_keep ->
    length
      (Spec.names_of
         (snd (fold_left
                 (StorageCleanup.clean_url versions_to_keep
                    (fun _ _ => true))
                 url_ids (total, st))) u)
    <= versions_to_keep.
Proof.
  induction url_ids as [|a url_ids IH]; intros st total u H.
  - destruct H as [[]|H]. exact H.
  - cbn [fold_left]. unfold StorageCleanup.clean_url at 2.
    destruct (clean_old_versions st a versions_to_keep (fun _ => true))
      as [deleted_versions st1] eqn:E.
    assert (E1 : st1 = snd (clean_old_versions st a versions_to_keep
                              (fun _ => true))) by (rewrite E; reflexivity).
    apply IH. destruct (Nat.eq_dec u a) as [->|Hne].
    + right. rewrite E1. apply clean_old_versions_bound.
    + destruct H as [[H|H]|H]; [congruence|left; exact H|].
      right. unfold Spec.names_of in *. rewrite E1.
      rewrite clean_old_versions_others by exact Hne. exact H.
Qed.

Lemma clean_fold_others (versions_to_keep : nat)
    (removable : nat -> string -> bool) (url_ids : list nat) :
  forall (st : storage) (total : nat) (u : nat),
    ~ In u url_ids ->
    snd (fold_left (StorageCleanup.clean_url versions_to_keep removable)
           url_ids (total, st)) u
    = st u.
Proof.
  induction url_ids as [|a url_ids IH]; intros st total u H; [reflexivity|].
  cbn [fold_left]. unfold StorageCleanup.clean_url at 2.
  destruct (clean_old_versions st a versions_to_keep (removable a))
    as [deleted_versions st1] eqn:E.
  rewrite IH by (intros Hin; apply H; right; exact Hin).
  replace st1
    with (snd (clean_old_versions st a versions_to_keep (removable a)))
    by (rewrite E; reflexivity).
  apply clean_old_versions_others. intros ->. apply H. left. reflexivity.
Qed.

Lemma clean_fold_noop (versions_to_keep : nat)
    (removable : nat -> string -> bool) (url_ids : list nat) :
  forall (st : storage) (total : nat),
    (forall u, In u url_ids ->
               length (Spec.names_of st u) <= versions_to_keep) ->
    fold_left (StorageCleanup.clean_url versions_to_keep removable)
      url_ids (total, st)
    = (total, st).
Proof.
  induction url_ids as [|a url_ids IH]; intros st total H; [reflexivity|].
  cbn [fold_left]. unfold StorageCleanup.clean_url at 2.
  rewrite clean_old_versions_noop by (apply H; left; reflexivity).
  rewrite Nat.add_0_r. apply IH. intros u Hu. apply H. right. exact Hu.
Qed.

(** X18.  The cleanup service, with every removal succeeding: afterwards each
    source it was run for holds at most [versions_to_keep] snapshots, the
    other sources are as they were, and a second run deletes nothing and
    changes nothing. *)
Theorem cleanup_bounds_every_source (st : storage) (url_ids : list nat)
    (versions_to_keep : nat) :
  (forall u, In u url_ids ->
     length
       (Spec.names_of
          (snd (StorageCleanup.clean_old_content_versions st url_ids
                  versions_to_keep (fun _ _ => true))) u)
     <= versions_to_keep)
  /\ (forall u, ~ In u url_ids ->
        snd (StorageCleanup.clean_old_content_versions st url_ids
               versions_to_keep (fun _ _ => true)) u
        = st u)
  /\ (forall removable,
        StorageCleanup.clean_old_content_versions
          (snd (StorageCleanup.clean_old_content_versions st url_ids
                  versions_to_keep (fun _ _ => true)))
          url_ids versions_to_keep removable
        = (0,
           snd (StorageCleanup.clean_old_content_versions st url_ids
                  versions_to_keep (fun _ _ => true)))).
Proof.
  unfold StorageCleanup.clean_old_content_versions. split; [|split].
  - intros u Hu. apply clean_fold_bound. left. exact Hu.
  - intros u Hu. apply clean_fold_others. exact Hu.
  - intros removable. apply clean_fold_noop.
    intros u Hu. apply clean_fold_bound. left. exact Hu.
Qed.

(** A run of the cleanup service on the seven snapshots of source 1 and
    on a source without snapshots. *)
Example cleanup_of_two_sources :
  fst (StorageCleanup.clean_old_content_versions
         (Spec.store_all empty 1 Samples.history7) [1; 2] 5
         (fun _ _ => true)) = 2
  /\ length
       (Spec.names_of
          (snd (StorageCleanup.clean_old_content_versions
                  (Spec.store_all empty 1 Samples.history7) [1; 2] 5
                  (fun _ _ => true))) 1) = 5.
Proof. split; vm_compute; reflexivity. Qed.

End StorageInvariants.

(* ================================================================== *)
(** * Further properties of the monitoring cycle                        *)
(* ================================================================== *)

Module MonitorInvariants.
Import Monitor.
Local Open Scope Q_scope.

Section Cycle.
Context {hashlib : Hashlib} {normalizer : Normalizer} {esprima : Esprima}
        {difflib : Difflib} {template : PageTemplate} {world : World}.

(** What [record_change] yields: a failure that leaves the row alone, or
    a success that updates it; in both cases the content was stored. *)
Lemma record_change_outcomes (monitored_url : MonitoredUrl)
    (st : ContentStorage.storage) (content : Py.text) (obfuscation_score : Q)
    (old_hash_info current_hash_info : HashInfo.t)
    (change_result : option ChangeResult.t) :
  Shape.store_of
    (record_change monitored_url st content obfuscation_score old_hash_info
       current_hash_info change_result)
  = snd (ContentStorage.store_content st (id monitored_url) utcnow_timestamp
           content (hash_text (HashInfo.hash current_hash_info)))
  /\ ((Shape.result_of
         (record_change monitored_url st content obfuscation_score
            old_hash_info current_hash_info change_result)
       = failure ErrorMonitoring
       /\ Shape.row_of
            (record_change monitored_url st content obfuscation_score
               old_hash_info current_hash_info change_result)
          = monitored_url
       /\ Shape.notifications_sent
            (record_change monitored_url st content obfuscation_score
               old_hash_info current_hash_info change_result) = [])
      \/ (exists m c,
            Shape.result_of
              (record_change monitored_url st content obfuscation_score
                 old_hash_info current_hash_info change_result)
            = Result true m (Shape.changed_of m) (Some c)
                (Some (HashInfo.method current_hash_info))
            /\ (forall c', m <> NoChangesDetected c')
            /\ m <> FailedToDownload /\ m <> ErrorMonitoring
            /\ Shape.row_of
                 (record_change monitored_url st content obfuscation_score
                    old_hash_info current_hash_info change_result)
               = updated monitored_url current_hash_info
            /\ Shape.notifications_sent
                 (record_change monitored_url st content obfuscation_score
                    old_hash_info current_hash_info change_result)
               = Shape.notifications_of m)).
Proof.
  unfold record_change, ContentStorage.store_content.
  cbv beta iota zeta.
  match goal with
  | |- context [match ?v with Py.Raised => _ | Py.Returned _ => _ end] =>
      destruct v as [[[m ch] notes]|] eqn:Ev
  end.
  2:{ split; [reflexivity|]. left. auto. }
  split; [reflexivity|]. right.
  assert (Hshape : Some ch = Shape.changed_of m
                   /\ notes = Shape.notifications_of m
                   /\ (forall c', m <> NoChangesDetected c')
                   /\ m <> FailedToDownload /\ m <> ErrorMonitoring).
  { revert Ev.
    destruct (hash_truthy (HashInfo.hash old_hash_info)).
    - destruct (ContentStorage.get_previous_content _ _) as [previous|].
      + destruct (Py.truthy previous).
        * destruct (Diff.generate_enhanced_html_diff _ _ _) as [[html|]|].
          -- destruct (Py.truthy html).
             ++ destruct (save_diff_file html); [|discriminate].
                intros E; inversion E; subst. cbn.
                repeat split; try discriminate; intros; discriminate.
             ++ intros E; inversion E; subst. cbn.
                repeat split; try discriminate; intros; discriminate.
          -- intros E; inversion E; subst. cbn.
             repeat split; try discriminate; intros; discriminate.
          -- discriminate.
        * intros E; inversion E; subst. cbn.
          repeat split; try discriminate; intros; discriminate.
      + intros E; inversion E; subst. cbn.
        repeat split; try discriminate; intros; discriminate.
    - intros E; inversion E; subst. cbn.
      repeat split; try discriminate; intros; discriminate. }
  destruct Hshape as (Hch & Hn & H1 & H2 & H3).
  exists m. eexists. unfold Shape.result_of, Shape.row_of,
    Shape.notifications_sent. cbn [fst snd].
  rewrite Hch. split; [reflexivity|]. auto.
Qed.

(** The outcomes of a cycle, by the components of what it yields. *)
Lemma cycle_outcomes (monitored_url : MonitoredUrl)
    (st : ContentStorage.storage) :
  (Shape.result_of (monitor_single_url monitored_url st)
   = failure (message_ (Shape.result_of
                          (monitor_single_url monitored_url st)))
   /\ (message_ (Shape.result_of (monitor_single_url monitored_url st))
       = FailedToDownload
       \/ message_ (Shape.result_of (monitor_single_url monitored_url st))
          = ErrorMonitoring)
   /\ Shape.row_of (monitor_single_url monitored_url st) = monitored_url
   /\ Shape.notifications_sent (monitor_single_url monitored_url st) = [])
  \/ (exists c m,
        Shape.result_of (monitor_single_url monitored_url st)
        = Result true (NoChangesDetected c) (Some false) (Some c) (Some m)
        /\ Shape.row_of (monitor_single_url monitored_url st)
           = checked monitored_url
        /\ Shape.store_of (monitor_single_url monitored_url st) = st
        /\ Shape.notifications_sent (monitor_single_url monitored_url st)
           = [])
  \/ (exists m c current_hash_info,
        Shape.result_of (monitor_single_url monitored_url st)
        = Result true m (Shape.changed_of m) (Some c)
            (Some (HashInfo.method current_hash_info))
        /\ (forall c', m <> NoChangesDetected c')
        /\ m <> FailedToDownload /\ m <> ErrorMonitoring
        /\ Shape.row_of (monitor_single_url monitored_url st)
           = updated monitored_url current_hash_info
        /\ Shape.notifications_sent (monitor_single_url monitored_url st)
           = Shape.notifications_of m).
Proof.
  assert (Hrec : forall content score old cur cr,
            monitor_single_url monitored_url st
            = record_change monitored_url st content score old cur cr ->
            (Shape.result_of (monitor_single_url monitored_url st)
             = failure (message_ (Shape.result_of
                                    (monitor_single_url monitored_url st)))
             /\ (message_ (Shape.result_of
                             (monitor_single_url monitored_url st))
                 = FailedToDownload
                 \/ message_ (Shape.result_of
                                (monitor_single_url monitored_url st))
                    = ErrorMonitoring)
             /\ Shape.row_of (monitor_single_url monitored_url st)
                = monitored_url
             /\ Shape.notifications_sent
                  (monitor_single_url monitored_url st) = [])
            \/ (exists c m,
                  Shape.result_of (monitor_single_url monitored_url st)
                  = Result true (NoChangesDetected c) (Some false) (Some c)
                      (Some m)
                  /\ Shape.row_of (monitor_single_url monitored_url st)
                     = checked monitored_url
                  /\ Shape.store_of (monitor_single_url monitored_url st)
                     = st
                  /\ Shape.notifications_sent
                       (monitor_single_url monitored_url st) = [])
            \/ (exists m c current_hash_info,
                  Shape.result_of (monitor_single_url monitored_url st)
                  = Result true m (Shape.changed_of m) (Some c)
                      (Some (HashInfo.method current_hash_info))
                  /\ (forall c', m <> NoChangesDetected c')
                  /\ m <> FailedToDownload /\ m <> ErrorMonitoring
                  /\ Shape.row_of (monitor_single_url monitored_url st)
                     = updated monitored_url current_hash_info
                  /\ Shape.notifications_sent
                       (monitor_single_url monitored_url st)
                     = Shape.notifications_of m)).
  { intros content score old cur cr E. rewrite E.
    destruct (record_change_outcomes monitored_url st content score old cur cr)
      as [_ [(Hr & Hrow & Hn)|(m & c & Hr & H1 & H2 & H3 & Hrow & Hn)]].
    - left. rewrite Hr. cbn. auto.
    - right. right. exists m, c, cur. auto 10. }
  unfold monitor_single_url in *.
  destruct (download_javascript (url monitored_url)) as [downloaded| |].
  2:{ left. cbn. auto. }
  2:{ left. cbn. auto. }
  cbv zeta in *.
  destruct (Fingerprint.generate_enhanced_ast_hash _) as [current_hash_info|].
  2:{ left. cbn. auto. }
  destruct (hash_truthy _).
  - destruct (detect_change _ _ _ _) as [change_result comparison].
    destruct (negb (ChangeResult.changed change_result)).
    + right. left. eexists. eexists. cbn. auto.
    + eapply Hrec. reflexivity.
  - eapply Hrec. reflexivity.
Qed.


Lemma cycle_store (monitored_url : MonitoredUrl)
    (st : ContentStorage.storage) :
  Shape.store_of (monitor_single_url monitored_url st) = st
  \/ exists content content_hash,
       Shape.store_of (monitor_single_url monitored_url st)
       = snd (ContentStorage.store_content st (id monitored_url)
                utcnow_timestamp content content_hash).
Proof.
  assert (Hrec : forall content score old cur cr,
            monitor_single_url monitored_url st
            = record_change monitored_url st content score old cur cr ->
            Shape.store_of (monitor_single_url monitored_url st) = st
            \/ exists content content_hash,
                 Shape.store_of (monitor_single_url monitored_url st)
                 = snd (ContentStorage.store_content st (id monitored_url)
                          utcnow_timestamp content content_hash)).
  { intros content score old cur cr E. rewrite E. right.
    destruct (record_change_outcomes monitored_url st content score old cur cr)
      as [Hs _].
    eexists. eexists. exact Hs. }
  unfold monitor_single_url in *.
  destruct (download_javascript (url monitored_url)) as [downloaded| |];
    [|left; reflexivity|left; reflexivity].
  cbv zeta in *.
  destruct (Fingerprint.generate_enhanced_ast_hash _) as [current_hash_info|];
    [|left; reflexivity].
  destruct (hash_truthy _).
  - destruct (detect_change _ _ _ _) as [change_result comparison].
    destruct (negb (ChangeResult.changed change_result)).
    + left. reflexivity.
    + eapply Hrec. reflexivity.
  - eapply Hrec. reflexivity.
Qed.

Lemma store_content_others (st : ContentStorage.storage) (url_id : nat)
    (timestamp : string) (content : Py.text) (content_hash : string)
    (u : nat) :
  u <> url_id ->
  snd (ContentStorage.store_content st url_id timestamp content content_hash)
    u = st u.
Proof.
  intros Hu. unfold ContentStorage.store_content, ContentStorage.set_dir.
  cbn [snd]. rewrite (proj2 (Nat.eqb_neq _ _) Hu). reflexivity.
Qed.

Lemma store_content_grows (st : ContentStorage.storage) (url_id : nat)
    (timestamp : string) (content : Py.text) (content_hash : string) :
  (forall name,
     In name (Spec.names_of st url_id) ->
     In name
       (Spec.names_of
          (snd (ContentStorage.store_content st url_id timestamp content
                  content_hash)) url_id))
  /\ (length
        (Spec.names_of
           (snd (ContentStorage.store_content st url_id timestamp content
                   content_hash)) url_id)
      <= length (Spec.names_of st url_id) + 1)%nat.
Proof.
  unfold Spec.names_of, ContentStorage.store_content, ContentStorage.set_dir,
    ContentStorage.write_file, ContentStorage.remove_file,
    ContentStorage.listdir.
  cbn [snd]. rewrite Nat.eqb_refl. cbn [map fst length].
  destruct (st url_id) as [d|]; cbn [filter map length].
  - split.
    + intros name Hin.
      destruct (String.eqb name
                  (ContentStorage.filename_of timestamp content_hash)) eqn:E.
      * left. apply String.eqb_eq in E. symmetry. exact E.
      * right. apply in_map_iff in Hin. destruct Hin as (f & <- & Hf).
        apply in_map. apply filter_In. split; [exact Hf|].
        rewrite E. reflexivity.
    + rewrite !length_map, Nat.add_1_r. apply le_n_S, filter_length_le.
  - split; [intros name []|lia].
Qed.

(** X20.  The footprint of a cycle on the version store: it stores at most one
    snapshot, of its own source; it never touches the snapshots of another
    source and never removes a name from its own. *)
Theorem cycle_stores_at_most_one_snapshot (monitored_url : MonitoredUrl)
    (st : ContentStorage.storage) :
  (Shape.store_of (monitor_single_url monitored_url st) = st
   \/ exists content content_hash,
        Shape.store_of (monitor_single_url monitored_url st)
        = snd (ContentStorage.store_content st (id monitored_url)
                 utcnow_timestamp content content_hash))
  /\ (forall u, u <> id monitored_url ->
        Shape.store_of (monitor_single_url monitored_url st) u = st u)
  /\ (forall name,
        In name (Spec.names_of st (id monitored_url)) ->
        In name
          (Spec.names_of (Shape.store_of (monitor_single_url monitored_url st))
             (id monitored_url)))
  /\ (length
        (Spec.names_of (Shape.store_of (monitor_single_url monitored_url st))
           (id monitored_url))
      <= length (Spec.names_of st (id monitored_url)) + 1)%nat.
Proof.
  split; [apply cycle_store|].
  destruct (cycle_store monitored_url st) as [E|(content & h & E)]; rewrite E.
  - split; [reflexivity|]. split; [auto|lia].
  - split; [intros u Hu; apply store_content_others; exact Hu|].
    apply store_content_grows.
Qed.

Lemma previous_hash_of_carrier (monitored_url : MonitoredUrl)
    (current_hash_info : HashInfo.t) :
  Shape.carries_hash monitored_url current_hash_info ->
  HashInfo.hash (previous_hash_info monitored_url)
  = HashInfo.hash current_hash_info.
Proof.
  intros [Hh Hcodec]. unfold previous_hash_info.
  destruct (has_last_hash_info monitored_url); [|exact Hh].
  destruct (last_hash_info monitored_url) as [stored|] eqn:Es; [|exact Hh].
  destruct (Py.truthy stored); [|exact Hh].
  destruct (json_loads stored) as [h'|] eqn:E; [|exact Hh].
  apply (Hcodec stored h'); [reflexivity|exact E].
Qed.

(** X21.  Checking a source whose row carries the hash of the download, as
    after an earlier cycle that updated the row, finds no change: the
    cycle reports "no changes detected" with confidence 0.99, stores
    nothing, notifies nobody, and writes nothing but [last_checked] to the
    row: [last_hash] and [last_hash_info] stay as they were. *)
Theorem recheck_finds_no_change (monitored_url : MonitoredUrl)
    (st : ContentStorage.storage) (downloaded : Py.text)
    (current_hash_info : HashInfo.t) :
  download_javascript (url monitored_url) = Fetched downloaded ->
  Fingerprint.generate_enhanced_ast_hash
    (beautify_javascript
       (if Py.lt 0.3 (get_obfuscation_score downloaded)
        then deobfuscate downloaded else downloaded))
  = Some current_hash_info ->
  hash_truthy (HashInfo.hash current_hash_info) = true ->
  Shape.carries_hash monitored_url current_hash_info ->
  monitor_single_url monitored_url st
  = (Result true (NoChangesDetected 0.99) (Some false) (Some 0.99)
       (Some (HashInfo.method current_hash_info)),
     checked monitored_url, st, [])
  /\ last_checked (Shape.row_of (monitor_single_url monitored_url st))
     = Some utcnow
  /\ last_hash (Shape.row_of (monitor_single_url monitored_url st))
     = last_hash monitored_url
  /\ last_hash_info (Shape.row_of (monitor_single_url monitored_url st))
     = last_hash_info monitored_url.
Proof.
  intros Hd Hh Ht Hcarries.
  pose proof (previous_hash_of_carrier monitored_url _ Hcarries) as Hprev.
  assert (E : monitor_single_url monitored_url st
              = (Result true (NoChangesDetected 0.99) (Some false) (Some 0.99)
                   (Some (HashInfo.method current_hash_info)),
                 checked monitored_url, st, [])).
  { unfold monitor_single_url.
    rewrite Hd. cbv zeta. rewrite Hh, Hprev, Ht.
    unfold detect_change.
    rewrite (ClassifierClaims.classify_equal_hash _ _ None Hprev).
    cbn [ChangeResult.confidence ChangeResult.changed].
    replace (Py.lt 0.99 0.80) with false by reflexivity.
    reflexivity. }
  rewrite E. repeat split.
Qed.

(** The row a cycle has updated carries the hash of its fingerprint,
    whatever the clock and the codec of that cycle were, as long as the
    codec of the next cycle reads the hash back. *)
Lemma updated_row_carries_hash (monitored_url : MonitoredUrl)
    (stored : option Py.text) (checked_at : option string)
    (current_hash_info : HashInfo.t) :
  (forall text h',
     stored = Some text -> json_loads text = Some h' ->
     HashInfo.hash h' = HashInfo.hash current_hash_info) ->
  Shape.carries_hash
    {| id := id monitored_url;
       url := url monitored_url;
       last_checked := checked_at;
       last_hash := HashInfo.hash current_hash_info;
       has_last_hash_info := has_last_hash_info monitored_url;
       last_hash_info := stored |}
    current_hash_info.
Proof. intros H. split; [reflexivity|exact H]. Qed.

End Cycle.

Lemma recheck_finds_no_change_witness :
  @monitor_single_url Samples.prefix_hashlib Samples.identity_normalizer
    Samples.accepting_esprima Samples.prefix_difflib Samples.bare_template
    Samples.quiet_world Fixtures.row_after_first_check ContentStorage.empty
  = (Result true (NoChangesDetected 0.99) (Some false) (Some 0.99)
       (Some (HashInfo.method Fixtures.fingerprint_v1)),
     @checked Samples.quiet_world Fixtures.row_after_first_check,
     ContentStorage.empty, [])
  /\ last_checked
       (Shape.row_of
          (@monitor_single_url Samples.prefix_hashlib
             Samples.identity_normalizer Samples.accepting_esprima
             Samples.prefix_difflib Samples.bare_template Samples.quiet_world
             Fixtures.row_after_first_check ContentStorage.empty))
     = Some (@utcnow Samples.quiet_world)
  /\ last_hash
       (Shape.row_of
          (@monitor_single_url Samples.prefix_hashlib
             Samples.identity_normalizer Samples.accepting_esprima
             Samples.prefix_difflib Samples.bare_template Samples.quiet_world
             Fixtures.row_after_first_check ContentStorage.empty))
     = last_hash Fixtures.row_after_first_check
  /\ last_hash_info
       (Shape.row_of
          (@monitor_single_url Samples.prefix_hashlib
             Samples.identity_normalizer Samples.accepting_esprima
             Samples.prefix_difflib Samples.bare_template Samples.quiet_world
             Fixtures.row_after_first_check ContentStorage.empty))
     = last_hash_info Fixtures.row_after_first_check.
Proof.
  apply (@recheck_finds_no_change Samples.prefix_hashlib
           Samples.identity_normalizer Samples.accepting_esprima
           Samples.prefix_difflib Samples.bare_template Samples.quiet_world
           Fixtures.row_after_first_check ContentStorage.empty
           Samples.script_v1 Fixtures.fingerprint_v1).
  - reflexivity.
  - vm_compute. reflexivity.
  - vm_compute. reflexivity.
  - split; [reflexivity|]. intros stored h' E. vm_compute in E.
    discriminate E.
Defined.


Section Run.
Context {hashlib : Hashlib} {normalizer : Normalizer} {esprima : Esprima}
        {difflib : Difflib} {template : PageTemplate} {world : World}.

Lemma check_url_eq (p : Run.progress) (monitored_url : MonitoredUrl) :
  Run.check_url p monitored_url
  = Run.Progress
      (Run.results_ p
       ++ [Shape.result_of (monitor_single_url monitored_url (Run.store p))])
      (if Run.get_changed
            (Shape.result_of (monitor_single_url monitored_url (Run.store p)))
       then true else Run.changes_detected_ p)
      (Run.rows p
       ++ [Shape.row_of (monitor_single_url monitored_url (Run.store p))])
      (Shape.store_of (monitor_single_url monitored_url (Run.store p)))
      (Run.sent p
       ++ Shape.notifications_sent
            (monitor_single_url monitored_url (Run.store p))).
Proof.
  unfold Run.check_url, Shape.result_of, Shape.row_of, Shape.store_of,
    Shape.notifications_sent.
  destruct (monitor_single_url monitored_url (Run.store p))
    as [[[r row] st1] notes].
  reflexivity.
Qed.

Lemma quiet_cycle_sends_nothing (monitored_url : MonitoredUrl)
    (st : ContentStorage.storage) :
  Run.get_changed (Shape.result_of (monitor_single_url monitored_url st))
  = false ->
  Shape.notifications_sent (monitor_single_url monitored_url st) = [].
Proof.
  destruct (cycle_outcomes monitored_url st)
    as [(_ & _ & _ & Hn)
       |[(c & m & _ & _ & _ & Hn)
        |(m & c & cur & Hr & _ & _ & _ & _ & Hn)]];
    [intros _; exact Hn|intros _; exact Hn|].
  rewrite Hr, Hn. unfold Run.get_changed. cbn [changed].
  destruct m; cbn; try reflexivity; discriminate.
Qed.

Lemma run_invariants (active_urls : list MonitoredUrl) :
  forall p0 : Run.progress,
    length (Run.results_ p0) = length (Run.rows p0) ->
    Run.changes_detected_ p0 = existsb Run.get_changed (Run.results_ p0) ->
    (Run.changes_detected_ p0 = false -> Run.sent p0 = []) ->
    length (Run.results_ (fold_left Run.check_url active_urls p0))
    = (length (Run.results_ p0) + length active_urls)%nat
    /\ length (Run.rows (fold_left Run.check_url active_urls p0))
       = (length (Run.rows p0) + length active_urls)%nat
    /\ Run.changes_detected_ (fold_left Run.check_url active_urls p0)
       = existsb Run.get_changed
           (Run.results_ (fold_left Run.check_url active_urls p0))
    /\ (Run.changes_detected_ (fold_left Run.check_url active_urls p0)
        = false ->
        Run.sent (fold_left Run.check_url active_urls p0) = [])
    /\ (forall u,
          (forall monitored_url,
             In monitored_url active_urls -> id monitored_url <> u) ->
          Run.store (fold_left Run.check_url active_urls p0) u
          = Run.store p0 u).
Proof.
  induction active_urls as [|monitored_url active_urls IH];
    intros p0 Hlen Hflag Hsent.
  - cbn [fold_left length]. rewrite !Nat.add_0_r. auto.
  - cbn [fold_left].
    pose proof (check_url_eq p0 monitored_url) as E.
    assert (L1 : length (Run.results_ (Run.check_url p0 monitored_url))
                 = (length (Run.results_ p0) + 1)%nat).
    { rewrite E. cbn [Run.results_]. rewrite length_app. reflexivity. }
    assert (L2 : length (Run.rows (Run.check_url p0 monitored_url))
                 = (length (Run.rows p0) + 1)%nat).
    { rewrite E. cbn [Run.rows]. rewrite length_app. reflexivity. }
    assert (L3 : forall u, id monitored_url <> u ->
                   Run.store (Run.check_url p0 monitored_url) u
                   = Run.store p0 u).
    { intros u Hu. rewrite E. cbn [Run.store].
      destruct (cycle_store monitored_url (Run.store p0))
        as [Es|(content & h & Es)]; rewrite Es; [reflexivity|].
      apply store_content_others. congruence. }
    destruct (IH (Run.check_url p0 monitored_url))
      as (H1 & H2 & H3 & H4 & H5).
    + lia.
    + rewrite E. cbn [Run.results_ Run.changes_detected_].
      rewrite existsb_app. cbn [existsb]. rewrite orb_false_r, Hflag.
      destruct (Run.get_changed _); [rewrite orb_true_r|rewrite orb_false_r];
        reflexivity.
    + rewrite E. cbn [Run.sent Run.changes_detected_].
      destruct (Run.get_changed _) eqn:Eg; [discriminate|].
      intros Hf. rewrite (Hsent Hf).
      rewrite (quiet_cycle_sends_nothing _ _ Eg). reflexivity.
    + cbn [length].
      split; [lia|]. split; [lia|]. split; [exact H3|].
      split; [exact H4|].
      intros u Hu. rewrite H5 by (intros m Hm; apply Hu; right; exact Hm).
      apply L3. apply Hu. left. reflexivity.
Qed.

(** X22.  The summary of a run over the active sources is consistent with what
    the run did: it counts the sources it was given; it reports a change
    exactly when one of the results is marked changed; a run that reports
    no change has sent no notification; the snapshots of a source that is
    not among the active ones are untouched; and without active sources
    nothing happens at all. *)
Theorem run_summary_is_consistent (active_urls : list MonitoredUrl)
    (st : ContentStorage.storage) :
  Run.urls_checked (fst (Run.run_monitoring_check active_urls st))
  = length active_urls
  /\ (active_urls <> [] ->
      Run.results (fst (Run.run_monitoring_check active_urls st))
      = Some (Run.results_ (snd (Run.run_monitoring_check active_urls st)))
      /\ length (Run.results_ (snd (Run.run_monitoring_check active_urls st)))
         = length active_urls)
  /\ (Run.changes_detected (fst (Run.run_monitoring_check active_urls st))
      = true
      <-> exists r,
            In r (Run.results_ (snd (Run.run_monitoring_check active_urls st)))
            /\ changed r = Some true)
  /\ (Run.changes_detected (fst (Run.run_monitoring_check active_urls st))
      = false ->
      Run.sent (snd (Run.run_monitoring_check active_urls st)) = [])
  /\ (forall u,
        (forall monitored_url,
           In monitored_url active_urls -> id monitored_url <> u) ->
        Run.store (snd (Run.run_monitoring_check active_urls st)) u = st u)
  /\ (active_urls = [] ->
      Run.run_monitoring_check active_urls st
      = (Run.Summary Run.NoActiveUrls false 0 None,
         Run.Progress [] false [] st [])).
Proof.
  destruct active_urls as [|monitored_url active_urls].
  { cbn. repeat split; try congruence; try discriminate.
    intros (r & [] & _). }
  unfold Run.run_monitoring_check. cbn [Py.truthy negb fst snd].
  destruct (run_invariants (monitored_url :: active_urls)
              (Run.Progress [] false [] st []))
    as (H1 & _ & H3 & H4 & H5); [reflexivity|reflexivity|reflexivity|].
  cbn [Run.urls_checked Run.results Run.changes_detected].
  split; [reflexivity|]. split; [intros _; split; [reflexivity|exact H1]|].
  split.
  - rewrite H3, existsb_exists. unfold Run.get_changed.
    split; intros (r & Hr & Hc); exists r; (split; [exact Hr|]).
    + destruct (changed r) as [[|]|]; congruence.
    + rewrite Hc. reflexivity.
  - split; [exact H4|]. split; [exact H5|]. discriminate.
Qed.

End Run.

Lemma filter_keeps_all {A} (f : A -> bool) (l : list A) :
  (length l <= length (filter f l))%nat -> Forall (fun x => f x = true) l.
Proof.
  induction l as [|x l IH]; intros H; [constructor|].
  cbn [filter] in H. pose proof (filter_length_le f l) as Hl.
  destruct (f x) eqn:E; cbn [length] in H.
  - constructor; [exact E|]. apply IH. lia.
  - lia.
Qed.

(** X23.  The message of a run tells the truth about the counts: "successfully
    checked" is reported only when every cycle succeeded, and otherwise
    the successful and the failed cycles add up to the sources checked,
    with at least one failure. *)
Theorem run_message_counts {hashlib : Hashlib} {normalizer : Normalizer}
    {esprima : Esprima} {difflib : Difflib} {template : PageTemplate}
    {world : World} (active_urls : list MonitoredUrl)
    (st : ContentStorage.storage) :
  match Run.message (fst (Run.run_monitoring_check active_urls st)) with
  | Run.NoActiveUrls => active_urls = []
  | Run.SuccessfullyChecked total changes_noted =>
      total = length active_urls
      /\ Forall (fun r => success r = true)
           (Run.results_ (snd (Run.run_monitoring_check active_urls st)))
      /\ changes_noted
         = Run.changes_detected (fst (Run.run_monitoring_check active_urls st))
  | Run.CheckedWithFailures total successful failed changes_noted =>
      total = length active_urls
      /\ (successful + failed = total)%nat
      /\ (0 < failed)%nat
      /\ successful
         = length (filter success
                     (Run.results_
                        (snd (Run.run_monitoring_check active_urls st))))
      /\ changes_noted
         = Run.changes_detected (fst (Run.run_monitoring_check active_urls st))
  end.
Proof.
  destruct active_urls as [|monitored_url active_urls]; [reflexivity|].
  unfold Run.run_monitoring_check. cbn [Py.truthy negb fst snd].
  destruct (run_invariants (monitored_url :: active_urls)
              (Run.Progress [] false [] st []))
    as (H1 & _); [reflexivity|reflexivity|reflexivity|].
  cbn [Run.results_ length Nat.add] in H1.
  set (p := fold_left Run.check_url (monitored_url :: active_urls)
              (Run.Progress [] false [] st [])) in *.
  pose proof (filter_length_le success (Run.results_ p)) as Hle.
  destruct (0 <? length (Run.results_ p)
                 - length (filter success (Run.results_ p)))%nat eqn:Ef;
    cbn [Run.message Run.changes_detected].
  - apply Nat.ltb_lt in Ef. cbn [length] in *. repeat split; try lia.
  - apply Nat.ltb_ge in Ef. split; [reflexivity|]. split; [|reflexivity].
    apply filter_keeps_all. lia.
Qed.

Section Snapshots.
Context {hashlib : Hashlib} {normalizer : Normalizer} {esprima : Esprima}
        {difflib : Difflib} {template : PageTemplate} {world : World}.

Lemma no_previous_content (st : ContentStorage.storage) (url_id : nat) :
  (length (Spec.names_of st url_id) <= 1)%nat ->
  ContentStorage.get_previous_content st url_id = None.
Proof.
  unfold Spec.names_of, ContentStorage.get_previous_content.
  destruct (st url_id) as [d|]; [|reflexivity]. intros H.
  rewrite (Permutation_length
             (StorageFacts.sorted_reverse_perm (ContentStorage.listdir d))).
  assert (E : (length (ContentStorage.listdir d) <? 2)%nat = true)
    by (apply Nat.ltb_lt; lia).
  rewrite E. reflexivity.
Qed.

(** X24.  The full-text comparison of a cycle reads the store before the new
    content is stored, so it needs two snapshots.  With fewer than two, as
    right after the first check, a differing hash on a row without stored
    hash info is always taken as a change, at the lower of 0.5 and the
    confidence of the new fingerprint, and the cycle goes on to store the
    content and to build the diff. *)
Theorem second_check_skips_full_text_comparison
    (monitored_url : MonitoredUrl) (st : ContentStorage.storage)
    (downloaded : Py.text) (current_hash_info : HashInfo.t) :
  Shape.legacy_row monitored_url ->
  hash_truthy (last_hash monitored_url) = true ->
  (length (Spec.names_of st (id monitored_url)) <= 1)%nat ->
  download_javascript (url monitored_url) = Fetched downloaded ->
  Fingerprint.generate_enhanced_ast_hash
    (beautify_javascript
       (if Py.lt 0.3 (get_obfuscation_score downloaded)
        then deobfuscate downloaded else downloaded))
  = Some current_hash_info ->
  last_hash monitored_url <> HashInfo.hash current_hash_info ->
  monitor_single_url monitored_url st
  = record_change monitored_url st
      (beautify_javascript
         (if Py.lt 0.3 (get_obfuscation_score downloaded)
          then deobfuscate downloaded else downloaded))
      (get_obfuscation_score downloaded)
      (legacy_hash_info monitored_url) current_hash_info
      (Some (ChangeResult.Make true
               (Py.min 0.5 (HashInfo.confidence current_hash_info)) None)).
Proof.
  intros Hrow Ht Hlen Hd Hh Hne.
  unfold monitor_single_url. rewrite Hd. cbv zeta. rewrite Hh.
  assert (Ep : previous_hash_info monitored_url
               = legacy_hash_info monitored_url).
  { unfold previous_hash_info. rewrite Hrow. reflexivity. }
  rewrite Ep.
  change (HashInfo.hash (legacy_hash_info monitored_url))
    with (last_hash monitored_url).
  rewrite Ht. rewrite (no_previous_content _ _ Hlen).
  assert (Ec : Classifier.calculate_change_confidence
                 (legacy_hash_info monitored_url) current_hash_info None
               = ChangeResult.Make true
                   (Py.min 0.5 (HashInfo.confidence current_hash_info))
                   None).
  { unfold Classifier.calculate_change_confidence.
    change (HashInfo.hash (legacy_hash_info monitored_url))
      with (last_hash monitored_url).
    rewrite (proj2 (ClassifierFacts.hash_eqb_neq _ _) Hne). reflexivity. }
  unfold detect_change. rewrite Ec.
  destruct (Py.lt (ChangeResult.confidence _) 0.80); reflexivity.
Qed.

End Snapshots.

Lemma second_check_skips_full_text_comparison_witness :
  @monitor_single_url Samples.prefix_hashlib Samples.identity_normalizer
    Samples.accepting_esprima Samples.prefix_difflib Samples.bare_template
    Samples.quiet_world Fixtures.checked_url ContentStorage.empty
  = @record_change Samples.prefix_difflib Samples.bare_template
      Samples.quiet_world Fixtures.checked_url ContentStorage.empty
      (@beautify_javascript Samples.quiet_world
         (if Py.lt 0.3
               (@get_obfuscation_score Samples.quiet_world Samples.script_v1)
          then @deobfuscate Samples.quiet_world Samples.script_v1
          else Samples.script_v1))
      (@get_obfuscation_score Samples.quiet_world Samples.script_v1)
      (legacy_hash_info Fixtures.checked_url) Fixtures.fingerprint_v1
      (Some Fixtures.first_verdict_v1).
Proof.
  apply (@second_check_skips_full_text_comparison Samples.prefix_hashlib
           Samples.identity_normalizer Samples.accepting_esprima
           Samples.prefix_difflib Samples.bare_template Samples.quiet_world
           Fixtures.checked_url ContentStorage.empty Samples.script_v1
           Fixtures.fingerprint_v1).
  - reflexivity.
  - reflexivity.
  - vm_compute. lia.
  - reflexivity.
  - vm_compute. reflexivity.
  - vm_compute. discriminate.
Defined.

End MonitorInvariants.

(* ================================================================== *)
(** * Properties of the report names and of the obfuscation score       *)
(* ================================================================== *)

Module DiffFileFacts.
Import DiffFile.

Lemma sanitize_cons (c : ascii) (url : Py.text) :
  sanitize_url_to_filename (c :: url)
  = (if PyStr.isalnum c then c else "_"%char) :: sanitize_url_to_filename url.
Proof.
  unfold sanitize_url_to_filename, Py.concat. cbn [map concat].
  destruct (PyStr.isalnum c); reflexivity.
Qed.

Lemma sanitize_chars (url : Py.text) :
  Forall (fun c => PyStr.isalnum c = true \/ c = "_"%char)
    (sanitize_url_to_filename url).
Proof.
  induction url as [|c url IH]; [constructor|].
  rewrite sanitize_cons. constructor; [|exact IH].
  destruct (PyStr.isalnum c) eqn:E; [left; exact E|right; reflexivity].
Qed.

Lemma sanitize_length (url : Py.text) :
  length (sanitize_url_to_filename url) = length url.
Proof.
  induction url as [|c url IH]; [reflexivity|].
  rewrite sanitize_cons. cbn [length]. rewrite IH. reflexivity.
Qed.

Lemma sanitize_idempotent (url : Py.text) :
  sanitize_url_to_filename (sanitize_url_to_filename url)
  = sanitize_url_to_filename url.
Proof.
  induction url as [|c url IH]; [reflexivity|].
  rewrite sanitize_cons, sanitize_cons, IH.
  destruct (PyStr.isalnum c) eqn:E; [rewrite E; reflexivity|reflexivity].
Qed.

Lemma safe_app (a b : Py.text) :
  Forall (fun c => Shape.safe_char c = true) a ->
  Forall (fun c => Shape.safe_char c = true) b ->
  Forall (fun c => Shape.safe_char c = true) (a ++ b).
Proof. intros Ha Hb. apply Forall_app. split; assumption. Qed.

(** X25.  The name of a diff report is safe whatever the URL is: sanitising keeps
    the length of the URL, leaves letters and digits and turns every other
    character into an underscore, and is idempotent; so the file name holds
    letters, digits, underscores and dots only, and in particular no path
    separator, as long as the time stamp does. *)
Theorem report_name_is_safe (url timestamp : Py.text) :
  Forall (fun c => Shape.safe_char c = true) timestamp ->
  length (sanitize_url_to_filename url) = length url
  /\ Forall (fun c => PyStr.isalnum c = true \/ c = "_"%char)
       (sanitize_url_to_filename url)
  /\ sanitize_url_to_filename (sanitize_url_to_filename url)
     = sanitize_url_to_filename url
  /\ Forall (fun c => Shape.safe_char c = true) (filename url timestamp)
  /\ ~ In "/"%char (filename url timestamp)
  /\ ~ In "\"%char (filename url timestamp).
Proof.
  intros Hts.
  assert (Hsafe : Forall (fun c => Shape.safe_char c = true)
                    (filename url timestamp)).
  { unfold filename. repeat apply safe_app.
    - repeat constructor.
    - eapply Forall_impl; [|apply sanitize_chars].
      intros c [H| ->]; [|reflexivity].
      unfold Shape.safe_char. rewrite H. reflexivity.
    - repeat constructor.
    - exact Hts.
    - repeat constructor. }
  split; [|split; [|split; [|split; [|split]]]].
  - apply sanitize_length.
  - apply sanitize_chars.
  - apply sanitize_idempotent.
  - exact Hsafe.
  - intros Hin. rewrite Forall_forall in Hsafe.
    specialize (Hsafe _ Hin). discriminate Hsafe.
  - intros Hin. rewrite Forall_forall in Hsafe.
    specialize (Hsafe _ Hin). discriminate Hsafe.
Qed.

Lemma report_name_is_safe_witness :
  length (sanitize_url_to_filename Samples.sample_url)
  = length Samples.sample_url
  /\ Forall (fun c => PyStr.isalnum c = true \/ c = "_"%char)
       (sanitize_url_to_filename Samples.sample_url)
  /\ sanitize_url_to_filename (sanitize_url_to_filename Samples.sample_url)
     = sanitize_url_to_filename Samples.sample_url
  /\ Forall (fun c => Shape.safe_char c = true)
       (filename Samples.sample_url Fixtures.report_timestamp)
  /\ ~ In "/"%char (filename Samples.sample_url Fixtures.report_timestamp)
  /\ ~ In "\"%char (filename Samples.sample_url Fixtures.report_timestamp).
Proof.
  apply (report_name_is_safe Samples.sample_url Fixtures.report_timestamp).
  repeat constructor.
Defined.

(** The report of the sample URL. *)
Example report_name_of_sample_url :
  filename Samples.sample_url Fixtures.report_timestamp
  = Py.lit "diff_http___example_com_test_js_20260107_120000.html".
Proof. vm_compute. reflexivity. Qed.

End DiffFileFacts.

Module DeobfuscatorFacts.
Import Deobfuscator.
Local Open Scope Q_scope.

Section Score.
Context {regex : Regex}.

Lemma add_indicators_lower (code : Py.text) (inds : list (string * Q))
    (score : Q) :
  Forall (fun i => 0 <= snd i) inds ->
  score <= fold_left (add_indicator code) inds score.
Proof.
  revert score. induction inds as [|[pattern weight] inds IH];
    intros score H; cbn [fold_left].
  - lra.
  - inversion H as [|? ? Hw Hi]; subst. cbn [snd] in Hw.
    eapply Qle_trans; [|apply IH; exact Hi].
    unfold add_indicator. destruct (re_search pattern code); lra.
Qed.

Lemma add_indicators_found (code : Py.text) (inds : list (string * Q))
    (score : Q) (pattern : string) (weight : Q) :
  Forall (fun i => 0 <= snd i) inds ->
  In (pattern, weight) inds ->
  re_search pattern code = true ->
  score + weight <= fold_left (add_indicator code) inds score.
Proof.
  revert score. induction inds as [|[p w] inds IH];
    intros score H Hin Hs; [destruct Hin|].
  inversion H as [|? ? Hw Hi]; subst. cbn [snd] in Hw. cbn [fold_left].
  destruct Hin as [E|Hin].
  - inversion E; subst p w.
    eapply Qle_trans; [|apply add_indicators_lower; exact Hi].
    unfold add_indicator. rewrite Hs. lra.
  - eapply Qle_trans; [|apply IH; assumption].
    unfold add_indicator. destruct (re_search p code); lra.
Qed.

Lemma indicators_nonnegative : Forall (fun i => 0 <= snd i) indicators.
Proof. unfold indicators. repeat constructor; cbn [snd]; lra. Qed.

Lemma entropy_term_nonnegative (unique_chars : nat) :
  0 <= Py.min (Py.float unique_chars / 50) 1.0 * 0.2.
Proof.
  assert (H : 0 <= Py.float unique_chars / 50).
  { apply Qle_shift_div_l; [lra|]. rewrite Qmult_0_l.
    apply ClassifierInvariants.float_nonneg. }
  assert (0 <= Py.min (Py.float unique_chars / 50) 1.0)
    by (apply PyFacts.min_glb; [exact H|lra]).
  nra.
Qed.

Lemma ratio_term_nonnegative (short_vars total_vars : nat) :
  (0 < total_vars)%nat ->
  0 <= Py.float short_vars / Py.float total_vars * 0.15.
Proof.
  intros Ht.
  assert (H : 0 <= Py.float short_vars / Py.float total_vars).
  { apply Qle_shift_div_l.
    - apply ClassifierInvariants.float_pos. exact Ht.
    - rewrite Qmult_0_l. apply ClassifierInvariants.float_nonneg. }
  nra.
Qed.

Lemma score_lower (code : Py.text) (base : Q) :
  Py.truthy code = true ->
  base <= fold_left (add_indicator code) indicators 0.0 ->
  Py.min base 1.0 <= get_obfuscation_score code.
Proof.
  intros Ht Hb. unfold get_obfuscation_score. rewrite Ht. cbn [negb].
  cbv zeta.
  set (s0 := fold_left (add_indicator code) indicators 0.0) in *.
  set (s1 := if (100 <? length code)%nat
             then s0 + Py.min (Py.float (PyStr.distinct code) / 50) 1.0 * 0.2
             else s0).
  assert (H1 : s0 <= s1).
  { unfold s1. destruct (100 <? length code)%nat; [|lra].
    pose proof (entropy_term_nonnegative (PyStr.distinct code)). lra. }
  set (s2 := if (0 <? findall_count variable_pattern code)%nat
             then s1
                  + Py.float (findall_count short_variable_pattern code)
                    / Py.float (findall_count variable_pattern code) * 0.15
             else s1).
  assert (H2 : s1 <= s2).
  { unfold s2. destruct (0 <? _)%nat eqn:E; [|lra].
    apply Nat.ltb_lt in E.
    pose proof (ratio_term_nonnegative
                  (findall_count short_variable_pattern code) _ E). lra. }
  apply PyFacts.min_glb.
  - eapply Qle_trans; [apply PyFacts.min_le_l|]. lra.
  - apply PyFacts.min_le_r.
Qed.

(** X26.  The obfuscation score lies between 0 and 1 for every text, whatever
    the regular expressions find, and is 0 for the empty text. *)
Theorem obfuscation_score_in_unit_interval (code : Py.text) :
  0 <= get_obfuscation_score code <= 1
  /\ get_obfuscation_score [] = 0.0.
Proof.
  split; [|reflexivity].
  destruct (Py.truthy code) eqn:Ht.
  - split.
    + pose proof (score_lower code 0.0 Ht
                    (add_indicators_lower code indicators 0.0
                       indicators_nonnegative)) as H.
      eapply Qle_trans; [|exact H]. apply PyFacts.min_glb; lra.
    + unfold get_obfuscation_score. rewrite Ht. cbn [negb]. cbv zeta.
      eapply Qle_trans; [apply PyFacts.min_le_r|]. lra.
  - unfold get_obfuscation_score. rewrite Ht. cbn [negb]. lra.
Qed.

(** X27.  A text in which the pattern of packed code is found scores at least
    0.4, above the threshold of 0.3 beyond which the cycle deobfuscates
    the download. *)
Theorem packed_code_is_deobfuscated (code : Py.text) :
  code <> [] ->
  re_search packed_code_pattern code = true ->
  0.4 <= get_obfuscation_score code
  /\ Py.lt 0.3 (get_obfuscation_score code) = true.
Proof.
  intros Hne Hs.
  assert (Ht : Py.truthy code = true) by (destruct code; [congruence|reflexivity]).
  assert (H : 0.4 <= get_obfuscation_score code).
  { pose proof (score_lower code (0.0 + 0.4) Ht) as H.
    eapply Qle_trans; [|apply H].
    - apply PyFacts.min_glb; lra.
    - apply (add_indicators_found code indicators 0.0 packed_code_pattern 0.4
               indicators_nonnegative); [|exact Hs].
      unfold indicators. cbn [In]. auto 10. }
  split; [exact H|]. apply PyFacts.lt_spec. lra.
Qed.

End Score.

Lemma packed_code_is_deobfuscated_witness :
  0.4 <= @get_obfuscation_score Fixtures.packed_only_regex
           Fixtures.packed_script
  /\ Py.lt 0.3 (@get_obfuscation_score Fixtures.packed_only_regex
                  Fixtures.packed_script) = true.
Proof.
  apply (@packed_code_is_deobfuscated Fixtures.packed_only_regex
           Fixtures.packed_script).
  - vm_compute. discriminate.
  - vm_compute. reflexivity.
Defined.

End DeobfuscatorFacts.

(* ================================================================== *)
(** * Properties of the cleaning of a syntax tree                       *)
(* ================================================================== *)

Module AstFacts.
Import Ast.

(** Induction on a tree, with the property at hand for every child. *)
Lemma node_induction (P : node -> Prop) :
  (forall items, Forall (fun kv => P (snd kv)) items -> P (Dict items)) ->
  (forall items, Forall P items -> P (List items)) ->
  (forall class_name attrs,
     Forall (fun kv => P (snd kv)) attrs -> P (Object class_name attrs)) ->
  (forall s, P (Str s)) ->
  (forall z, P (Int z)) ->
  (forall q, P (Float q)) ->
  (forall b, P (Bool b)) ->
  P NoneValue ->
  (forall type_name, P (Other type_name)) ->
  forall n, P n.
Proof.
  intros HD HL HO HS HI HF HB HN HX.
  fix IH 1. intros [items|items|class_name attrs|s|z|q|b| |type_name].
  - apply HD. induction items as [|[key value] items IHi];
      constructor; [apply IH|exact IHi].
  - apply HL. induction items as [|item items IHi];
      constructor; [apply IH|exact IHi].
  - apply HO. induction attrs as [|[key value] attrs IHi];
      constructor; [apply IH|exact IHi].
  - apply HS.
  - apply HI.
  - apply HF.
  - apply HB.
  - apply HN.
  - apply HX.
Qed.

Lemma clean_cut (n : node) (max_depth current_depth : nat) :
  max_depth < current_depth ->
  clean_ast_for_hashing n max_depth current_depth = max_depth_reached.
Proof.
  intros H. apply Nat.ltb_lt in H. destruct n; cbn [clean_ast_for_hashing]; rewrite H; reflexivity.
Qed.

Lemma clean_dict (items : list (string * node))
    (max_depth current_depth : nat) :
  current_depth <= max_depth ->
  clean_ast_for_hashing (Dict items) max_depth current_depth
  = Dict (clean_items
            (fun value =>
               clean_ast_for_hashing value max_depth (current_depth + 1))
            items).
Proof.
  intros H. apply Nat.ltb_ge in H. cbn [clean_ast_for_hashing]. rewrite H.
  reflexivity.
Qed.

Lemma clean_list (items : list node) (max_depth current_depth : nat) :
  current_depth <= max_depth ->
  clean_ast_for_hashing (List items) max_depth current_depth
  = List (map (fun item =>
                 clean_ast_for_hashing item max_depth (current_depth + 1))
            items).
Proof.
  intros H. apply Nat.ltb_ge in H. cbn [clean_ast_for_hashing]. rewrite H.
  reflexivity.
Qed.

(** The equation of the source for an object: the call on its
    [__dict__], one level deeper. *)
Lemma clean_object (class_name : string) (attrs : list (string * node))
    (max_depth current_depth : nat) :
  current_depth <= max_depth ->
  clean_ast_for_hashing (Object class_name attrs) max_depth current_depth
  = clean_ast_for_hashing (Dict attrs) max_depth (current_depth + 1).
Proof.
  intros H. apply Nat.ltb_ge in H. cbn [clean_ast_for_hashing]. rewrite H.
  reflexivity.
Qed.

Lemma clean_items_plain (clean : node -> node)
    (items : list (string * node)) :
  Forall (fun kv => Shape.plain (clean (snd kv)) = true) items ->
  Shape.plain (Dict (clean_items clean items)) = true.
Proof.
  cbn [Shape.plain].
  induction 1 as [|[key value] items Hv _ IH]; [reflexivity|].
  cbn [clean_items]. destruct (skipped key) eqn:E; [exact IH|].
  cbn [forallb fst snd]. rewrite E. cbn [negb andb].
  cbn [snd] in Hv. rewrite Hv. exact IH.
Qed.

(** X28.  What the cleaning returns is plain data, ready to be serialised, and
    holds none of the skipped keys at any depth: no object and no value
    of an unknown type is left, whatever tree and depth limit it is
    called with. *)
Theorem cleaned_tree_is_plain (n : node) (max_depth current_depth : nat) :
  Shape.plain (clean_ast_for_hashing n max_depth current_depth) = true.
Proof.
  revert current_depth.
  induction n as [items IH|items IH|class_name attrs IH|s|z|q|b| |type_name]
    using node_induction; intros current_depth;
    destruct (Nat.lt_ge_cases max_depth current_depth) as [Hcut|Hin];
    try (rewrite clean_cut by exact Hcut; reflexivity);
    try (cbn [clean_ast_for_hashing];
         rewrite (proj2 (Nat.ltb_ge _ _) Hin); reflexivity).
  - rewrite clean_dict by exact Hin. apply clean_items_plain.
    eapply Forall_impl; [|exact IH]. intros kv H. apply H.
  - rewrite clean_list by exact Hin. cbn [Shape.plain].
    induction IH as [|item items Hitem _ IHitems]; [reflexivity|].
    cbn [map forallb]. rewrite Hitem, IHitems. reflexivity.
  - rewrite clean_object by exact Hin.
    destruct (Nat.lt_ge_cases max_depth (current_depth + 1)) as [Hcut|Hin'].
    + rewrite clean_cut by exact Hcut. reflexivity.
    + rewrite clean_dict by exact Hin'. apply clean_items_plain.
      eapply Forall_impl; [|exact IH]. intros kv H. apply H.
Qed.

Lemma clean_items_agree (f g : node -> node)
    (items1 items2 : list (string * node)) (P : node -> node -> Prop) :
  (forall a b, P a b -> f a = g b) ->
  Forall2 (fun kv1 kv2 => fst kv1 = fst kv2 /\ P (snd kv1) (snd kv2))
    items1 items2 ->
  clean_items f items1 = clean_items g items2.
Proof.
  intros Hfg. induction 1 as [|[k1 v1] [k2 v2] items1 items2 [Hk Hv] _ IH];
    [reflexivity|].
  cbn [fst snd] in Hk, Hv. subst k2. cbn [clean_items].
  rewrite IH, (Hfg _ _ Hv). reflexivity.
Qed.

(** X29.  A change below the depth limit is invisible: two trees that agree on
    the levels the cleaning reaches (an object counting for two, itself
    and its attributes) are cleaned to the same tree. *)
Theorem changes_below_depth_limit_are_invisible (a b : node)
    (max_depth current_depth : nat) :
  Shape.agree (S max_depth - current_depth) a b ->
  clean_ast_for_hashing a max_depth current_depth
  = clean_ast_for_hashing b max_depth current_depth.
Proof.
  remember (S max_depth - current_depth) as k eqn:Hk.
  revert a b current_depth Hk.
  induction k as [|k IH]; intros a b current_depth Hk Ha.
  - rewrite !clean_cut by lia. reflexivity.
  - assert (Hin : current_depth <= max_depth) by lia.
    assert (Hk' : k = S max_depth - (current_depth + 1)) by lia.
    destruct a as [i1|i1|c1 a1|s1|z1|q1|b1| |t1];
      destruct b as [i2|i2|c2 a2|s2|z2|q2|b2| |t2];
      cbn [Shape.agree] in Ha; try reflexivity;
      try (rewrite Ha; reflexivity); try discriminate Ha.
    + rewrite !clean_dict by exact Hin. f_equal.
      apply (clean_items_agree _ _ _ _ (Shape.agree k)); [|exact Ha].
      intros x y Hxy. apply IH; [exact Hk'|exact Hxy].
    + rewrite !clean_list by exact Hin. f_equal.
      induction Ha as [|x y l1 l2 Hxy _ IHl]; [reflexivity|].
      cbn [map]. rewrite IHl, (IH x y (current_depth + 1) Hk' Hxy).
      reflexivity.
    + rewrite !clean_object by exact Hin.
      apply IH; [exact Hk'|exact Ha].
Qed.

Lemma changes_below_depth_limit_are_invisible_witness :
  clean_ast_for_hashing Fixtures.deep_tree_1 max_depth_default 0
  = clean_ast_for_hashing Fixtures.deep_tree_2 max_depth_default 0.
Proof.
  apply (changes_below_depth_limit_are_invisible Fixtures.deep_tree_1
           Fixtures.deep_tree_2 max_depth_default 0).
  vm_compute. repeat constructor.
Defined.

Lemma clean_items_twice (f g : node -> node) (items : list (string * node)) :
  clean_items f (clean_items g items)
  = clean_items (fun value => f (g value)) items.
Proof.
  induction items as [|[key value] items IH]; [reflexivity|].
  cbn [clean_items]. destruct (skipped key) eqn:E; [exact IH|].
  cbn [clean_items]. rewrite E, IH. reflexivity.
Qed.

Lemma clean_items_ext (f g : node -> node) (items : list (string * node)) :
  Forall (fun kv => f (snd kv) = g (snd kv)) items ->
  clean_items f items = clean_items g items.
Proof.
  induction 1 as [|[key value] items Hv _ IH]; [reflexivity|].
  cbn [clean_items]. cbn [snd] in Hv. rewrite Hv, IH. reflexivity.
Qed.

(** X30.  The position data never reaches the result: taking the skipped keys
    out of every dictionary and object of a tree beforehand, at any
    depth, does not change what the cleaning returns. *)
Theorem positions_do_not_matter (n : node) (max_depth current_depth : nat) :
  clean_ast_for_hashing (Shape.without_positions n) max_depth current_depth
  = clean_ast_for_hashing n max_depth current_depth.
Proof.
  revert current_depth.
  induction n as [items IH|items IH|class_name attrs IH|s|z|q|b| |type_name]
    using node_induction; intros current_depth; try reflexivity;
    destruct (Nat.lt_ge_cases max_depth current_depth) as [Hcut|Hin];
    try (rewrite !clean_cut by exact Hcut; reflexivity).
  - cbn [Shape.without_positions]. rewrite !clean_dict by exact Hin.
    rewrite clean_items_twice. f_equal. apply clean_items_ext.
    eapply Forall_impl; [|exact IH]. intros kv H. apply H.
  - cbn [Shape.without_positions]. rewrite !clean_list by exact Hin.
    rewrite map_map. f_equal. apply map_ext_in. intros item Hitem.
    rewrite Forall_forall in IH. apply IH. exact Hitem.
  - cbn [Shape.without_positions]. rewrite !clean_object by exact Hin.
    destruct (Nat.lt_ge_cases max_depth (current_depth + 1)) as [Hcut|Hin'].
    + rewrite !clean_cut by exact Hcut. reflexivity.
    + rewrite !clean_dict by exact Hin'.
      rewrite clean_items_twice. f_equal. apply clean_items_ext.
      eapply Forall_impl; [|exact IH]. intros kv H. apply H.
Qed.

End AstFacts.
